(** * Scheduling-Agent: the schedule service and the conversational agent

    A shallow embedding of [backend/app/services/schedule_service.py], of
    [backend/app/agents/scheduling_agent.py] and of the bulk deletion of
    [backend/app/api/routes/scheduling.py], followed by the properties
    stated about them.

    Conventions of the embedding:
    - a [datetime] is the number of microseconds since 0001-01-01T00:00:00
      (a Monday), as an integer; a [timedelta] is a number of microseconds;
      datetimes are naive (no zone) and the bounds of Python's [datetime]
      range are not modelled;
    - a Python [str] is a [string], one [ascii] per character (text is
      taken to be ASCII; glyphs outside ASCII are left out of the reply
      literals);
    - the meeting table is the list of its rows in primary-key order; the
      database is always reachable, so the [except] branches of the service
      methods, which only guard database faults, are not taken;
    - the columns of a meeting have the types the model declares; title
      and description may be NULL ([None]), the other columns are not. *)

From Stdlib Require Import ZArith QArith Ascii String List Lia Bool.
From stdpp Require Import base option list sorting gmap pretty.

Open Scope string_scope.
Open Scope list_scope.
Open Scope Z_scope.

(* ===================================================================== *)
(** * datetime and timedelta *)
(* ===================================================================== *)

Definition datetime := Z.

Definition US_PER_MINUTE : Z := 60000000.
Definition US_PER_HOUR : Z := 3600000000.
Definition US_PER_DAY : Z := 86400000000.

(** [timedelta(minutes=n)] and [timedelta(days=n)]. *)
Definition timedelta_minutes (n : Z) : Z := n * US_PER_MINUTE.
Definition timedelta_days (n : Z) : Z := n * US_PER_DAY.

(** [d.date()], as a day number (0 is 0001-01-01). *)
Definition dt_date (d : datetime) : Z := d `div` US_PER_DAY.
(** [d.hour], [d.minute]. *)
Definition dt_hour (d : datetime) : Z := (d `div` US_PER_HOUR) `mod` 24.
Definition dt_minute (d : datetime) : Z := (d `div` US_PER_MINUTE) `mod` 60.
(** [d.weekday()]: Monday is 0. *)
Definition dt_weekday (d : datetime) : Z := dt_date d `mod` 7.
(** [d.replace(hour=h, minute=0, second=0, microsecond=0)]. *)
Definition dt_replace_hour (d : datetime) (h : Z) : datetime :=
  dt_date d * US_PER_DAY + h * US_PER_HOUR.
(** [datetime.combine(day, time(hour=h, minute=m))]. *)
Definition dt_combine (day h m : Z) : datetime :=
  day * US_PER_DAY + h * US_PER_HOUR + m * US_PER_MINUTE.

(* ===================================================================== *)
(** * models/schedule.py *)
(* ===================================================================== *)

(** An element of a participant list (a JSON list): a user id, or a
    string (a name or an e-mail address). *)
Inductive participant :=
| PId (uid : nat)
| PName (name : string).

#[global] Instance participant_eq_dec : EqDecision participant.
Proof. solve_decision. Defined.

Record Meeting := mkMeeting {
  id : nat;
  title : option string;
  description : option string;
  duration_minutes : Z;
  start_time : datetime;
  end_time : datetime;
  organizer_id : nat;
  participants : list participant;
  status : string;
  meeting_type : string
}.

#[global] Instance Meeting_eq_dec : EqDecision Meeting.
Proof. solve_decision. Defined.

(** [MeetingUpdate]: every field optional. *)
Record MeetingUpdate := mkMeetingUpdate {
  u_title : option string;
  u_description : option string;
  u_duration_minutes : option Z;
  u_start_time : option datetime;
  u_end_time : option datetime;
  u_participants : option (list participant);
  u_status : option string
}.

Definition MeetingUpdate_empty : MeetingUpdate :=
  mkMeetingUpdate None None None None None None None.

(** The dictionary handed to [ScheduleService.create_meeting]. *)
Record MeetingData := mkMeetingData {
  md_title : option string;
  md_description : option string;
  md_duration_minutes : Z;
  md_start_time : datetime;
  md_end_time : datetime;
  md_organizer_id : nat;
  md_participants : list participant;
  md_meeting_type : option string;
  md_status : option string
}.

(* ===================================================================== *)
(** * list.sort(key=..., reverse=True) *)
(* ===================================================================== *)

(** Python's sort is stable, also with [reverse=True]: elements with equal
    keys keep their order.  [gt x y] says that the key of [x] is strictly
    greater than the key of [y]. *)
Section Sort.
Context {A : Type} (gt : A -> A -> bool).

Fixpoint insert_desc (x : A) (l : list A) : list A :=
  match l with
  | [] => [x]
  | y :: l' => if gt y x then y :: insert_desc x l' else x :: l
  end.

Definition sort_desc (l : list A) : list A := foldr insert_desc [] l.
End Sort.

(* ===================================================================== *)
(** * services/schedule_service.py *)
(* ===================================================================== *)

Module ScheduleService.

Definition DB := list Meeting.

(** The next value of the autoincrement primary key. *)
Definition fresh_id (db : DB) : nat := S (foldr Nat.max 0%nat (map id db)).

Definition create_meeting (db : DB) (meeting_data : MeetingData)
  : DB * option Meeting :=
  let meeting :=
    {| id := fresh_id db;
       title := md_title meeting_data;
       description := md_description meeting_data;
       duration_minutes := md_duration_minutes meeting_data;
       start_time := md_start_time meeting_data;
       end_time := md_end_time meeting_data;
       organizer_id := md_organizer_id meeting_data;
       participants := md_participants meeting_data;
       meeting_type := default "general" (md_meeting_type meeting_data);
       status := default "proposed" (md_status meeting_data) |} in
  (db ++ [meeting], Some meeting).

Definition get_meeting (db : DB) (meeting_id : nat) : option Meeting :=
  List.find (fun m => Nat.eqb (id m) meeting_id) db.

(** [meeting.organizer_id == user_id], then
    [meeting.participants and user_id in meeting.participants]. *)
Definition involves (user_id : nat) (meeting : Meeting) : bool :=
  Nat.eqb (organizer_id meeting) user_id
  || bool_decide (PId user_id ∈ participants meeting).

Definition get_user_meetings (db : DB) (user_id : nat)
    (status_filter : option string) : list Meeting :=
  let all_meetings :=
    match status_filter with
    | Some s => if String.eqb s "" then db
                else List.filter (fun m => String.eqb (status m) s) db
    | None => db
    end in
  let user_meetings := List.filter (involves user_id) all_meetings in
  sort_desc (fun x y => start_time y <? start_time x) user_meetings.

Definition apply_update (meeting_data : MeetingUpdate) (meeting : Meeting)
  : Meeting :=
  {| id := id meeting;
     title :=
       match u_title meeting_data with
       | Some t => Some t
       | None => title meeting
       end;
     description :=
       match u_description meeting_data with
       | Some d => Some d
       | None => description meeting
       end;
     duration_minutes :=
       default (duration_minutes meeting) (u_duration_minutes meeting_data);
     start_time := default (start_time meeting) (u_start_time meeting_data);
     end_time := default (end_time meeting) (u_end_time meeting_data);
     organizer_id := organizer_id meeting;
     participants :=
       default (participants meeting) (u_participants meeting_data);
     status := default (status meeting) (u_status meeting_data);
     meeting_type := meeting_type meeting |}.

Definition update_meeting (db : DB) (meeting_id : nat)
    (meeting_data : MeetingUpdate) : DB * option Meeting :=
  match get_meeting db meeting_id with
  | None => (db, None)
  | Some meeting =>
      let meeting' := apply_update meeting_data meeting in
      (map (fun m => if Nat.eqb (id m) meeting_id then meeting' else m) db,
       Some meeting')
  end.

Definition delete_meeting (db : DB) (meeting_id : nat)
    (user_id : option nat) : DB * option Meeting :=
  match get_meeting db meeting_id with
  | None => (db, None)
  | Some meeting =>
      match user_id with
      | Some u =>
          if negb (Nat.eqb (organizer_id meeting) u) then (db, None)
          else (List.filter (fun m => negb (Nat.eqb (id m) meeting_id)) db,
                Some meeting)
      | None =>
          (List.filter (fun m => negb (Nat.eqb (id m) meeting_id)) db,
           Some meeting)
      end
  end.

(** The filter of the conflict query: organizer or participant, status
    proposed or confirmed, and the two strict comparisons. *)
Definition conflicts_with (user_id : participant)
    (start_time' end_time' : datetime) (m : Meeting) : bool :=
  (match user_id with
   | PId u => Nat.eqb (organizer_id m) u
   | PName _ => false
   end || bool_decide (user_id ∈ participants m))
  && (String.eqb (status m) "proposed" || String.eqb (status m) "confirmed")
  && (start_time m <? end_time')
  && (start_time' <? end_time m).

Definition check_meeting_conflicts (db : DB) (user_id : participant)
    (start_time' end_time' : datetime) : list Meeting :=
  List.filter (conflicts_with user_id start_time' end_time') db.

Record Suggestion := mkSuggestion {
  s_start_time : datetime;
  s_end_time : datetime;
  s_date : Z;
  s_participant_count : nat
}.

(** The body of [for hour in range(9, 17)] for one hour: the slot is
    appended when no participant has a conflict. *)
Definition try_slot (db : DB) (participant_ids : list participant)
    (duration : Z) (current_date : datetime) (hour : Z)
  : list Suggestion :=
  let slot_start := dt_replace_hour current_date hour in
  let slot_end := slot_start + timedelta_minutes duration in
  let all_available :=
    forallb (fun user_id =>
               match check_meeting_conflicts db user_id slot_start slot_end
               with [] => true | _ => false end)
            participant_ids in
  if all_available
  then [ {| s_start_time := slot_start;
            s_end_time := slot_end;
            s_date := dt_date current_date;
            s_participant_count := length participant_ids |} ]
  else [].

(** [range(9, 17)]. *)
Definition business_hours : list Z := [9; 10; 11; 12; 13; 14; 15; 16].

Definition day_slots (db : DB) (participant_ids : list participant)
    (duration : Z) (current_date : datetime) : list Suggestion :=
  flat_map (try_slot db participant_ids duration current_date)
           business_hours.

(** [while current_date <= end_date: ...; current_date += 1 day].  The
    loop runs on fuel; [None] is fuel exhausted. *)
Fixpoint suggestions_loop (fuel : nat) (db : DB)
    (participant_ids : list participant) (duration : Z)
    (current_date end_date : datetime) (suggestions : list Suggestion)
  : option (list Suggestion) :=
  match fuel with
  | O => None
  | S fuel' =>
      if current_date <=? end_date
      then suggestions_loop fuel' db participant_ids duration
             (current_date + timedelta_days 1) end_date
             (suggestions ++ day_slots db participant_ids duration current_date)
      else Some suggestions
  end.

(** More iterations than the loop can make. *)
Definition loop_fuel (start_date end_date : datetime) : nat :=
  Z.to_nat ((end_date - start_date) `div` US_PER_DAY) + 2.

(** The fuel of [loop_fuel] is enough ([suggestions_loop_total] below), so
    the [None] branch is never taken. *)
Definition get_meeting_suggestions (db : DB)
    (participant_ids : list participant) (duration : Z)
    (start_date end_date : datetime) : list Suggestion :=
  match suggestions_loop (loop_fuel start_date end_date) db participant_ids
          duration start_date end_date [] with
  | Some suggestions => take 10 suggestions
  | None => []
  end.

(** The score of a suggestion: an [int] to which [count * 0.5] is added.
    Halves of integers are exact in floating point; the score is a
    rational here. *)
Definition score_of (suggestion : Suggestion) : Q :=
  let slot_start := s_start_time suggestion in
  let h := dt_hour slot_start in
  let score : Z := 0 in
  let score :=
    if (9 <=? h) && (h <=? 11) then score + 3
    else if (14 <=? h) && (h <=? 16) then score + 2
    else if (12 <=? h) && (h <=? 13) then score - 1
    else score in
  let score := if dt_weekday slot_start <? 5 then score + 2 else score in
  (inject_Z score
   + inject_Z (Z.of_nat (s_participant_count suggestion)) * (1 # 2))%Q.

Definition score_gt (x y : Q * Suggestion) : bool :=
  negb (Qle_bool (fst x) (fst y)).

Definition find_optimal_meeting_time (db : DB)
    (participant_ids : list participant) (duration : Z)
    (start_date end_date : datetime) : option Suggestion :=
  let suggestions :=
    get_meeting_suggestions db participant_ids duration start_date end_date in
  match suggestions with
  | [] => None
  | _ =>
      let scored_suggestions := map (fun s => (score_of s, s)) suggestions in
      match sort_desc score_gt scored_suggestions with
      | best :: _ => Some (snd best)
      | [] => None
      end
  end.

Record Rescheduled := mkRescheduled {
  r_meeting_id : nat;
  r_title : option string;
  r_old_start_time : datetime;
  r_new_start_time : datetime;
  r_reason : string
}.

(** The body of [for conflict in conflicts].  The row is updated through
    the session that loaded [conflict], so [conflict] is the updated
    object when ["old_start_time"] is read from it. *)
Definition reschedule_conflict (start_time' : datetime)
    (acc : DB * list Rescheduled) (conflict : Meeting)
  : DB * list Rescheduled :=
  let '(db, rescheduled_meetings) := acc in
  let new_suggestions :=
    get_meeting_suggestions db (participants conflict)
      (duration_minutes conflict)
      (start_time' + timedelta_days 1) (start_time' + timedelta_days 7) in
  match new_suggestions with
  | new_time :: _ =>
      let meeting_update :=
        {| u_title := None; u_description := None;
           u_duration_minutes := None;
           u_start_time := Some (s_start_time new_time);
           u_end_time := Some (s_end_time new_time);
           u_participants := None; u_status := None |} in
      match update_meeting db (id conflict) meeting_update with
      | (db', Some updated_meeting) =>
          (db', rescheduled_meetings ++
                [ {| r_meeting_id := id conflict;
                     r_title := title conflict;
                     r_old_start_time := start_time updated_meeting;
                     r_new_start_time := s_start_time new_time;
                     r_reason :=
                       "Auto-rescheduled to accommodate new meeting" |} ])
      | (db', None) => (db', rescheduled_meetings)
      end
  | [] => (db, rescheduled_meetings)
  end.

(** The body of [for participant_id in participants]. *)
Definition reschedule_participant (start_time' end_time' : datetime)
    (acc : DB * list Rescheduled) (participant_id : participant)
  : DB * list Rescheduled :=
  let conflicts :=
    check_meeting_conflicts (fst acc) participant_id start_time' end_time' in
  foldl (reschedule_conflict start_time') acc conflicts.

Record NewMeeting := mkNewMeeting {
  n_start_time : datetime;
  n_end_time : datetime;
  n_participants : list participant
}.

Definition auto_reschedule_conflicting_meetings (db : DB)
    (new_meeting_data : NewMeeting) : DB * list Rescheduled :=
  foldl (reschedule_participant (n_start_time new_meeting_data)
                                (n_end_time new_meeting_data))
        (db, []) (n_participants new_meeting_data).

End ScheduleService.

(* ===================================================================== *)
(** * Python strings *)
(* ===================================================================== *)

Module Str.

Definition chars (s : string) : list ascii := list_ascii_of_string s.
Definition of_chars (l : list ascii) : string := string_of_list_ascii l.

Definition code (c : ascii) : nat := nat_of_ascii c.

Definition is_upper (c : ascii) : bool :=
  (65 <=? code c)%nat && (code c <=? 90)%nat.
Definition is_lower (c : ascii) : bool :=
  (97 <=? code c)%nat && (code c <=? 122)%nat.
Definition is_digit (c : ascii) : bool :=
  (48 <=? code c)%nat && (code c <=? 57)%nat.
(** Python's whitespace within ASCII: tab to carriage return, the four
    separators 28 to 31, and the space. *)
Definition is_space (c : ascii) : bool :=
  ((9 <=? code c)%nat && (code c <=? 13)%nat)
  || ((28 <=? code c)%nat && (code c <=? 32)%nat).
(** [\w]: letters, digits and the underscore. *)
Definition is_word (c : ascii) : bool :=
  is_upper c || is_lower c || is_digit c || Ascii.eqb c "_"%char.

Definition lower_char (c : ascii) : ascii :=
  if is_upper c then ascii_of_nat (code c + 32) else c.

(** [s.lower()]. *)
Definition lower (s : string) : string := of_chars (map lower_char (chars s)).

Fixpoint lstrip_chars (l : list ascii) : list ascii :=
  match l with
  | c :: l' => if is_space c then lstrip_chars l' else l
  | [] => []
  end.

(** [s.strip()]. *)
Definition strip (s : string) : string :=
  of_chars (rev (lstrip_chars (rev (lstrip_chars (chars s))))).

Fixpoint strip_prefix (p l : list ascii) : option (list ascii) :=
  match p, l with
  | [], _ => Some l
  | a :: p', b :: l' => if Ascii.eqb a b then strip_prefix p' l' else None
  | _ :: _, [] => None
  end.

(** [s.startswith(p)]. *)
Definition startswith (s p : string) : bool :=
  match strip_prefix (chars p) (chars s) with Some _ => true | None => false end.

Fixpoint contains_chars (needle hay : list ascii) : bool :=
  match strip_prefix needle hay with
  | Some _ => true
  | None => match hay with
            | [] => false
            | _ :: hay' => contains_chars needle hay'
            end
  end.

(** [needle in hay]. *)
Definition contains (needle hay : string) : bool :=
  contains_chars (chars needle) (chars hay).

(** [any(word in s for word in words)]. *)
Definition any_in (words : list string) (s : string) : bool :=
  existsb (fun word => contains word s) words.

(** [s in options], for a list of strings. *)
Definition among (s : string) (options : list string) : bool :=
  existsb (String.eqb s) options.

(** [s.split()]: the maximal runs of characters that are not whitespace. *)
Fixpoint split_chars (cur : list ascii) (l : list ascii) : list string :=
  match l with
  | [] => match cur with [] => [] | _ => [of_chars (rev cur)] end
  | c :: l' =>
      if is_space c
      then match cur with
           | [] => split_chars [] l'
           | _ => of_chars (rev cur) :: split_chars [] l'
           end
      else split_chars (c :: cur) l'
  end.
Definition split (s : string) : list string := split_chars [] (chars s).

(** [sep.join(words)]. *)
Definition join (sep : string) (words : list string) : string :=
  String.concat sep words.

(** [len(s)]. *)
Definition len (s : string) : Z := Z.of_nat (String.length s).

(** [s.isdigit()], on ASCII text. *)
Definition isdigit (s : string) : bool :=
  match chars s with
  | [] => false
  | l => forallb is_digit l
  end.

(** [int(s)] for a string of decimal digits. *)
Definition int (s : string) : Z :=
  foldl (fun acc c => 10 * acc + Z.of_nat (code c - 48)) 0 (chars s).

(** [s[:n]]. *)
Definition prefix (n : nat) (s : string) : string :=
  of_chars (take n (chars s)).

(** [str(n)] and [f"{n}"] for an integer. *)
Definition of_Z (n : Z) : string := pretty n.
Definition of_nat (n : nat) : string := pretty n.

(** [f"{n:02d}"]. *)
Definition pad2 (n : Z) : string :=
  if n <? 10 then "0" +:+ of_Z n else of_Z n.

End Str.

(* ===================================================================== *)
(** * The regular expressions of the agent *)
(* ===================================================================== *)

(** A backtracking matcher with Python's rules: alternatives are tried in
    order, repetitions are greedy, [re.search] returns the leftmost match.
    Groups are numbered in the order they close, which is the order they
    open for the patterns used here (no group is nested in another). *)
Module Re.

Inductive regex :=
| Lit (s : string)
| Cls (p : ascii -> bool)
| Cat (r1 r2 : regex)
| Alt (r1 r2 : regex)
| Rep (lo : nat) (hi : option nat) (r : regex)
| Grp (r : regex)
| WordB.

(** A position in the subject: the character before it, and the rest. *)
Definition K (R : Type) : Type :=
  option ascii -> list ascii -> list string -> option R.

Definition is_word_opt (c : option ascii) : bool :=
  match c with Some c => Str.is_word c | None => false end.

Fixpoint rmatch {R : Type} (r : regex) (prev : option ascii)
    (s : list ascii) (caps : list string) (k : K R) {struct r} : option R :=
  match r with
  | Lit l =>
      match Str.strip_prefix (Str.chars l) s with
      | Some rest =>
          k (match last (Str.chars l) with Some c => Some c | None => prev end)
            rest caps
      | None => None
      end
  | Cls p =>
      match s with
      | c :: s' => if p c then k (Some c) s' caps else None
      | [] => None
      end
  | Cat r1 r2 =>
      rmatch r1 prev s caps (fun prev' s' caps' => rmatch r2 prev' s' caps' k)
  | Alt r1 r2 =>
      match rmatch r1 prev s caps k with
      | Some x => Some x
      | None => rmatch r2 prev s caps k
      end
  | Rep lo hi r' =>
      (fix loop (n : nat) (count : nat) (prev : option ascii)
           (s : list ascii) (caps : list string) {struct n} : option R :=
         match n with
         | O => if (lo <=? count)%nat then k prev s caps else None
         | S n' =>
             match rmatch r' prev s caps
                     (fun prev' s' caps' => loop n' (S count) prev' s' caps')
             with
             | Some x => Some x
             | None => if (lo <=? count)%nat then k prev s caps else None
             end
         end)
        (match hi with Some h => h | None => length s end) O prev s caps
  | Grp r' =>
      rmatch r' prev s caps
        (fun prev' s' caps' =>
           k prev' s'
             (caps' ++ [Str.of_chars (take (length s - length s') s)]))
  | WordB =>
      if xorb (is_word_opt prev) (is_word_opt (head s))
      then k prev s caps else None
  end.

(** A match: the groups, the matched text, and the position after it. *)
Record rmatch_result := mkMatch {
  groups : list string;
  matched : string;
  after_prev : option ascii;
  after : list ascii
}.

Definition match_at (r : regex) (prev : option ascii) (s : list ascii)
  : option rmatch_result :=
  rmatch r prev s []
    (fun prev' s' caps =>
       Some {| groups := caps;
               matched := Str.of_chars (take (length s - length s') s);
               after_prev := prev';
               after := s' |}).

Fixpoint search_from (r : regex) (prev : option ascii) (s : list ascii)
  : option rmatch_result :=
  match match_at r prev s with
  | Some m => Some m
  | None => match s with
            | [] => None
            | c :: s' => search_from r (Some c) s'
            end
  end.

(** [re.search(r, s)]. *)
Definition search (r : regex) (s : string) : option rmatch_result :=
  search_from r None (Str.chars s).

(** [m.group(i)], from 1. *)
Definition group (m : rmatch_result) (i : nat) : string :=
  default "" (groups m !! pred i).

(** [re.findall(r, s)] for a pattern without groups whose matches are
    never empty. *)
Fixpoint findall_from (fuel : nat) (r : regex) (prev : option ascii)
    (s : list ascii) : list string :=
  match fuel with
  | O => []
  | S fuel' =>
      match search_from r prev s with
      | Some m => matched m :: findall_from fuel' r (after_prev m) (after m)
      | None => []
      end
  end.
Definition findall (r : regex) (s : string) : list string :=
  findall_from (S (String.length s)) r None (Str.chars s).

Definition digit : regex := Cls Str.is_digit.
Definition spaces : regex := Rep 0 None (Cls Str.is_space).
Definition spaces1 : regex := Rep 1 None (Cls Str.is_space).
Definition lits (l : list string) : regex :=
  match l with
  | [] => Lit ""
  | s :: l' => foldl (fun r s' => Alt r (Lit s')) (Lit s) l'
  end.
Definition not_char (c : ascii) : regex := Cls (fun x => negb (Ascii.eqb x c)).

Definition quote : ascii := ascii_of_nat 34.

(** A double quote, a group of one or more characters that are not a
    double quote, a double quote. *)
Definition re_quoted : regex :=
  Cat (Cls (Ascii.eqb quote))
      (Cat (Grp (Rep 1 None (not_char quote))) (Cls (Ascii.eqb quote))).
(** [(\d{1,2}):(\d{2})\s*(am|pm)] *)
Definition re_time_hm_period : regex :=
  Cat (Grp (Rep 1 (Some 2%nat) digit))
    (Cat (Lit ":")
       (Cat (Grp (Rep 2 (Some 2%nat) digit))
          (Cat spaces (Grp (lits ["am"; "pm"]))))).
(** [(\d{1,2})\s*(am|pm)] *)
Definition re_time_h_period : regex :=
  Cat (Grp (Rep 1 (Some 2%nat) digit)) (Cat spaces (Grp (lits ["am"; "pm"]))).
(** [(\d{1,2}):(\d{2})] *)
Definition re_time_hm : regex :=
  Cat (Grp (Rep 1 (Some 2%nat) digit))
    (Cat (Lit ":") (Grp (Rep 2 (Some 2%nat) digit))).
Definition hour_units : regex := lits ["hour"; "hours"; "hr"; "hrs"].
Definition minute_units : regex := lits ["minute"; "minutes"; "min"; "mins"].
(** [(\d+)\s*(hour|hours|hr|hrs)] *)
Definition re_dur_hours : regex :=
  Cat (Grp (Rep 1 None digit)) (Cat spaces (Grp hour_units)).
(** [(\d+)\s*(minute|minutes|min|mins)] *)
Definition re_dur_minutes : regex :=
  Cat (Grp (Rep 1 None digit)) (Cat spaces (Grp minute_units)).
(** [(\d+)\s*(hour|hours|hr|hrs)\s*(\d+)\s*(minute|minutes|min|mins)] *)
Definition re_dur_compound : regex :=
  Cat (Grp (Rep 1 None digit))
    (Cat spaces
       (Cat (Grp hour_units)
          (Cat spaces
             (Cat (Grp (Rep 1 None digit)) (Cat spaces (Grp minute_units)))))).
(** [with\s+([^,]+)] and [about\s+([^,]+)] *)
Definition re_with : regex :=
  Cat (Lit "with") (Cat spaces1 (Grp (Rep 1 None (not_char ","%char)))).
Definition re_about : regex :=
  Cat (Lit "about") (Cat spaces1 (Grp (Rep 1 None (not_char ","%char)))).
(** [\b[A-Za-z0-9._%+-]+@[A-Za-z0-9.-]+\.[A-Z|a-z]{2,}\b] *)
Definition email_local (c : ascii) : bool :=
  Str.is_upper c || Str.is_lower c || Str.is_digit c
  || Str.among (String c "") ["."; "_"; "%"; "+"; "-"].
Definition email_domain (c : ascii) : bool :=
  Str.is_upper c || Str.is_lower c || Str.is_digit c
  || Str.among (String c "") ["."; "-"].
Definition email_tld (c : ascii) : bool :=
  Str.is_upper c || Str.is_lower c || Ascii.eqb c "|"%char.
Definition re_email : regex :=
  Cat WordB
    (Cat (Rep 1 None (Cls email_local))
       (Cat (Lit "@")
          (Cat (Rep 1 None (Cls email_domain))
             (Cat (Lit ".") (Cat (Rep 2 None (Cls email_tld)) WordB))))).
(** [(\d+)\s*(min|minute|minutes|hour|hours)] *)
Definition re_update_duration : regex :=
  Cat (Grp (Rep 1 None digit))
    (Cat spaces (Grp (lits ["min"; "minute"; "minutes"; "hour"; "hours"]))).
(** [title\s+(?:to\s+)?] followed by the quoted group above. *)
Definition re_update_title : regex :=
  Cat (Lit "title")
    (Cat spaces1
       (Cat (Rep 0 (Some 1%nat) (Cat (Lit "to") spaces1))
          (Cat (Cls (Ascii.eqb quote))
             (Cat (Grp (Rep 1 None (not_char quote)))
                (Cls (Ascii.eqb quote)))))).

End Re.

(* ===================================================================== *)
(** * Rendering dates: isoformat and strftime *)
(* ===================================================================== *)

Module Fmt.

Definition nl : string := String (ascii_of_nat 10) "".
Definition dq : string := String (ascii_of_nat 34) "".

Definition DAYS_IN_MONTH : list Z :=
  [-1; 31; 28; 31; 30; 31; 30; 31; 31; 30; 31; 30; 31].
Definition DAYS_BEFORE_MONTH : list Z :=
  [-1; 0; 31; 59; 90; 120; 151; 181; 212; 243; 273; 304; 334].

Definition nthZ (l : list Z) (i : Z) : Z := default 0 (l !! Z.to_nat i).

(** The year, month and day of a day number (the proleptic Gregorian
    calendar of [datetime], cycles of 400, 100, 4 and 1 years). *)
Definition ymd (day : Z) : Z * Z * Z :=
  let n := day in
  let n400 := n `div` 146097 in
  let n := n `mod` 146097 in
  let n100 := n `div` 36524 in
  let n := n `mod` 36524 in
  let n4 := n `div` 1461 in
  let n := n `mod` 1461 in
  let n1 := n `div` 365 in
  let n := n `mod` 365 in
  let year := n400 * 400 + 1 + n100 * 100 + n4 * 4 + n1 in
  if (n1 =? 4) || (n100 =? 4) then (year - 1, 12, 31)
  else
    let leapyear := (n1 =? 3) && (negb (n4 =? 24) || (n100 =? 3)) in
    let month := (n + 50) `div` 32 in
    let preceding :=
      nthZ DAYS_BEFORE_MONTH month
      + (if (2 <? month) && leapyear then 1 else 0) in
    if n <? preceding
    then
      let month := month - 1 in
      let preceding :=
        preceding - (nthZ DAYS_IN_MONTH month
                     + (if (month =? 2) && leapyear then 1 else 0)) in
      (year, month, n - preceding + 1)
    else (year, month, n - preceding + 1).

Definition pad (width : nat) (n : Z) : string :=
  let s := Str.of_Z n in
  Str.of_chars (replicate (width - String.length s) "0"%char) +:+ s.

(** [d.isoformat()]. *)
Definition isoformat (d : datetime) : string :=
  let '(y, m, dd) := ymd (dt_date d) in
  let us := d `mod` 1000000 in
  let sec := (d `div` 1000000) `mod` 60 in
  pad 4 y +:+ "-" +:+ pad 2 m +:+ "-" +:+ pad 2 dd +:+ "T"
    +:+ pad 2 (dt_hour d) +:+ ":" +:+ pad 2 (dt_minute d) +:+ ":"
    +:+ pad 2 sec
    +:+ (if us =? 0 then "" else "." +:+ pad 6 us).

Definition weekday_name (d : datetime) : string :=
  default ""
    (["Monday"; "Tuesday"; "Wednesday"; "Thursday"; "Friday"; "Saturday";
      "Sunday"] !! Z.to_nat (dt_weekday d)).
Definition month_name (m : Z) : string :=
  default ""
    ([""; "January"; "February"; "March"; "April"; "May"; "June"; "July";
      "August"; "September"; "October"; "November"; "December"]
       !! Z.to_nat m).

(** [d.strftime('%A, %B %d')]. *)
Definition day_text (d : datetime) : string :=
  let '(_, m, dd) := ymd (dt_date d) in
  weekday_name d +:+ ", " +:+ month_name m +:+ " " +:+ pad 2 dd.
(** [d.strftime('%I:%M %p')]. *)
Definition time_text (d : datetime) : string :=
  let h := dt_hour d in
  let h12 := if h `mod` 12 =? 0 then 12 else h `mod` 12 in
  pad 2 h12 +:+ ":" +:+ pad 2 (dt_minute d) +:+ " "
    +:+ (if h <? 12 then "AM" else "PM").
(** [d.strftime('%A, %B %d at %I:%M %p')]. *)
Definition day_at_time_text (d : datetime) : string :=
  day_text d +:+ " at " +:+ time_text d.

End Fmt.

(* ===================================================================== *)
(** * services/schedule_service.py: the analytics of a user *)
(* ===================================================================== *)

Module ScheduleAnalytics.





End ScheduleAnalytics.

(* ===================================================================== *)
(** * agents/scheduling_agent.py: data *)
(* ===================================================================== *)

(** A value stored under a key of a Python [dict]: the key may be absent,
    or hold [None], or hold a value. *)
Inductive field (A : Type) :=
| Absent
| Null
| Val (a : A).
Arguments Absent {A}.
Arguments Null {A}.
Arguments Val {A} a.

(** [d.get(k)]. *)
Definition fget {A} (f : field A) : option A :=
  match f with Val a => Some a | _ => None end.
(** [d.get(k, dflt)]: the default only replaces an absent key. *)
Definition fget_default {A} (dflt : A) (f : field A) : option A :=
  match f with Val a => Some a | Null => None | Absent => Some dflt end.
(** [k in d]. *)
Definition fpresent {A} (f : field A) : bool :=
  match f with Absent => false | _ => true end.
(** The field of a dict literal [{k: v}] whose value [v] may be [None]. *)
Definition fset {A} (v : option A) : field A :=
  match v with Some a => Val a | None => Null end.

(** A string that is meant to hold a time: either the ISO rendering of a
    datetime, which [datetime.fromisoformat] reads back, or any other text,
    on which [datetime.fromisoformat] raises [ValueError]. *)
Inductive timestr :=
| Iso (t : datetime)
| Junk (s : string).

Definition timestr_text (ts : timestr) : string :=
  match ts with Iso t => Fmt.isoformat t | Junk s => s end.

(** Python truthiness of optional values. *)
Definition truthy_str (v : option string) : bool :=
  match v with Some s => negb (String.eqb s "") | None => false end.
Definition truthy_time (v : option timestr) : bool :=
  match v with Some ts => negb (String.eqb (timestr_text ts) "") | None => false end.
Definition truthy_int (v : option Z) : bool :=
  match v with Some n => negb (n =? 0) | None => false end.
Definition truthy_list {A} (v : option (list A)) : bool :=
  match v with Some (_ :: _) => true | _ => false end.

(** The dict [meeting_info] / [partial_info] / [meeting_proposal]. *)
Record Info := mkInfo {
  i_title : field string;
  i_start_time : field timestr;
  i_duration_minutes : field Z;
  i_participants : field (list participant);
  i_description : field string;
  i_location : field string;
  i_emails : field (list string)
}.

Definition Info_empty : Info :=
  mkInfo Absent Absent Absent Absent Absent Absent Absent.

Definition fupdate {A} (old new : field A) : field A :=
  match new with Absent => old | _ => new end.

(** [old.update(new)]. *)
Definition Info_update (old new : Info) : Info :=
  {| i_title := fupdate (i_title old) (i_title new);
     i_start_time := fupdate (i_start_time old) (i_start_time new);
     i_duration_minutes :=
       fupdate (i_duration_minutes old) (i_duration_minutes new);
     i_participants := fupdate (i_participants old) (i_participants new);
     i_description := fupdate (i_description old) (i_description new);
     i_location := fupdate (i_location old) (i_location new);
     i_emails := fupdate (i_emails old) (i_emails new) |}.

(** The dict [updates]; [up_other] says that it has some other key. *)
Record Updates := mkUpdates {
  up_title : field string;
  up_description : field string;
  up_location : field string;
  up_start_time : field timestr;
  up_duration_minutes : field Z;
  up_other : bool
}.

Definition Updates_empty : Updates :=
  mkUpdates Absent Absent Absent Absent Absent false.

(** [bool(updates)]: the dict is not empty. *)
Definition Updates_truthy (u : Updates) : bool :=
  fpresent (up_title u) || fpresent (up_description u)
  || fpresent (up_location u) || fpresent (up_start_time u)
  || fpresent (up_duration_minutes u) || up_other u.

(** A JSON object returned by the completion service, seen through the
    keys the agent reads. *)
Record ActionData := mkActionData {
  a_action : field string;
  a_title : field string;
  a_start_time : field timestr;
  a_duration_minutes : field Z;
  a_participants : field (list participant);
  a_description : field string;
  a_location : field string;
  a_target_title : field string;
  a_updates : field Updates;
  a_missing : field string
}.

(** What parsing yields: a falsy value ([None], an empty dict, ...), a
    truthy value that is not a dict, or a dict that is not empty. *)
Inductive JVal :=
| JFalsy
| JOther
| JDict (d : ActionData).

Inductive exn :=
| KeyError (key : string)
| ValueError (msg : string)
| AttributeError (msg : string)
| TypeError (msg : string)
| LLMFailure (msg : string).

(** [str(e)]. *)
Definition exn_str (e : exn) : string :=
  match e with
  | KeyError k => "'" +:+ k +:+ "'"
  | ValueError m | AttributeError m | TypeError m | LLMFailure m => m
  end.

Inductive outcome (A : Type) :=
| Ok (a : A)
| Raise (e : exn).
Arguments Ok {A} a.
Arguments Raise {A} e.

(** One call of [self.llm.ainvoke]: the content of the reply, or a failure
    with its text. *)
Inductive LLMOutcome :=
| LLMReply (content : string)
| LLMFail (msg : string).

(** The world around the agent: the completion service (the outcome of
    its n-th call), the two parsers of the standard library, the user
    table by e-mail address, and the clock. *)
Record Env := mkEnv {
  llm : nat -> LLMOutcome;
  json_loads : string -> option JVal;
  literal_eval : string -> option JVal;
  get_user_by_email : string -> option nat;
  now : datetime
}.

Record Response := mkResponse {
  success : bool;
  message : string;
  needs_llm_enhancement : bool
}.

Definition reply (ok : bool) (msg : string) : Response :=
  mkResponse ok msg false.

(** [response["message"]]. *)
Definition response_message (response : Response) : string := message response.

(** The dicts stored in [self.pending_actions], by their ["action"] tag:
    [create_meeting], [confirm_create_meeting], [update_meeting],
    [update_meeting_details], [delete_meeting], [confirm_delete_meeting]
    and [confirm_delete_all].  No code stores another tag, so the branches
    of the dispatcher for [confirm_delete] and for an unknown tag have no
    counterpart. *)
Inductive PendingAction :=
| PCreate (partial_info : Info) (missing_fields : list string)
          (suggested_alternative : field timestr)
| PConfirmCreate (meeting_proposal : Info)
| PUpdate (available_meetings : list Meeting)
| PUpdateDetails (target_meeting : Meeting)
| PDelete (available_meetings : list Meeting)
| PConfirmDelete (target_meeting : Meeting)
| PConfirmDeleteAll (meeting_count : nat).

Inductive Role := User | Assistant.

Record Turn := mkTurn {
  role : Role;
  content : string;
  timestamp : datetime
}.

(** The agent object: its two tables, the meeting table of its schedule
    service, and the number of completion calls made so far. *)
Record Agent := mkAgent {
  conversation_history : gmap nat (list Turn);
  pending_actions : gmap nat PendingAction;
  db : ScheduleService.DB;
  llm_calls : nat
}.

(* ===================================================================== *)
(** * Computations of the agent: state and exceptions *)
(* ===================================================================== *)

(** A state change made before an exception is raised is kept. *)
Definition M (A : Type) : Type := Agent -> outcome A * Agent.

#[global] Instance M_ret : MRet M := fun A a s => (Ok a, s).
#[global] Instance M_bind : MBind M := fun A B f m s =>
  match m s with
  | (Ok a, s') => f a s'
  | (Raise e, s') => (Raise e, s')
  end.

Definition raise {A} (e : exn) : M A := fun s => (Raise e, s).

(** [try: body except Exception as e: handler(e)]. *)
Definition try_except {A} (body : M A) (handler : exn -> M A) : M A :=
  fun s =>
    match body s with
    | (Ok a, s') => (Ok a, s')
    | (Raise e, s') => handler e s'
    end.

Definition lift {A} (o : outcome A) : M A := fun s => (o, s).

Definition read {A} (f : Agent -> A) : M A := fun s => (Ok (f s), s).

Definition set_db (db' : ScheduleService.DB) : M unit := fun s =>
  (Ok tt, mkAgent (conversation_history s) (pending_actions s) db' (llm_calls s)).

(** [self.pending_actions[user_id] = action]. *)
Definition set_pending (user_id : nat) (action : PendingAction) : M unit :=
  fun s =>
    (Ok tt, mkAgent (conversation_history s)
                    (<[user_id := action]> (pending_actions s))
                    (db s) (llm_calls s)).

(** [del self.pending_actions[user_id]]: [KeyError] when there is none. *)
Definition del_pending (user_id : nat) : M unit := fun s =>
  match pending_actions s !! user_id with
  | Some _ =>
      (Ok tt, mkAgent (conversation_history s)
                      (delete user_id (pending_actions s))
                      (db s) (llm_calls s))
  | None => (Raise (KeyError (Str.of_nat user_id)), s)
  end.

(** [self.conversation_history[user_id].append(turn)], the list being
    created when the user has none. *)
Definition append_turn (user_id : nat) (turn : Turn) : M unit := fun s =>
  (Ok tt, mkAgent (<[user_id :=
                      default [] (conversation_history s !! user_id) ++ [turn]]>
                     (conversation_history s))
                  (pending_actions s) (db s) (llm_calls s)).

(* ===================================================================== *)
(** * agents/scheduling_agent.py: the agent *)
(* ===================================================================== *)

Module SchedulingAgent.

Import Fmt.

Inductive Intent :=
| view_meetings
| create_meeting
| update_meeting
| delete_meeting
| delete_all_meetings
| conversation.

Definition _analyze_intent (message : string) : Intent :=
  let message_lower := Str.lower message in
  if Str.any_in ["show"; "view"; "see"; "what"; "meetings"; "schedule";
                 "calendar"] message_lower
     && Str.any_in ["my"; "have"; "scheduled"] message_lower
  then view_meetings
  else if Str.any_in ["schedule"; "create"; "set up"; "book"; "arrange";
                      "meeting"] message_lower
          && Str.any_in ["new"; "a"; "with"] message_lower
  then create_meeting
  else if Str.any_in ["change"; "update"; "modify"; "move"; "reschedule";
                      "edit"] message_lower
  then update_meeting
  else if Str.any_in ["cancel"; "delete"; "remove"; "clear"] message_lower
  then delete_meeting
  else if Str.any_in ["all"; "everything"; "clear all"] message_lower
          && Str.any_in ["cancel"; "delete"; "remove"] message_lower
  then delete_all_meetings
  else conversation.

(** [str(v)] of an optional string: [None] prints as the word None. *)
Definition show_opt (v : option string) : string := default "None" v.
Definition show_opt_Z (v : option Z) : string :=
  match v with Some n => Str.of_Z n | None => "None" end.
Definition show_opt_time (v : option timestr) : string :=
  match v with Some ts => timestr_text ts | None => "None" end.
(** [repr] of a participant, and [str] of a list of them. *)
Definition repr_participant (p : participant) : string :=
  match p with
  | PId uid => Str.of_nat uid
  | PName name => "'" +:+ name +:+ "'"
  end.
Definition show_participants (l : list participant) : string :=
  "[" +:+ Str.join ", " (map repr_participant l) +:+ "]".
Definition show_opt_participants (v : option (list participant)) : string :=
  match v with Some l => show_participants l | None => "None" end.

(** The first pattern of the list that is found in the text. *)
Fixpoint first_match (patterns : list Re.regex) (s : string)
  : option Re.rmatch_result :=
  match patterns with
  | [] => None
  | r :: patterns' =>
      match Re.search r s with
      | Some m => Some m
      | None => first_match patterns' s
      end
  end.

(** The hour and the minute read from a match of a time pattern, by its
    number of groups, with the shift for am and pm. *)
Definition clock_of_match (m : Re.rmatch_result) : Z * Z :=
  let '(hour, minute, period) :=
    match length (Re.groups m) with
    | 3%nat => (Str.int (Re.group m 1), Str.int (Re.group m 2), Re.group m 3)
    | 2%nat => (Str.int (Re.group m 1), 0, Re.group m 2)
    | _ =>
        let hour := Str.int (Re.group m 1) in
        (hour, Str.int (Re.group m 2),
         if hour <? 12 then "am" else "pm")
    end in
  let hour :=
    if String.eqb period "pm" && negb (hour =? 12) then hour + 12
    else if String.eqb period "am" && (hour =? 12) then 0
    else hour in
  (hour, minute).

(** [datetime.combine(today, datetime.min.time().replace(hour=hour,
    minute=minute)).isoformat()]: [replace] raises [ValueError] outside
    0..23 and 0..59. *)
Definition today_at (today : Z) (hour minute : Z) : outcome timestr :=
  if negb ((0 <=? hour) && (hour <=? 23))
  then Raise (ValueError "hour must be in 0..23")
  else if negb ((0 <=? minute) && (minute <=? 59))
  then Raise (ValueError "minute must be in 0..59")
  else Ok (Iso (dt_combine today hour minute)).

(** The title taken from the words before the word meeting. *)
Fixpoint title_before_meeting (words all_words : list string) (i : nat)
  : field string :=
  match words with
  | [] => Absent
  | word :: words' =>
      if String.eqb (Str.lower word) "meeting" && (0 <? i)%nat
      then
        let potential_title :=
          Str.join " " (take (i - Nat.max 0 (i - 2)) (drop (Nat.max 0 (i - 2)) all_words)) in
        if negb (String.eqb potential_title "") && (2 <? Str.len potential_title)
        then Val potential_title else Absent
      else title_before_meeting words' all_words (S i)
  end.

Definition duration_of_match (m : Re.rmatch_result) : field Z :=
  match length (Re.groups m) with
  | 2%nat =>
      let value := Str.int (Re.group m 1) in
      let unit := Re.group m 2 in
      if Str.among unit ["hour"; "hours"; "hr"; "hrs"]
      then Val (value * 60) else Val value
  | 4%nat =>
      let hours := Str.int (Re.group m 1) in
      let minutes := Str.int (Re.group m 3) in
      Val (hours * 60 + minutes)
  | _ => Absent
  end.

Section WithEnv.
Variable env : Env.

Definition _extract_meeting_info (message : string) : outcome Info :=
  let message_lower := Str.lower message in
  let title :=
    match Re.search Re.re_quoted message with
    | Some title_match => Val (Re.group title_match 1)
    | None =>
        if Str.contains "meeting" message_lower
        then let words := Str.split message in
             title_before_meeting words words 0
        else Absent
    end in
  let start :=
    match first_match [Re.re_time_hm_period; Re.re_time_h_period;
                       Re.re_time_hm] message_lower with
    | Some m =>
        let '(hour, minute) := clock_of_match m in
        match today_at (dt_date (now env)) hour minute with
        | Ok ts => Ok (Val ts)
        | Raise e => Raise e
        end
    | None => Ok Absent
    end in
  match start with
  | Raise e => Raise e
  | Ok start_time' =>
      let duration :=
        match first_match [Re.re_dur_hours; Re.re_dur_minutes;
                           Re.re_dur_compound] message_lower with
        | Some m => duration_of_match m
        | None => Absent
        end in
      let participants' :=
        match Re.search Re.re_with message_lower with
        | Some with_match =>
            Val [PName (Str.strip (Re.group with_match 1))]
        | None => Absent
        end in
      let emails :=
        match Re.findall Re.re_email message with
        | [] => Absent
        | l => Val l
        end in
      let description' :=
        match Re.search Re.re_about message_lower with
        | Some about_match =>
            let topic := Str.strip (Re.group about_match 1) in
            if negb (String.eqb topic "") && (2 <? Str.len topic)
            then Val topic else Absent
        | None => Absent
        end in
      Ok {| i_title := title;
            i_start_time := start_time';
            i_duration_minutes := duration;
            i_participants := participants';
            i_description := description';
            i_location := Absent;
            i_emails := emails |}
  end.

Definition _extract_update_info (message : string) : outcome Updates :=
  let message_lower := Str.lower message in
  let start :=
    match first_match [Re.re_time_hm_period; Re.re_time_h_period]
            message_lower with
    | Some m =>
        let '(hour, minute) := clock_of_match m in
        match today_at (dt_date (now env)) hour minute with
        | Ok ts => Ok (Val ts)
        | Raise e => Raise e
        end
    | None => Ok Absent
    end in
  match start with
  | Raise e => Raise e
  | Ok start_time' =>
      let duration :=
        match Re.search Re.re_update_duration message_lower with
        | Some duration_match =>
            let value := Str.int (Re.group duration_match 1) in
            let unit := Re.group duration_match 2 in
            if Str.among unit ["hour"; "hours"] then Val (value * 60)
            else Val value
        | None => Absent
        end in
      let title' :=
        match Re.search Re.re_update_title message_lower with
        | Some title_match => Val (Re.group title_match 1)
        | None => Absent
        end in
      Ok {| up_title := title';
            up_description := Absent;
            up_location := Absent;
            up_start_time := start_time';
            up_duration_minutes := duration;
            up_other := false |}
  end.

(** The loop over the two time patterns: the first meeting that starts
    at the hour and minute of a pattern found in the text. *)
Fixpoint meeting_at_time (patterns : list Re.regex) (message_lower : string)
    (meetings : list Meeting) : option Meeting :=
  match patterns with
  | [] => None
  | r :: patterns' =>
      match Re.search r message_lower with
      | Some m =>
          let '(hour, minute) := clock_of_match m in
          match List.find (fun meeting =>
                             (dt_hour (start_time meeting) =? hour)
                             && (dt_minute (start_time meeting) =? minute))
                          meetings with
          | Some meeting => Some meeting
          | None => meeting_at_time patterns' message_lower meetings
          end
      | None => meeting_at_time patterns' message_lower meetings
      end
  end.

(** The loop [if meeting.title.lower() in message_lower]: a title that
    is [None] has no [lower]. *)
Fixpoint meeting_by_title_in (message_lower : string)
    (meetings : list Meeting) : outcome (option Meeting) :=
  match meetings with
  | [] => Ok None
  | meeting :: meetings' =>
      match title meeting with
      | None =>
          Raise (AttributeError
                   "'NoneType' object has no attribute 'lower'")
      | Some t =>
          if Str.contains (Str.lower t) message_lower then Ok (Some meeting)
          else meeting_by_title_in message_lower meetings'
      end
  end.

Definition _identify_meeting_from_message (message : string)
    (meetings : list Meeting) : outcome (option Meeting) :=
  let message_lower := Str.lower message in
  match meeting_at_time [Re.re_time_hm_period; Re.re_time_h_period]
          message_lower meetings with
  | Some meeting => Ok (Some meeting)
  | None =>
      match meeting_by_title_in message_lower meetings with
      | Raise e => Raise e
      | Ok (Some meeting) => Ok (Some meeting)
      | Ok None =>
          if Str.contains "first" message_lower
             || Str.contains "1st" message_lower
          then Ok (head meetings)
          else if Str.contains "second" message_lower
                  || Str.contains "2nd" message_lower
          then Ok (meetings !! 1%nat)
          else if Str.contains "last" message_lower
          then Ok (last meetings)
          else Ok None
      end
  end.

(** [output.find(c)] and [output.rfind(c)]: [None] is -1. *)
Fixpoint find_char (c : ascii) (l : list ascii) (i : nat) : option nat :=
  match l with
  | [] => None
  | x :: l' => if Ascii.eqb x c then Some i else find_char c l' (S i)
  end.
Fixpoint rfind_char (c : ascii) (l : list ascii) (i : nat) : option nat :=
  match l with
  | [] => None
  | x :: l' =>
      match rfind_char c l' (S i) with
      | Some j => Some j
      | None => if Ascii.eqb x c then Some i else None
      end
  end.

(** Direct parse, else the text from the first opening brace to the
    last closing brace, else a literal evaluation, else [None]. *)
Definition _extract_json_from_llm_output (output : string) : option JVal :=
  match json_loads env output with
  | Some v => Some v
  | None =>
      let cs := Str.chars output in
      let from_braces :=
        match find_char "{"%char cs 0, rfind_char "}"%char cs 0 with
        | Some start, Some end' =>
            if (start <? end')%nat
            then json_loads env
                   (Str.of_chars (take (S end' - start) (drop start cs)))
            else None
        | _, _ => None
        end in
      match from_braces with
      | Some v => Some v
      | None => literal_eval env output
      end
  end.


(** [await self.llm.ainvoke(prompt)] followed by
    [self._get_llm_content(llm_response)]: the next outcome of the
    completion service.  Prompts are not modelled. *)
Definition llm_invoke : M string := fun s =>
  let s' := mkAgent (conversation_history s) (pending_actions s) (db s)
                    (S (llm_calls s)) in
  match llm env (llm_calls s) with
  | LLMReply content => (Ok content, s')
  | LLMFail msg => (Raise (LLMFailure msg), s')
  end.

(** [action_data.get(...)] on what was parsed: a value that is not a
    dict has no [get]. *)
Definition as_dict (v : JVal) : outcome ActionData :=
  match v with
  | JDict d => Ok d
  | _ => Raise (AttributeError "object has no attribute 'get'")
  end.

(** [bool(action_data)]. *)
Definition jtruthy (v : option JVal) : bool :=
  match v with
  | Some (JDict _) | Some JOther => true
  | _ => false
  end.

Definition field_is (f : field string) (s : string) : bool :=
  match f with Val a => String.eqb a s | _ => false end.

(** The four checks of the required fields. *)
Definition missing_fields_of (meeting_info : Info) : list string :=
  (if negb (truthy_str (fget (i_title meeting_info)))
   then ["meeting title"] else [])
  ++ (if negb (truthy_time (fget (i_start_time meeting_info)))
      then ["date and time"] else [])
  ++ (if negb (truthy_list (fget (i_participants meeting_info)))
      then ["participants"] else [])
  ++ (if negb (truthy_int (fget (i_duration_minutes meeting_info)))
      then ["duration"] else []).

(** The text of a proposal, after its first line. *)
Definition proposal_text (p : Info) : string :=
  "Title: " +:+ show_opt (fget (i_title p)) +:+ nl
  +:+ "Time: " +:+ show_opt_time (fget (i_start_time p)) +:+ nl
  +:+ "Duration: " +:+ show_opt_Z (fget (i_duration_minutes p))
  +:+ " minutes" +:+ nl
  +:+ "Participants: " +:+ show_opt_participants (fget (i_participants p))
  +:+ nl
  +:+ "Location: " +:+ show_opt (fget_default "TBD" (i_location p)) +:+ nl
  +:+ "Description: " +:+ show_opt (fget_default "" (i_description p)).

Definition confirm_question : string :=
  nl +:+ nl +:+ "Would you like to add more info, or should I go ahead and schedule this meeting? (Reply 'add info' to provide more details, or 'yes'/'that's enough' to confirm and schedule.)".

(** The numbered list of meetings of the selection prompts. *)
Definition numbered_meetings (meetings : list Meeting) : string :=
  String.concat ""
    (imap (fun i meeting =>
             Str.of_nat (S i) +:+ ". " +:+ show_opt (title meeting)
             +:+ " - " +:+ day_at_time_text (start_time meeting) +:+ nl)
          meetings).

Definition _handle_view_meetings_conversational (user_id : nat)
  : M Response :=
  try_except
    (meetings ← read (fun s => ScheduleService.get_user_meetings (db s) user_id None);
     match meetings with
     | [] =>
         mret (reply true "You don't have any meetings scheduled right now. Would you like me to help you schedule one?")
     | _ =>
         let message' :=
           match meetings with
           | [meeting] =>
               "You have one meeting scheduled: **"
               +:+ show_opt (title meeting) +:+ "** on "
               +:+ day_text (start_time meeting) +:+ " at "
               +:+ time_text (start_time meeting) +:+ " ("
               +:+ Str.of_Z (duration_minutes meeting) +:+ " minutes)."
           | _ =>
               "You have " +:+ Str.of_nat (length meetings)
               +:+ " meetings scheduled:" +:+ nl +:+ nl
               +:+ String.concat ""
                     (imap (fun i meeting =>
                              Str.of_nat (S i) +:+ ". **"
                              +:+ show_opt (title meeting) +:+ "** - "
                              +:+ day_at_time_text (start_time meeting)
                              +:+ " (" +:+ Str.of_Z (duration_minutes meeting)
                              +:+ " min)" +:+ nl)
                           meetings)
           end in
         mret (reply true
                 (message' +:+ nl
                  +:+ "Is there anything you'd like to do with these meetings?"))
     end)
    (fun _ =>
       mret (reply false "I'm having trouble accessing your meetings right now. Could you try again?")).

(** The participant ids of a new meeting: a string with an at sign is
    looked up as an e-mail address and dropped when no user has it. *)
Definition resolve_participants (l : list participant) : list participant :=
  flat_map (fun p =>
              match p with
              | PName name =>
                  if Str.contains "@" name
                  then match get_user_by_email env name with
                       | Some uid => [PId uid]
                       | None => []
                       end
                  else [p]
              | PId _ => [p]
              end) l.

(** The dict built by [_create_meeting_with_info]: six keys, each with
    a value that may be [None]. *)
Record CreateArgs := mkCreateArgs {
  c_title : option string;
  c_description : option string;
  c_duration_minutes : option Z;
  c_participants : option (list participant);
  c_start_time : option timestr;
  c_location : option string
}.

(** Every exception of the body is caught and gives [None]. *)
Definition _create_meeting_from_data (meeting_data : CreateArgs)
    (user_id : nat) : M (option Meeting) :=
  match c_start_time meeting_data with
  | Some (Iso start_time') =>
      match c_duration_minutes meeting_data, c_participants meeting_data with
      | Some duration, Some participants' =>
          let end_time' := start_time' + timedelta_minutes duration in
          let participant_ids := resolve_participants participants' in
          let meeting_obj :=
            {| md_title := c_title meeting_data;
               md_description := c_description meeting_data;
               md_duration_minutes := duration;
               md_start_time := start_time';
               md_end_time := end_time';
               md_organizer_id := user_id;
               md_participants := participant_ids;
               md_meeting_type := None;
               md_status := Some "confirmed" |} in
          db0 ← read db;
          let '(db', meeting) := ScheduleService.create_meeting db0 meeting_obj in
          set_db db';;
          mret meeting
      | _, _ => mret None
      end
  | _ => mret None
  end.

Definition _update_meeting_from_data (meeting_id : nat) (updates : Updates)
  : M (option Meeting) :=
  db0 ← read db;
  match ScheduleService.get_meeting db0 meeting_id with
  | None => mret None
  | Some existing_meeting =>
      let new_duration :=
        fget_default (duration_minutes existing_meeting)
                     (up_duration_minutes updates) in
      let new_start :=
        match up_start_time updates with
        | Absent => Some (None, start_time existing_meeting)
        | Val (Iso t) => Some (Some t, t)
        | Val (Junk _) | Null => None
        end in
      match new_start, new_duration with
      | Some (start_update, new_start_time), Some duration =>
          let update_data :=
            {| u_title := fget (up_title updates);
               u_description := fget (up_description updates);
               u_duration_minutes :=
                 if fpresent (up_duration_minutes updates)
                 then Some duration else None;
               u_start_time := start_update;
               u_end_time :=
                 Some (new_start_time + timedelta_minutes duration);
               u_participants := None;
               u_status := None |} in
          let '(db', meeting) :=
            ScheduleService.update_meeting db0 meeting_id update_data in
          set_db db';;
          mret meeting
      | _, _ => mret None
      end
  end.

Definition _create_meeting_with_info (user_id : nat) (meeting_info : Info)
  : M Response :=
  try_except
    (let meeting_info' :=
       {| c_title := fget_default "Untitled Meeting" (i_title meeting_info);
          c_description := fget_default "" (i_description meeting_info);
          c_duration_minutes :=
            fget_default 60 (i_duration_minutes meeting_info);
          c_participants :=
            fget_default [PId user_id] (i_participants meeting_info);
          c_start_time :=
            fget_default (Junk "") (i_start_time meeting_info);
          c_location := fget_default "TBD" (i_location meeting_info) |} in
     if negb (truthy_time (c_start_time meeting_info'))
     then mret (reply false "I need a date and time for the meeting. Could you provide that?")
     else
       meeting ← _create_meeting_from_data meeting_info' user_id;
       match meeting with
       | Some meeting =>
           try_except
             (llm_content ← llm_invoke;
              mret (reply true (Str.strip llm_content)))
             (fun _ =>
                mret (reply true
                        ("Perfect! I've scheduled '"
                         +:+ show_opt (title meeting) +:+ "' for "
                         +:+ day_text (start_time meeting) +:+ " at "
                         +:+ time_text (start_time meeting) +:+ " ("
                         +:+ Str.of_Z (duration_minutes meeting)
                         +:+ " minutes). Is there anything else you'd like me to help you with?")))
       | None =>
           mret (reply false "I couldn't schedule the meeting. Please try again.")
       end)
    (fun _ =>
       mret (reply false "I'm having trouble scheduling the meeting. Please try again.")).


(** The dict [meeting_info] built from the reply of the completion
    service: six keys, always present. *)
Definition info_of_action (action_data : ActionData) : Info :=
  {| i_title := fset (fget (a_title action_data));
     i_start_time := fset (fget (a_start_time action_data));
     i_duration_minutes := fset (fget (a_duration_minutes action_data));
     i_participants := fset (fget (a_participants action_data));
     i_description := fset (fget_default "" (a_description action_data));
     i_location := fset (fget_default "TBD" (a_location action_data));
     i_emails := Absent |}.

(** A reply of the completion service stored as the proposal itself:
    the keys it has. *)
Definition proposal_of_action (action_data : ActionData) : Info :=
  {| i_title := a_title action_data;
     i_start_time := a_start_time action_data;
     i_duration_minutes := a_duration_minutes action_data;
     i_participants := a_participants action_data;
     i_description := a_description action_data;
     i_location := a_location action_data;
     i_emails := Absent |}.

(** The second half of the create handler, from the validation of the
    required fields on. *)
Definition create_validate (user_id : nat) (meeting_info : Info)
  : M Response :=
  let missing_info := missing_fields_of meeting_info in
  match missing_info with
  | _ :: _ =>
      try_except
        (llm_content ← llm_invoke;
         let natural_question := Str.strip llm_content in
         set_pending user_id (PCreate meeting_info missing_info Absent);;
         mret (reply true natural_question))
        (fun _ =>
           let fallback_msg :=
             "I'd be happy to help you schedule a meeting! I just need a few more details: "
             +:+ Str.join ", " missing_info
             +:+ ". What would you like to include?" in
           set_pending user_id (PCreate meeting_info missing_info Absent);;
           mret (reply true fallback_msg))
  | [] =>
      set_pending user_id (PConfirmCreate meeting_info);;
      let summary :=
        "Here's the meeting I have ready to schedule:" +:+ nl +:+ nl
        +:+ proposal_text meeting_info in
      mret (reply true (summary +:+ confirm_question))
  end.

Definition _handle_create_meeting_conversational (user_id : nat)
    (message : string) : M Response :=
  try_except
    (llm_content ← llm_invoke;
     let action_data := _extract_json_from_llm_output (Str.strip llm_content) in
     if negb (jtruthy action_data)
     then meeting_info ← lift (_extract_meeting_info message);
          create_validate user_id meeting_info
     else
       d ← lift (as_dict (default JFalsy action_data));
       if negb (field_is (a_action d) "create_meeting"
                || field_is (a_action d) "suggest_alternative")
       then meeting_info ← lift (_extract_meeting_info message);
            create_validate user_id meeting_info
       else
         let meeting_info := info_of_action d in
         if field_is (a_action d) "suggest_alternative"
         then
           let alt_time := fget (a_start_time d) in
           let alt_msg :=
             "The requested time conflicts with an existing meeting. Would you like to schedule at "
             +:+ show_opt_time alt_time
             +:+ " instead, or suggest another time?" in
           set_pending user_id (PCreate meeting_info [] (fset alt_time));;
           mret (reply true alt_msg)
         else create_validate user_id meeting_info)
    (fun _ =>
       mret (reply false "I'm having trouble understanding the meeting details. Could you try again?")).

(** The loop [if m.title.lower() == target.lower()]. *)
Fixpoint meeting_with_title (target : string) (meetings : list Meeting)
  : outcome (option Meeting) :=
  match meetings with
  | [] => Ok None
  | m :: meetings' =>
      match title m with
      | None =>
          Raise (AttributeError
                   "'NoneType' object has no attribute 'lower'")
      | Some t =>
          if String.eqb (Str.lower t) (Str.lower target) then Ok (Some m)
          else meeting_with_title target meetings'
      end
  end.

Definition updates_truthy (u : option Updates) : bool :=
  match u with Some u => Updates_truthy u | None => false end.

Definition _handle_update_meeting_conversational (user_id : nat)
    (message : string) : M Response :=
  try_except
    (llm_content ← llm_invoke;
     let action_data := _extract_json_from_llm_output (Str.strip llm_content) in
     meetings ← read (fun s => ScheduleService.get_user_meetings (db s) user_id None);
     '(target_meeting, updates) ←
       (if jtruthy action_data
        then
          d ← lift (as_dict (default JFalsy action_data));
          if field_is (a_action d) "update_meeting"
          then
            target ←
              (if truthy_str (fget (a_target_title d))
               then lift (meeting_with_title
                            (default "" (fget (a_target_title d))) meetings)
               else mret None);
            mret (target, fget (a_updates d))
          else mret (None, None)
        else mret (None, None));
     '(target_meeting, updates) ←
       (match target_meeting with
        | Some _ =>
            if updates_truthy updates then mret (target_meeting, updates)
            else
              target ← lift (_identify_meeting_from_message message meetings);
              u ← lift (_extract_update_info message);
              mret (target, Some u)
        | None =>
            target ← lift (_identify_meeting_from_message message meetings);
            u ← lift (_extract_update_info message);
            mret (target, Some u)
        end);
     match meetings with
     | [] =>
         mret (reply true "You don't have any meetings to update. Would you like to schedule a new meeting instead?")
     | _ =>
         match target_meeting with
         | None =>
             let message_text :=
               "I'd be happy to help you update a meeting! Which meeting would you like to change?"
               +:+ nl +:+ nl +:+ numbered_meetings meetings in
             set_pending user_id (PUpdate meetings);;
             mret (reply true message_text)
         | Some target_meeting =>
             if negb (updates_truthy updates)
             then
               set_pending user_id (PUpdateDetails target_meeting);;
               mret (reply true
                       ("Great! I found your meeting '"
                        +:+ show_opt (title target_meeting)
                        +:+ "'. What would you like to change about it? (time, duration, title, etc.)"))
             else
               updated_meeting ←
                 _update_meeting_from_data (id target_meeting)
                   (default Updates_empty updates);
               match updated_meeting with
               | Some updated_meeting =>
                   mret (reply true
                           ("Perfect! I've updated '"
                            +:+ show_opt (title updated_meeting)
                            +:+ "'. Is there anything else you'd like me to help you with?"))
               | None =>
                   mret (reply false "I couldn't update the meeting. Please try again.")
               end
         end
     end)
    (fun _ =>
       mret (reply false "I'm having trouble with that. Could you try again?")).

(** The loop of the delete handler: the title must match, and the start
    time too when the reply gives one (its first 16 characters are
    compared with the ISO text of the meeting's start). *)
Fixpoint meeting_to_delete (d : ActionData) (meetings : list Meeting)
  : outcome (option Meeting) :=
  match meetings with
  | [] => Ok None
  | m :: meetings' =>
      if truthy_str (fget (a_target_title d))
      then
        match title m with
        | None =>
            Raise (AttributeError
                     "'NoneType' object has no attribute 'lower'")
        | Some t =>
            if String.eqb (Str.lower t)
                 (Str.lower (default "" (fget (a_target_title d))))
               && (negb (truthy_time (fget (a_start_time d)))
                   || Str.startswith (isoformat (start_time m))
                        (Str.prefix 16
                           (show_opt_time (fget (a_start_time d)))))
            then Ok (Some m)
            else meeting_to_delete d meetings'
        end
      else meeting_to_delete d meetings'
  end.

Definition _handle_delete_meeting_conversational (user_id : nat)
    (message : string) : M Response :=
  try_except
    (llm_content ← llm_invoke;
     let action_data := _extract_json_from_llm_output (Str.strip llm_content) in
     meetings ← read (fun s => ScheduleService.get_user_meetings (db s) user_id None);
     d ← (if jtruthy action_data
          then d ← lift (as_dict (default JFalsy action_data)); mret (Some d)
          else mret None);
     target_meeting ←
       (match d with
        | Some d =>
            if field_is (a_action d) "delete_meeting"
            then lift (meeting_to_delete d meetings)
            else mret None
        | None => mret None
        end);
     match meetings with
     | [] => mret (reply true "You don't have any meetings to cancel.")
     | _ =>
         match target_meeting with
         | None =>
             match d with
             | Some d' =>
                 if field_is (a_action d') "clarify_delete"
                 then
                   let missing := show_opt (fget_default "details" (a_missing d')) in
                   mret (reply true
                           ("I need more information to identify the meeting you want to cancel. Could you specify the "
                            +:+ missing +:+ "?"))
                 else
                   set_pending user_id (PDelete meetings);;
                   mret (reply true
                           ("Which meeting would you like to cancel?"
                            +:+ nl +:+ nl +:+ numbered_meetings meetings))
             | None =>
                 set_pending user_id (PDelete meetings);;
                 mret (reply true
                         ("Which meeting would you like to cancel?"
                          +:+ nl +:+ nl +:+ numbered_meetings meetings))
             end
         | Some target_meeting =>
             set_pending user_id (PConfirmDelete target_meeting);;
             let summary :=
               "Here's the meeting I found:" +:+ nl +:+ nl
               +:+ "Title: " +:+ show_opt (title target_meeting) +:+ nl
               +:+ "Time: " +:+ day_at_time_text (start_time target_meeting)
               +:+ nl
               +:+ "Duration: "
               +:+ Str.of_Z (duration_minutes target_meeting)
               +:+ " minutes" +:+ nl
               +:+ "Participants: "
               +:+ show_participants (participants target_meeting) +:+ nl
               +:+ "Location: TBD" +:+ nl
               +:+ "Description: " +:+ show_opt (description target_meeting) in
             mret (reply true
                     (summary +:+ nl +:+ nl
                      +:+ "Are you sure you want to delete this meeting? (Reply 'yes' to confirm, or 'no' to cancel.)"))
         end
     end)
    (fun _ =>
       mret (reply false "I'm having trouble with that. Could you try again?")).

Definition _handle_delete_all_meetings_conversational (user_id : nat)
  : M Response :=
  try_except
    (meetings ← read (fun s => ScheduleService.get_user_meetings (db s) user_id None);
     match meetings with
     | [] => mret (reply true "You don't have any meetings to cancel.")
     | _ =>
         set_pending user_id (PConfirmDeleteAll (length meetings));;
         mret (reply true
                 ("Are you sure you want to cancel all "
                  +:+ Str.of_nat (length meetings)
                  +:+ " of your meetings? This cannot be undone. (yes/no)"))
     end)
    (fun _ =>
       mret (reply false "I'm having trouble with that. Could you try again?")).

Definition help_text : string :=
  "I'm your scheduling assistant! I can help you with:" +:+ nl +:+ nl
  +:+ "**View your meetings** - " +:+ dq +:+ "Show my meetings" +:+ dq
  +:+ " or " +:+ dq +:+ "What meetings do I have?" +:+ dq +:+ nl
  +:+ "**Schedule new meetings** - " +:+ dq
  +:+ "Schedule a meeting with John tomorrow at 2pm" +:+ dq +:+ nl
  +:+ "**Update meetings** - " +:+ dq +:+ "Change my 3pm meeting to 4pm"
  +:+ dq +:+ " or " +:+ dq +:+ "Update the team meeting duration" +:+ dq
  +:+ nl
  +:+ "**Cancel meetings** - " +:+ dq +:+ "Cancel my 2pm meeting" +:+ dq
  +:+ " or " +:+ dq +:+ "Delete the team meeting" +:+ dq +:+ nl
  +:+ "**Find available times** - " +:+ dq +:+ "When am I free this week?"
  +:+ dq +:+ nl +:+ nl
  +:+ "Just tell me what you'd like to do, and I'll guide you through it!".

(** [429 in str(e) or quota in str(e).lower()]. *)
Definition is_rate_limit (e : exn) : bool :=
  Str.contains "429" (exn_str e)
  || Str.contains "quota" (Str.lower (exn_str e)).

Definition _handle_general_conversation (user_id : nat) (message : string)
  : M Response :=
  let message_lower := Str.lower message in
  if Str.any_in ["help"; "what can you do"; "how"; "?"] message_lower
  then mret (mkResponse true help_text true)
  else if Str.any_in ["hello"; "hi"; "hey"; "good morning";
                      "good afternoon"] message_lower
  then mret (mkResponse true "Hello! I'm here to help you manage your meetings and schedule. What would you like to do today?" true)
  else
    try_except
      (try_except
         (llm_content ← llm_invoke;
          mret (reply true (Str.strip llm_content)))
         (fun e =>
            if is_rate_limit e
            then mret (reply true "I'm here to help you with your meetings and schedule! The AI service is currently experiencing high usage, but I can still assist you with all your scheduling tasks. You can ask me to show your meetings, schedule new ones, update existing ones, or cancel them. What would you like to do?")
            else mret (reply true "I'm here to help you with your meetings and schedule! You can ask me to show your meetings, schedule new ones, update existing ones, or cancel them. What would you like to do?")))
      (fun _ =>
         mret (reply true "I'm here to help you with your meetings and schedule! What would you like to do?")).

Definition _handle_intent (user_id : nat) (message : string)
    (intent : Intent) : M Response :=
  match intent with
  | view_meetings => _handle_view_meetings_conversational user_id
  | create_meeting => _handle_create_meeting_conversational user_id message
  | update_meeting => _handle_update_meeting_conversational user_id message
  | delete_meeting => _handle_delete_meeting_conversational user_id message
  | delete_all_meetings => _handle_delete_all_meetings_conversational user_id
  | conversation => _handle_general_conversation user_id message
  end.


(** The fallback question of the clarification handler. *)
Definition followup_text (still_missing : list string) : string :=
  match still_missing with
  | [missing_text] =>
      if String.eqb missing_text "meeting title"
      then "Great! What would you like to call this meeting?"
      else if String.eqb missing_text "date and time"
      then "Great! When would you like to have this meeting?"
      else if String.eqb missing_text "participants"
      then "Great! Who would you like to invite to this meeting?"
      else if String.eqb missing_text "duration"
      then "Great! How long should this meeting be?"
      else "Great! I just need to know the " +:+ missing_text +:+ "."
  | _ =>
      let missing_text :=
        Str.join ", " (take (length still_missing - 1) still_missing) in
      let missing_text :=
        if (1 <? length still_missing)%nat
        then missing_text +:+ " and " +:+ default "" (last still_missing)
        else default "" (head still_missing) in
      "Great! I just need a bit more: " +:+ missing_text
      +:+ ". What would you like to include?"
  end.

(** [pending] is the dict stored for the user: [partial_info.update]
    and the two assignments to its keys change the stored entry. *)
Definition _handle_create_meeting_clarification (user_id : nat)
    (message : string) (pending : PendingAction) : M Response :=
  match pending with
  | PCreate partial_info missing_fields suggested =>
      new_info ← lift (_extract_meeting_info message);
      let partial_info := Info_update partial_info new_info in
      set_pending user_id (PCreate partial_info missing_fields suggested);;
      let still_missing := missing_fields_of partial_info in
      match still_missing with
      | _ :: _ =>
          try_except
            (llm_content ← llm_invoke;
             let natural_followup := Str.strip llm_content in
             set_pending user_id (PCreate partial_info still_missing suggested);;
             mret (reply true natural_followup))
            (fun _ =>
               let followup_msg := followup_text still_missing in
               set_pending user_id (PCreate partial_info still_missing suggested);;
               mret (reply true followup_msg))
      | [] =>
          del_pending user_id;;
          _create_meeting_with_info user_id partial_info
      end
  | _ => raise (KeyError "partial_info")
  end.

(** The selection of a meeting by number or by description; the
    [except] without a type catches what the identification raises. *)
Definition select_meeting (message : string) (meetings : list Meeting)
  : Response + Meeting :=
  if Str.isdigit (Str.strip message)
  then
    let index := Str.int (Str.strip message) - 1 in
    if (0 <=? index) && (index <? Z.of_nat (length meetings))
    then match meetings !! Z.to_nat index with
         | Some target_meeting => inr target_meeting
         | None => inl (reply true "I didn't understand that. Please try again.")
         end
    else inl (reply true "That number doesn't match any meeting. Please try again.")
  else
    match _identify_meeting_from_message message meetings with
    | Ok (Some target_meeting) => inr target_meeting
    | Ok None => inl (reply true "I couldn't find that meeting. Please try again.")
    | Raise _ => inl (reply true "I didn't understand that. Please try again.")
    end.

Definition _handle_update_meeting_selection (user_id : nat)
    (message : string) (pending : PendingAction) : M Response :=
  match pending with
  | PUpdate meetings | PDelete meetings =>
      match select_meeting message meetings with
      | inl response => mret response
      | inr target_meeting =>
          set_pending user_id (PUpdateDetails target_meeting);;
          mret (reply true
                  ("Perfect! I found '" +:+ show_opt (title target_meeting)
                   +:+ "'. What would you like to change about it? (time, duration, title, etc.)"))
      end
  | _ => raise (KeyError "available_meetings")
  end.

Definition _handle_update_meeting_details (user_id : nat)
    (message : string) (pending : PendingAction) : M Response :=
  match pending with
  | PUpdateDetails target_meeting | PConfirmDelete target_meeting =>
      updates ← lift (_extract_update_info message);
      if negb (Updates_truthy updates)
      then mret (reply true "I didn't understand what you want to change. Could you be more specific? (e.g., 'change the time to 3pm' or 'make it 30 minutes')")
      else
        try_except
          (updated_meeting ←
             _update_meeting_from_data (id target_meeting) updates;
           del_pending user_id;;
           match updated_meeting with
           | Some updated_meeting =>
               mret (reply true
                       ("Perfect! I've updated '"
                        +:+ show_opt (title updated_meeting)
                        +:+ "'. Is there anything else you'd like me to help you with?"))
           | None =>
               mret (reply false "I couldn't update the meeting. Please try again.")
           end)
          (fun _ =>
             mret (reply false "I'm having trouble updating the meeting. Please try again."))
  | _ => raise (KeyError "target_meeting")
  end.

Definition _handle_delete_meeting_selection (user_id : nat)
    (message : string) (pending : PendingAction) : M Response :=
  match pending with
  | PUpdate meetings | PDelete meetings =>
      match select_meeting message meetings with
      | inl response => mret response
      | inr target_meeting =>
          set_pending user_id (PConfirmDelete target_meeting);;
          mret (reply true
                  ("Are you sure you want to delete '"
                   +:+ show_opt (title target_meeting) +:+ "' on "
                   +:+ day_text (start_time target_meeting) +:+ " at "
                   +:+ time_text (start_time target_meeting)
                   +:+ "? (yes/no)"))
      end
  | _ => raise (KeyError "available_meetings")
  end.

(** [self.schedule_service.delete_meeting(meeting_id)]. *)
Definition delete_from_db (meeting_id : nat) : M unit :=
  db0 ← read db;
  set_db (fst (ScheduleService.delete_meeting db0 meeting_id None)).

Fixpoint delete_each (meetings : list Meeting) : M unit :=
  match meetings with
  | [] => mret tt
  | meeting :: meetings' =>
      delete_from_db (id meeting);; delete_each meetings'
  end.

Definition _handle_confirm_delete_all (user_id : nat) (message : string)
    (pending : PendingAction) : M Response :=
  match pending with
  | PConfirmDeleteAll meeting_count =>
      if Str.among (Str.strip (Str.lower message)) ["yes"; "y"; "confirm"; "ok"]
      then
        try_except
          (meetings ← read (fun s => ScheduleService.get_user_meetings (db s) user_id None);
           delete_each meetings;;
           del_pending user_id;;
           mret (reply true
                   ("I've cancelled all " +:+ Str.of_nat meeting_count
                    +:+ " meetings for you. Is there anything else you'd like me to help you with?")))
          (fun _ =>
             mret (reply false "I couldn't cancel the meetings. Please try again."))
      else
        del_pending user_id;;
        mret (reply true "No problem! All your meetings are still scheduled. Is there anything else you'd like me to help you with?")
  | _ => raise (KeyError "meeting_count")
  end.

(** The body of the [try] of [_handle_pending_action]. *)
Definition pending_action_body (user_id : nat) (message : string)
    (pending : PendingAction) : M Response :=
  match pending with
  | PCreate _ _ _ =>
      _handle_create_meeting_clarification user_id message pending
  | PConfirmCreate meeting_proposal =>
      let answer := Str.lower (Str.strip message) in
      if Str.among answer ["yes"; "that's enough"; "confirm"; "ok"; "go ahead"]
      then
        del_pending user_id;;
        _create_meeting_with_info user_id meeting_proposal
      else if Str.among answer ["add info"; "add more"; "more info"; "add details"]
      then
        llm_content ← llm_invoke;
        let updated_proposal :=
          _extract_json_from_llm_output (Str.strip llm_content) in
        if jtruthy updated_proposal
        then
          d ← lift (as_dict (default JFalsy updated_proposal));
          let proposal := proposal_of_action d in
          set_pending user_id (PConfirmCreate proposal);;
          let summary :=
            "Here's the updated meeting proposal:" +:+ nl +:+ nl
            +:+ proposal_text proposal in
          mret (reply true (summary +:+ confirm_question))
        else mret (reply false "Sorry, I couldn't update the proposal. Please try again.")
      else _handle_create_meeting_clarification user_id message pending
  | PDelete _ => _handle_delete_meeting_selection user_id message pending
  | PConfirmDelete target_meeting =>
      if Str.among (Str.lower (Str.strip message)) ["yes"; "y"; "confirm"; "ok"]
      then
        delete_from_db (id target_meeting);;
        del_pending user_id;;
        mret (reply true
                ("I've deleted the meeting '"
                 +:+ show_opt (title target_meeting) +:+ "' on "
                 +:+ day_at_time_text (start_time target_meeting)
                 +:+ ". Is there anything else I can help you with?"))
      else
        del_pending user_id;;
        mret (reply true "No problem! The meeting is still scheduled. Is there anything else you'd like me to help you with?")
  | PUpdate _ => _handle_update_meeting_selection user_id message pending
  | PUpdateDetails _ => _handle_update_meeting_details user_id message pending
  | PConfirmDeleteAll _ => _handle_confirm_delete_all user_id message pending
  end.

Definition _handle_pending_action (user_id : nat) (message : string)
  : M Response :=
  entry ← read (fun s => pending_actions s !! user_id);
  match entry with
  | None => raise (KeyError (Str.of_nat user_id))
  | Some pending =>
      try_except
        (pending_action_body user_id message pending)
        (fun _ =>
           del_pending user_id;;
           mret (reply false "I'm having trouble with that. Let's start over - what would you like to do?"))
  end.

Definition rate_limit_note : string :=
  nl +:+ nl
  +:+ "*Note: AI service is experiencing high usage, but all functionality is available.*".

(** The result is the pair of the response object handed in, which the
    rate-limit branch changes in place, and the value returned. *)
Definition _enhance_response_with_llm (user_id : nat)
    (user_message : string) (response : Response)
  : M (Response * option Response) :=
  try_except
    (try_except
       (llm_content ← llm_invoke;
        let enhanced_message := Str.strip llm_content in
        if (10 <? Str.len enhanced_message) && (Str.len enhanced_message <? 500)
        then mret (response,
                   Some (mkResponse (success response) enhanced_message
                                    (needs_llm_enhancement response)))
        else mret (response, None))
       (fun e =>
          if is_rate_limit e
          then
            let original_message := message response in
            if negb (Str.any_in ["api"; "limit"; "quota"; "temporarily"]
                                (Str.lower original_message))
            then mret (mkResponse (success response)
                                  (original_message +:+ rate_limit_note)
                                  (needs_llm_enhancement response),
                       None)
            else mret (response, None)
          else mret (response, None)))
    (fun _ => mret (response, None)).

Definition generic_error : Response :=
  reply false "I'm having trouble right now. Could you try again in a moment?".

(** The body of the [try] of [process_message]. *)
Definition process_message_body (user_id : nat) (message : string)
  : M Response :=
  append_turn user_id (mkTurn User message (now env));;
  has_pending ← read (fun s => bool_decide (is_Some (pending_actions s !! user_id)));
  response ←
    (if has_pending : bool
     then _handle_pending_action user_id message
     else _handle_intent user_id message (_analyze_intent message));
  response ←
    (if success response && negb (needs_llm_enhancement response)
     then
       '(response, enhanced_response) ←
         _enhance_response_with_llm user_id message response;
       mret (default response enhanced_response)
     else mret response);
  append_turn user_id (mkTurn Assistant (response_message response) (now env));;
  mret response.

Definition process_message (user_id : nat) (message : string)
  : M Response :=
  try_except (process_message_body user_id message)
             (fun _ => mret generic_error).

End WithEnv.

End SchedulingAgent.

(* ===================================================================== *)
(** * api/routes/scheduling.py *)
(* ===================================================================== *)

Module SchedulingRoutes.

(** [SchedulingResponse], by the fields that the deletions set. *)
Record SchedulingResponse := mkSchedulingResponse {
  sr_success : bool;
  sr_message : string;
  sr_agent_reasoning : string
}.

(** The body of the loop of the branch [confirm_delete_all] of
    [confirm_action]: the deletion names the current user, so that the
    service refuses it for a meeting of another organizer. *)
Definition delete_counting (current_user : nat) (acc : ScheduleService.DB * nat)
    (meeting : Meeting) : ScheduleService.DB * nat :=
  let '(db, deleted_count) := acc in
  match ScheduleService.delete_meeting db (id meeting) (Some current_user) with
  | (db', Some _) => (db', S deleted_count)
  | (db', None) => (db', deleted_count)
  end.

(** The branch [confirm_delete_all] of [confirm_action]. *)
Definition confirm_delete_all (db : ScheduleService.DB) (current_user : nat)
  : ScheduleService.DB * SchedulingResponse :=
  let meetings := ScheduleService.get_user_meetings db current_user None in
  let '(db', deleted_count) :=
    foldl (delete_counting current_user) (db, 0%nat) meetings in
  (db',
   {| sr_success := true;
      sr_message := "Successfully cancelled " +:+ Str.of_nat deleted_count
                    +:+ " meeting(s)";
      sr_agent_reasoning := "Bulk deletion completed after user confirmation" |}).

End SchedulingRoutes.

(* ===================================================================== *)
(** * Notions used in the statements *)
(* ===================================================================== *)

Import ScheduleService.

(** The number of iterations of the loop over days: the values
    [start_date], [start_date + 1 day], ... that are not after
    [end_date]. *)
Definition days_in_range (start_date end_date : datetime) : nat :=
  if start_date <=? end_date
  then S (Z.to_nat ((end_date - start_date) `div` US_PER_DAY))
  else O.

(** The first [n] values of [current_date]. *)
Fixpoint range_days (n : nat) (current_date : datetime) : list datetime :=
  match n with
  | O => []
  | S n' => current_date :: range_days n' (current_date + timedelta_days 1)
  end.

(** The candidate slot of a day at an hour. *)
Definition slot_of (participant_ids : list participant) (duration : Z)
    (current_date : datetime) (hour : Z) : Suggestion :=
  {| s_start_time := dt_replace_hour current_date hour;
     s_end_time := dt_replace_hour current_date hour + timedelta_minutes duration;
     s_date := dt_date current_date;
     s_participant_count := length participant_ids |}.

(** The candidate slots of a range, day by day and hour by hour. *)
Definition candidate_slots (participant_ids : list participant) (duration : Z)
    (start_date end_date : datetime) : list Suggestion :=
  flat_map (fun d => map (slot_of participant_ids duration d) business_hours)
           (range_days (days_in_range start_date end_date) start_date).

(** No participant has a conflict in the interval of the slot. *)
Definition feasible (db : DB) (participant_ids : list participant)
    (slot : Suggestion) : bool :=
  forallb (fun user_id =>
             match check_meeting_conflicts db user_id (s_start_time slot)
                     (s_end_time slot) with
             | [] => true
             | _ => false
             end) participant_ids.




(** The relation between the pending-action table before and after an
    operation on behalf of [user_id]: untouched, one entry of that user
    written, or the entry of that user removed. *)
Definition pending_step (user_id : nat)
    (before after : gmap nat PendingAction) : Prop :=
  after = before
  \/ (exists action, after = <[user_id := action]> before)
  \/ after = delete user_id before.

(** The number of entries stored for a user. *)
Definition entries_of (user_id : nat) (table : gmap nat PendingAction) : nat :=
  length (List.filter (fun kv => Nat.eqb (fst kv) user_id) (map_to_list table)).





(** A computation keeps a relation between the agent before and after it,
    whether it returns or raises. *)
Definition keeps {A} (R : relation Agent) (m : M A) : Prop :=
  forall s, R s (snd (m s)).

Definition pending_rel (user_id : nat) : relation Agent :=
  fun s s' => pending_step user_id (pending_actions s) (pending_actions s').

Definition history_rel : relation Agent :=
  fun s s' => conversation_history s' = conversation_history s.

(** The agent after one more call of the completion service. *)
Definition called (s : Agent) : Agent :=
  mkAgent (conversation_history s) (pending_actions s) (db s) (S (llm_calls s)).

(** The two replies of the state-machine boundary to an exception: the one
    of [_handle_pending_action] and the one of [process_message]. *)
Definition start_over_error : Response :=
  reply false "I'm having trouble with that. Let's start over - what would you like to do?".

(** An exception leaves the handler that [process_message] dispatches to:
    the body of the [try] of [_handle_pending_action] when the user has a
    pending action, the handler of the intent otherwise.  The handler runs
    on the agent to which the user's turn has been appended. *)
Definition handler_raises (env : Env) (user_id : nat) (message : string)
    (s : Agent) : Prop :=
  let s1 := snd (append_turn user_id (mkTurn User message (now env)) s) in
  match pending_actions s !! user_id with
  | Some pending =>
      exists e, fst (SchedulingAgent.pending_action_body env user_id message
                       pending s1) = Raise e
  | None =>
      exists e, fst (SchedulingAgent._handle_intent env user_id message
                       (SchedulingAgent._analyze_intent message) s1) = Raise e
  end.

(** A world in which every call of the completion service has the same
    outcome, nothing parses as JSON or as a literal, and no user is known
    by e-mail address; the clock shows Monday 2024-06-10 08:00. *)
Definition silent_env (out : LLMOutcome) : Env :=
  mkEnv (fun _ => out) (fun _ => None) (fun _ => None) (fun _ => None)
        (739046 * US_PER_DAY + 8 * US_PER_HOUR).


(** The agent just constructed. *)
Definition fresh_agent : Agent := mkAgent ∅ ∅ [] 0.






(** The status filter of [get_user_meetings]: an empty filter is no
    filter. *)
Definition status_matches (status_filter : option string) (m : Meeting) : Prop :=
  match status_filter with
  | Some s => s = "" \/ status m = s
  | None => True
  end.

(** Most recent first. *)
Definition not_earlier (a b : Meeting) : Prop := start_time b <= start_time a.

(** The handler that [process_message] runs after it has recorded the
    user's turn: the dispatcher of pending actions when the user has one,
    the handler of the intent of the message otherwise. *)
Definition dispatch (env : Env) (user_id : nat) (message : string)
  : M Response := fun s =>
  if bool_decide (is_Some (pending_actions s !! user_id))
  then SchedulingAgent._handle_pending_action env user_id message s
  else SchedulingAgent._handle_intent env user_id message
         (SchedulingAgent._analyze_intent message) s.

(** The agent after the turn of a speaker has been recorded. *)
Definition with_turn (user_id : nat) (turn : Turn) (s : Agent) : Agent :=
  snd (append_turn user_id turn s).

(** The rephrasing step is attempted on a reply. *)
Definition rephrased (response : Response) : bool :=
  success response && negb (needs_llm_enhancement response).

(** The meeting table is the same before and after. *)
Definition table_rel : relation Agent := fun s s' => db s' = db s.

(** The situations in which a message cannot reach a handler that writes
    to the meeting table: the user has no pending action and the message
    is not classified as an update, or the user is choosing a meeting from
    a list. *)
Definition read_only_turn (user_id : nat) (message : string) (s : Agent)
  : Prop :=
  match pending_actions s !! user_id with
  | None =>
      SchedulingAgent._analyze_intent message <> SchedulingAgent.update_meeting
  | Some (PDelete _) | Some (PUpdate _) => True
  | Some _ => False
  end.

Definition no_meetings_offer : Response :=
  reply true "You don't have any meetings scheduled right now. Would you like me to help you schedule one?".

(** The answers that confirm a deletion. *)
Definition confirms_deletion (message : string) : bool :=
  Str.among (Str.lower (Str.strip message)) ["yes"; "y"; "confirm"; "ok"].

(** The answers that confirm the deletion of all meetings. *)
Definition confirms_delete_all (message : string) : bool :=
  Str.among (Str.strip (Str.lower message)) ["yes"; "y"; "confirm"; "ok"].


(** The meetings a user organizes. *)
Definition organized_by (user_id : nat) (m : Meeting) : bool :=
  Nat.eqb (organizer_id m) user_id.

(** The number typed by the user lies within the list shown. *)
Definition number_in_range (message : string) (meetings : list Meeting) : bool :=
  (1 <=? Str.int (Str.strip message))
  && (Str.int (Str.strip message) <=? Z.of_nat (length meetings)).

(** The pending action that follows the choice of a meeting from a list
    shown for a deletion or for an update. *)
Definition chosen (for_deletion : bool) (m : Meeting) : PendingAction :=
  if for_deletion then PConfirmDelete m else PUpdateDetails m.
Definition choosing (for_deletion : bool) (meetings : list Meeting)
  : PendingAction :=
  if for_deletion then PDelete meetings else PUpdate meetings.


(** Only the meeting table differs. *)
Definition only_table_differs (s s' : Agent) : Prop :=
  conversation_history s' = conversation_history s
  /\ pending_actions s' = pending_actions s
  /\ llm_calls s' = llm_calls s.

(** The answers that confirm a proposal. *)
Definition confirms_creation (message : string) : bool :=
  Str.among (Str.lower (Str.strip message))
            ["yes"; "that's enough"; "confirm"; "ok"; "go ahead"].

(** The meeting [m] was appended to the table [before] for the user from
    the details [info]. *)
Definition scheduled_from (user_id : nat) (info : Info) (before after : DB)
    (m : Meeting) : Prop :=
  after = before ++ [m]
  /\ organizer_id m = user_id
  /\ status m = "confirmed"
  /\ title m = fget_default "Untitled Meeting" (i_title info)
  /\ i_start_time info = Val (Iso (start_time m))
  /\ end_time m = start_time m + timedelta_minutes (duration_minutes m).

(** The row [m'] is what an update of a conversation makes of the row
    under [meeting_id]: it is stored under that id, it ends its duration
    after its start, its start and its duration are those of the update
    where the update gives them, and every other id reads as before. *)
Definition updated_from (meeting_id : nat) (updates : Updates)
    (before after : DB) (m' : Meeting) : Prop :=
  get_meeting after meeting_id = Some m'
  /\ end_time m' = start_time m' + timedelta_minutes (duration_minutes m')
  /\ (exists existing,
        get_meeting before meeting_id = Some existing
        /\ start_time m'
           = match up_start_time updates with
             | Val (Iso t) => t
             | _ => start_time existing
             end
        /\ duration_minutes m'
           = match up_duration_minutes updates with
             | Val d => d
             | _ => duration_minutes existing
             end)
  /\ (forall j, j <> meeting_id -> get_meeting after j = get_meeting before j).

(** What the rephrasing step, on the [n]-th completion call, can return
    for a reply: the reply itself; the reply with the text of the
    completion, stripped; or, after a failure that tells of a rate limit,
    the reply with the note on high usage appended. *)
Definition rephrasing_of (env : Env) (n : nat) (response response' : Response)
  : Prop :=
  response' = response
  \/ (exists content,
        llm env n = LLMReply content
        /\ response' = mkResponse (success response) (Str.strip content)
                         (needs_llm_enhancement response))
  \/ (exists failure,
        llm env n = LLMFail failure
        /\ SchedulingAgent.is_rate_limit (LLMFailure failure) = true
        /\ response' = mkResponse (success response)
                         (message response +:+ SchedulingAgent.rate_limit_note)
                         (needs_llm_enhancement response)).

Definition greeting : Response :=
  mkResponse true "Hello! I'm here to help you manage your meetings and schedule. What would you like to do today?" true.

(** The keywords of the two canned replies of the general conversation. *)
Definition asks_for_help (message : string) : bool :=
  Str.any_in ["help"; "what can you do"; "how"; "?"] (Str.lower message).
Definition greets (message : string) : bool :=
  Str.any_in ["hello"; "hi"; "hey"; "good morning"; "good afternoon"]
             (Str.lower message).

(** The count of completion calls is the same before and after. *)
Definition same_calls : relation Agent := fun s s' => llm_calls s' = llm_calls s.

(** A computation makes at most [n] completion calls, whether it returns
    or raises. *)
Definition calls_at_most {A} (n : nat) (m : M A) : Prop :=
  forall s, (llm_calls s <= llm_calls (snd (m s)) <= llm_calls s + n)%nat.

(** Every call of the completion service fails. *)
Definition service_down (env : Env) : Prop :=
  forall n, exists failure, llm env n = LLMFail failure.

(** The reply carries a text. *)
Definition answered (response : Response) : Prop := message response <> "".

(** Whatever a computation returns satisfies [P]. *)
Definition returns_only {A} (P : A -> Prop) (m : M A) : Prop :=
  forall s a s', m s = (Ok a, s') -> P a.

(** A row ends its duration after its start. *)
Definition well_timed (m : Meeting) : Prop :=
  end_time m = start_time m + timedelta_minutes (duration_minutes m).

(** The table has one row per id, and each row ends its duration after
    its start. *)
Definition table_ok (db : DB) : Prop :=
  NoDup (map id db) /\ Forall well_timed db.

(** A table that is in order stays in order. *)
Definition table_ok_rel : relation Agent :=
  fun s s' => table_ok (db s) -> table_ok (db s').


(** The pattern has no group. *)
Fixpoint groupless (r : Re.regex) : bool :=
  match r with
  | Re.Grp _ => false
  | Re.Cat r1 r2 | Re.Alt r1 r2 => groupless r1 && groupless r2
  | Re.Rep _ _ r' => groupless r'
  | _ => true
  end.

(** The groups of the pattern stand side by side: none is inside another
    group, an alternative or a repetition. *)
Fixpoint groups_in_line (r : Re.regex) : bool :=
  match r with
  | Re.Cat r1 r2 => groups_in_line r1 && groups_in_line r2
  | Re.Grp r' => groupless r'
  | Re.Alt r1 r2 => groupless r1 && groupless r2
  | Re.Rep _ _ r' => groupless r'
  | _ => true
  end.

(** The number of groups of such a pattern. *)
Fixpoint group_count (r : Re.regex) : nat :=
  match r with
  | Re.Cat r1 r2 => (group_count r1 + group_count r2)%nat
  | Re.Grp _ => 1%nat
  | _ => 0%nat
  end.

(** A continuation that succeeds wherever another one does. *)
Definition succeeds_where {R R'} (k : Re.K R) (k' : Re.K R') : Prop :=
  forall prev s caps x, k prev s caps = Some x ->
                        exists y, k' prev s caps = Some y.

(** What a request to cancel leaves pending: nothing new, or the list of
    the meetings of the user, or one meeting of that list to be
    confirmed. *)
Definition offered_for_deletion (user_id : nat) (s s' : Agent) : Prop :=
  let meetings := get_user_meetings (db s) user_id None in
  pending_actions s' = pending_actions s
  \/ (meetings <> []
      /\ pending_actions s' = <[user_id := PDelete meetings]> (pending_actions s))
  \/ exists m, In m meetings
               /\ pending_actions s'
                  = <[user_id := PConfirmDelete m]> (pending_actions s).

(** What a request to update leaves: the table as it was and nothing new
    pending, or the list of the meetings of the user, or one meeting of
    that list to be changed; or the pending actions as they were and one
    row of a meeting of the user updated. *)
Definition offered_for_update (user_id : nat) (s s' : Agent) : Prop :=
  let meetings := get_user_meetings (db s) user_id None in
  (db s' = db s
   /\ (pending_actions s' = pending_actions s
       \/ (meetings <> []
           /\ pending_actions s'
              = <[user_id := PUpdate meetings]> (pending_actions s))
       \/ exists m, In m meetings
                    /\ pending_actions s'
                       = <[user_id := PUpdateDetails m]> (pending_actions s)))
  \/ (pending_actions s' = pending_actions s
      /\ exists m updates m',
           In m meetings
           /\ updated_from (id m) updates (db s) (db s') m').

(** What a request to schedule leaves pending: nothing new; or the
    details read so far together with the list of the required fields they
    lack, which is not empty; or a proposal that lacks no required field,
    to be confirmed; or the details with another time suggested. *)
Definition proposed_for_creation (user_id : nat) (s s' : Agent) : Prop :=
  pending_actions s' = pending_actions s
  \/ exists info,
       (SchedulingAgent.missing_fields_of info <> []
        /\ pending_actions s'
           = <[user_id := PCreate info (SchedulingAgent.missing_fields_of info) Absent]>
               (pending_actions s))
       \/ (SchedulingAgent.missing_fields_of info = []
           /\ pending_actions s'
              = <[user_id := PConfirmCreate info]> (pending_actions s))
       \/ exists alternative,
            pending_actions s'
            = <[user_id := PCreate info [] alternative]> (pending_actions s).

(* ===================================================================== *)
(** * The conflict detector *)
(* ===================================================================== *)



(* ===================================================================== *)
(** * The slot search *)
(* ===================================================================== *)

Lemma dt_date_next_day d : dt_date (d + timedelta_days 1) = dt_date d + 1.
Proof.
  unfold dt_date, timedelta_days, US_PER_DAY.
  rewrite Z.div_add by lia. reflexivity.
Qed.

Lemma dt_hour_replace d h : 0 <= h < 24 -> dt_hour (dt_replace_hour d h) = h.
Proof.
  intros Hh. unfold dt_hour, dt_replace_hour, US_PER_DAY, US_PER_HOUR.
  replace (dt_date d * 86400000000 + h * 3600000000)
    with ((dt_date d * 24 + h) * 3600000000) by lia.
  rewrite Z.div_mul by lia.
  rewrite Z.add_comm, Z.mod_add by lia. apply Z.mod_small. lia.
Qed.

Lemma dt_date_replace d h : 0 <= h < 24 -> dt_date (dt_replace_hour d h) = dt_date d.
Proof.
  intros Hh. unfold dt_replace_hour. unfold dt_date at 1. unfold US_PER_DAY, US_PER_HOUR.
  rewrite Z.add_comm, Z.div_add by lia.
  rewrite Z.div_small by lia. lia.
Qed.

Lemma days_in_range_step cur e :
  cur <= e ->
  days_in_range cur e = S (days_in_range (cur + timedelta_days 1) e).
Proof.
  intros Hle. unfold days_in_range, timedelta_days, US_PER_DAY.
  destruct (Z.leb_spec cur e); [|lia].
  destruct (Z.leb_spec (cur + 1 * 86400000000) e) as [H1|H1].
  - f_equal.
    replace (e - cur) with ((e - (cur + 1 * 86400000000)) + 1 * 86400000000) by lia.
    rewrite Z.div_add by lia.
    rewrite Z2Nat.inj_add; [|apply Z.div_pos; lia|lia].
    simpl. lia.
  - f_equal. rewrite Z.div_small by lia. reflexivity.
Qed.

Lemma suggestions_loop_run db ps dur e :
  forall n fuel cur acc,
    days_in_range cur e = n -> (n < fuel)%nat ->
    suggestions_loop fuel db ps dur cur e acc
    = Some (acc ++ flat_map (day_slots db ps dur) (range_days n cur)).
Proof.
  induction n as [|n IH]; intros fuel cur acc Hn Hfuel.
  - destruct fuel as [|fuel]; [lia|]. simpl.
    unfold days_in_range in Hn.
    destruct (Z.leb_spec cur e); [discriminate|].
    rewrite app_nil_r. reflexivity.
  - destruct fuel as [|fuel]; [lia|]. simpl.
    assert (Hle : cur <= e).
    { unfold days_in_range in Hn. destruct (Z.leb_spec cur e); [lia|discriminate]. }
    destruct (Z.leb_spec cur e); [|lia].
    rewrite (IH fuel (cur + timedelta_days 1)).
    + rewrite <- app_assoc. reflexivity.
    + rewrite (days_in_range_step cur e Hle) in Hn. lia.
    + lia.
Qed.

Lemma loop_fuel_enough s e : (days_in_range s e < loop_fuel s e)%nat.
Proof.
  unfold days_in_range, loop_fuel. destruct (s <=? e); lia.
Qed.

(** The loop over days terminates within its fuel. *)
Lemma suggestions_loop_total db ps dur s e :
  suggestions_loop (loop_fuel s e) db ps dur s e []
  = Some (flat_map (day_slots db ps dur) (range_days (days_in_range s e) s)).
Proof.
  rewrite (suggestions_loop_run db ps dur e (days_in_range s e));
    [reflexivity | reflexivity | apply loop_fuel_enough].
Qed.

Lemma try_slot_feasible db ps dur d h :
  try_slot db ps dur d h
  = if feasible db ps (slot_of ps dur d h) then [slot_of ps dur d h] else [].
Proof. reflexivity. Qed.

Lemma flat_map_if_filter {A B} (f : A -> B) (p : B -> bool) (l : list A) :
  flat_map (fun x => if p (f x) then [f x] else []) l = List.filter p (map f l).
Proof.
  induction l as [|x l IH]; simpl; [reflexivity|].
  destruct (p (f x)); simpl; rewrite IH; reflexivity.
Qed.

Lemma day_slots_filter db ps dur d :
  day_slots db ps dur d
  = List.filter (feasible db ps) (map (slot_of ps dur d) business_hours).
Proof.
  unfold day_slots.
  rewrite <- (flat_map_if_filter (slot_of ps dur d) (feasible db ps)).
  reflexivity.
Qed.

Lemma filter_flat_map {A B} (p : B -> bool) (f : A -> list B) (l : list A) :
  List.filter p (flat_map f l) = flat_map (fun x => List.filter p (f x)) l.
Proof.
  induction l as [|x l IH]; simpl; [reflexivity|].
  rewrite List.filter_app, IH. reflexivity.
Qed.

(** The suggestion query returns the first ten feasible candidate slots, in
    the order of the candidates: day by day from [start_date] in steps of
    one day while the day is not after [end_date], and from 9 to 16 o'clock
    within a day. *)
Lemma get_meeting_suggestions_spec db ps dur s e :
  get_meeting_suggestions db ps dur s e
  = take 10 (List.filter (feasible db ps) (candidate_slots ps dur s e)).
Proof.
  unfold get_meeting_suggestions, candidate_slots.
  rewrite suggestions_loop_total. f_equal.
  rewrite filter_flat_map.
  apply flat_map_ext. intros d. apply day_slots_filter.
Qed.

Lemma range_days_dates n :
  forall cur d, In d (range_days n cur) ->
                dt_date cur <= dt_date d < dt_date cur + Z.of_nat n.
Proof.
  induction n as [|n IH]; intros cur d Hin; simpl in Hin; [contradiction|].
  destruct Hin as [<-|Hin]; [lia|].
  apply IH in Hin. rewrite dt_date_next_day in Hin. lia.
Qed.

Lemma business_hours_range h : In h business_hours -> 9 <= h <= 16.
Proof. unfold business_hours. simpl. intuition lia. Qed.

(** Every candidate slot starts on the hour, between 9 and 16 o'clock, on a
    day from the day of [start_date] on. *)
Lemma candidate_slots_window ps dur s e slot :
  In slot (candidate_slots ps dur s e) ->
  9 <= dt_hour (s_start_time slot) <= 16
  /\ dt_date s <= dt_date (s_start_time slot)
     < dt_date s + Z.of_nat (days_in_range s e)
  /\ s_end_time slot = s_start_time slot + timedelta_minutes dur
  /\ s_participant_count slot = length ps.
Proof.
  unfold candidate_slots. rewrite in_flat_map.
  intros (d & Hd & Hslot). apply in_map_iff in Hslot.
  destruct Hslot as (h & <- & Hh). apply business_hours_range in Hh.
  apply range_days_dates in Hd. simpl.
  rewrite dt_hour_replace, dt_date_replace by lia.
  repeat split; lia.
Qed.

Lemma suggestion_is_candidate db ps dur s e slot :
  In slot (get_meeting_suggestions db ps dur s e) ->
  In slot (candidate_slots ps dur s e) /\ feasible db ps slot = true.
Proof.
  rewrite get_meeting_suggestions_spec. intros Hin.
  apply list_elem_of_In in Hin.
  apply (subseteq_take 10) in Hin. apply list_elem_of_In in Hin.
  apply filter_In in Hin. exact Hin.
Qed.






(** C6, at an input on which the code departs from it.  The range runs from
    Monday 2024-06-10 15:00 to Tuesday 2024-06-11 10:00, nobody has a
    meeting, one participant, one hour: the query returns the eight slots
    of Monday, from 09:00 on, and no slot of Tuesday, although Tuesday is a
    date of the range and its 09:00 slot is free. *)
Theorem get_meeting_suggestions_skips_last_date :
  let monday := 739046 in
  let start_date := monday * US_PER_DAY + 15 * US_PER_HOUR in
  let end_date := (monday + 1) * US_PER_DAY + 10 * US_PER_HOUR in
  let tuesday_9 := slot_of [PId 1] 60 end_date 9 in
  get_meeting_suggestions [] [PId 1] 60 start_date end_date
  = map (slot_of [PId 1] 60 start_date) business_hours
  /\ feasible [] [PId 1] tuesday_9 = true
  /\ start_date <= s_start_time tuesday_9
  /\ s_end_time tuesday_9 <= end_date
  /\ ~ In tuesday_9 (get_meeting_suggestions [] [PId 1] 60 start_date end_date).
Proof.
  vm_compute. repeat split; try discriminate.
  intros H. repeat (destruct H as [H|H]; [discriminate H|]). exact H.
Qed.

(* ===================================================================== *)
(** * Sorting by descending key *)
(* ===================================================================== *)

Lemma insert_desc_Permutation {A} (gt : A -> A -> bool) x l :
  Permutation (insert_desc gt x l) (x :: l).
Proof.
  induction l as [|y l IH]; simpl; [reflexivity|].
  destruct (gt y x); [|reflexivity].
  rewrite IH. apply perm_swap.
Qed.

Lemma sort_desc_Permutation {A} (gt : A -> A -> bool) l :
  Permutation (sort_desc gt l) l.
Proof.
  induction l as [|x l IH]; simpl; [reflexivity|].
  rewrite insert_desc_Permutation, IH. reflexivity.
Qed.






(* ===================================================================== *)
(** * The optimal-time query *)
(* ===================================================================== *)





(* ===================================================================== *)
(** * Auto-reschedule *)
(* ===================================================================== *)

Lemma get_meeting_unique (db : DB) c :
  NoDup (map id db) -> In c db -> get_meeting db (id c) = Some c.
Proof.
  unfold get_meeting. induction db as [|x db IH]; intros Hnd Hin; [contradiction|].
  simpl in *. apply NoDup_cons in Hnd. destruct Hnd as [Hx Hnd].
  destruct Hin as [->|Hin]; [rewrite Nat.eqb_refl; reflexivity|].
  destruct (Nat.eqb_spec (id x) (id c)) as [Heq|Hne]; [|auto].
  exfalso. apply Hx. rewrite Heq. apply list_elem_of_In, in_map, Hin.
Qed.






Lemma NoDup_id_inj (db : DB) a b :
  NoDup (map id db) -> In a db -> In b db -> id a = id b -> a = b.
Proof.
  induction db as [|x db IH]; intros Hnd Ha Hb Hid; [contradiction|].
  simpl in Hnd. apply NoDup_cons in Hnd. destruct Hnd as [Hx Hnd].
  destruct Ha as [->|Ha], Hb as [->|Hb]; auto.
  - exfalso. apply Hx. rewrite Hid. apply list_elem_of_In, in_map, Hb.
  - exfalso. apply Hx. rewrite <- Hid. apply list_elem_of_In, in_map, Ha.
Qed.





Lemma NoDup_map_filter (db : DB) (p : Meeting -> bool) :
  NoDup (map id db) -> NoDup (map id (List.filter p db)).
Proof.
  intros Hnd. eapply sublist_NoDup; [exact Hnd|].
  induction db as [|x db IH]; simpl; [constructor|].
  simpl in Hnd. apply NoDup_cons in Hnd. destruct Hnd as [_ Hnd].
  destruct (p x); simpl; [apply sublist_skip | apply sublist_cons]; auto.
Qed.





(* ===================================================================== *)
(** * Creating a meeting and reading it back *)
(* ===================================================================== *)

Lemma get_user_meetings_In (db : DB) user_id m :
  In m (get_user_meetings db user_id None)
  <-> In m db /\ involves user_id m = true.
Proof.
  unfold get_user_meetings. rewrite <- filter_In.
  split; apply Permutation_in;
    [|symmetry]; apply sort_desc_Permutation.
Qed.


(* ===================================================================== *)
(** * The intent classifier *)
(* ===================================================================== *)

Import SchedulingAgent.

(** C10. The classifier never returns the delete-all intent: an utterance
    that satisfies the delete-all rule (one of all, everything, clear all,
    and one of cancel, delete, remove) satisfies the delete rule, whose
    keywords are cancel, delete, remove and clear, and that rule is checked
    first. *)
Theorem analyze_intent_never_delete_all :
  forall message : string,
    _analyze_intent message <> delete_all_meetings
    /\ (Str.any_in ["all"; "everything"; "clear all"] (Str.lower message)
        && Str.any_in ["cancel"; "delete"; "remove"] (Str.lower message) = true ->
        Str.any_in ["cancel"; "delete"; "remove"; "clear"] (Str.lower message)
        = true).
Proof.
  intros message.
  assert (Himp : Str.any_in ["cancel"; "delete"; "remove"] (Str.lower message) = true ->
                 Str.any_in ["cancel"; "delete"; "remove"; "clear"] (Str.lower message) = true).
  { unfold Str.any_in. simpl. rewrite !orb_false_r.
    intros H. rewrite orb_assoc, orb_assoc. rewrite <- (orb_assoc _ _ (Str.contains "remove" _)).
    rewrite H. reflexivity. }
  split.
  - unfold _analyze_intent.
    repeat match goal with
           | |- (if ?b then _ else _) <> _ => destruct b eqn:?; try discriminate
           end.
    match goal with
    | H : (_ && Str.any_in ["cancel"; "delete"; "remove"] _) = true |- _ =>
        apply andb_true_iff in H; destruct H as [_ H]; apply Himp in H;
        congruence
    end.
  - intros H. apply andb_true_iff in H. apply Himp, H.
Qed.

(* ===================================================================== *)
(** * Rephrasing a reply *)
(* ===================================================================== *)

(** C7, as amended.  The rephrasing step calls the completion service
    once.  When the call returns, the stripped text replaces the reply if
    and only if its length is strictly between 10 and 500 (11 to 499
    characters).  When the call fails, nothing is returned and there is no
    second call; the original reply is kept as it is, except that a note on
    high usage is appended to it when the failure text contains 429 or
    quota and the reply mentions none of api, limit, quota, temporarily. *)
Theorem enhance_response_length_bounds :
  forall (env : Env) (user_id : nat) (user_message : string)
         (response : Response) (s : Agent),
    let run := _enhance_response_with_llm env user_id user_message response s in
    llm_calls (snd run) = S (llm_calls s)
    /\ match llm env (llm_calls s) with
       | LLMReply content =>
           let enhanced_message := Str.strip content in
           fst run
           = Ok (response,
                 if (10 <? Str.len enhanced_message)
                    && (Str.len enhanced_message <? 500)
                 then Some (mkResponse (success response) enhanced_message
                              (needs_llm_enhancement response))
                 else None)
       | LLMFail msg =>
           fst run
           = Ok (if (Str.contains "429" msg
                     || Str.contains "quota" (Str.lower msg))
                    && negb (Str.any_in ["api"; "limit"; "quota"; "temporarily"]
                               (Str.lower (message response)))
                 then mkResponse (success response)
                        (message response +:+ rate_limit_note)
                        (needs_llm_enhancement response)
                 else response,
                 None)
       end.
Proof.
  intros env user_id user_message response s run. subst run.
  unfold _enhance_response_with_llm, try_except, llm_invoke, mbind, M_bind.
  destruct (llm env (llm_calls s)) as [content|msg]; cbn beta iota.
  - destruct ((10 <? Str.len (Str.strip content))
              && (Str.len (Str.strip content) <? 500)); split; reflexivity.
  - unfold is_rate_limit, exn_str.
    destruct (Str.contains "429" msg || Str.contains "quota" (Str.lower msg));
      [destruct (Str.any_in ["api"; "limit"; "quota"; "temporarily"]
                            (Str.lower (message response)))|];
      split; reflexivity.
Qed.

(** C7 fails as stated.  A rephrasing of exactly 10 characters is not
    accepted, and after a failure that mentions 429 the reply handed in is
    not left unchanged. *)
Lemma enhance_rejects_length_10 :
  fst (_enhance_response_with_llm (silent_env (LLMReply "Certainly.")) 1
         "show my meetings" (reply true "You have no meetings.") fresh_agent)
  = Ok (reply true "You have no meetings.", None)
  /\ Str.len (Str.strip "Certainly.") = 10
  /\ fst (_enhance_response_with_llm
            (silent_env (LLMFail "429 Too Many Requests")) 1
            "show my meetings" (reply true "You have no meetings.") fresh_agent)
     = Ok (reply true ("You have no meetings." +:+ rate_limit_note), None).
Proof. vm_compute. repeat split. Qed.

(* ===================================================================== *)
(** * What the handlers keep *)
(* ===================================================================== *)

#[global] Instance pending_rel_preorder user_id : PreOrder (pending_rel user_id).
Proof.
  split.
  - intros s. left. reflexivity.
  - intros s1 s2 s3. unfold pending_rel, pending_step.
    intros [H12|[[a H12]|H12]] [H23|[[b H23]|H23]]; rewrite H23, H12; clear H23 H12.
    + left; reflexivity.
    + right; left; eauto.
    + right; right; reflexivity.
    + right; left; eauto.
    + right; left. exists b. apply insert_insert_eq.
    + right; right. apply delete_insert_eq.
    + right; right; reflexivity.
    + right; left. exists b. apply insert_delete_eq.
    + right; right. apply delete_delete_eq.
Qed.

#[global] Instance history_rel_preorder : PreOrder history_rel.
Proof.
  split.
  - intros s. reflexivity.
  - intros s1 s2 s3 H12 H23. unfold history_rel in *. congruence.
Qed.

Section Keeps.
Context (R : relation Agent) `{!PreOrder R}.

Lemma keeps_ret {A} (a : A) : keeps R (mret a).
Proof. intros s. reflexivity. Qed.

Lemma keeps_raise {A} e : keeps R (@raise A e).
Proof. intros s. reflexivity. Qed.

Lemma keeps_lift {A} (o : outcome A) : keeps R (lift o).
Proof. intros s. reflexivity. Qed.

Lemma keeps_read {A} (f : Agent -> A) : keeps R (read f).
Proof. intros s. reflexivity. Qed.

Lemma keeps_bind {A B} (m : M A) (f : A -> M B) :
  keeps R m -> (forall a, keeps R (f a)) -> keeps R (m ≫= f).
Proof.
  intros Hm Hf s. unfold mbind, M_bind.
  specialize (Hm s). destruct (m s) as [[a|e] s']; simpl in *.
  - etransitivity; [exact Hm | apply Hf].
  - exact Hm.
Qed.

Lemma keeps_try {A} (body : M A) (handler : exn -> M A) :
  keeps R body -> (forall e, keeps R (handler e)) ->
  keeps R (try_except body handler).
Proof.
  intros Hm Hh s. unfold try_except.
  specialize (Hm s). destruct (body s) as [[a|e] s']; simpl in *.
  - exact Hm.
  - etransitivity; [exact Hm | apply Hh].
Qed.
End Keeps.

(** The steps of the agent on its state. *)
Lemma pending_set_pending user_id action :
  keeps (pending_rel user_id) (set_pending user_id action).
Proof. intros s. right. left. exists action. reflexivity. Qed.

Lemma pending_del_pending user_id :
  keeps (pending_rel user_id) (del_pending user_id).
Proof.
  intros s. unfold del_pending.
  destruct (pending_actions s !! user_id); [right; right|left]; reflexivity.
Qed.

Lemma pending_set_db user_id db' : keeps (pending_rel user_id) (set_db db').
Proof. intros s. left. reflexivity. Qed.

Lemma pending_llm_invoke env user_id : keeps (pending_rel user_id) (llm_invoke env).
Proof. intros s. unfold llm_invoke. destruct (llm env _); left; reflexivity. Qed.

Lemma pending_append_turn user_id u turn :
  keeps (pending_rel user_id) (append_turn u turn).
Proof. intros s. left. reflexivity. Qed.

Lemma history_set_pending user_id action : keeps history_rel (set_pending user_id action).
Proof. intros s. reflexivity. Qed.

Lemma history_del_pending user_id : keeps history_rel (del_pending user_id).
Proof. intros s. unfold del_pending. destruct (pending_actions s !! user_id); reflexivity. Qed.

Lemma history_set_db db' : keeps history_rel (set_db db').
Proof. intros s. reflexivity. Qed.

Lemma history_llm_invoke env : keeps history_rel (llm_invoke env).
Proof. intros s. unfold llm_invoke. destruct (llm env _); reflexivity. Qed.

Create HintDb keeps.
#[global] Hint Resolve pending_set_pending pending_del_pending pending_set_db
  pending_llm_invoke pending_append_turn history_set_pending
  history_del_pending history_set_db history_llm_invoke : keeps.

(** Goes through a computation built from the steps above. *)
Ltac keeps_step :=
  first
    [ apply keeps_ret; typeclasses eauto
    | apply keeps_raise; typeclasses eauto
    | apply keeps_lift; typeclasses eauto
    | apply keeps_read; typeclasses eauto
    | solve [auto with keeps]
    | apply keeps_bind; [typeclasses eauto | | intros ?]
    | apply keeps_try; [typeclasses eauto | | intros ?]
    | match goal with
      | |- keeps _ (match ?x with _ => _ end) => destruct x
      | |- keeps _ (if ?b then _ else _) => destruct b
      | |- keeps _ (let '(_, _) := ?x in _) => destruct x
      end ].
Ltac keeps_auto := repeat keeps_step.

Section Handlers.
Context (R : relation Agent) `{!PreOrder R}.
Context (env : Env) (user_id : nat).
Hypothesis R_set_pending : forall action, keeps R (set_pending user_id action).
Hypothesis R_del_pending : keeps R (del_pending user_id).
Hypothesis R_set_db : forall db', keeps R (set_db db').
Hypothesis R_llm_invoke : keeps R (llm_invoke env).

Local Hint Resolve R_set_pending R_del_pending R_set_db R_llm_invoke : keeps.

Lemma keeps_create_meeting_from_data args :
  keeps R (_create_meeting_from_data env args user_id).
Proof. unfold _create_meeting_from_data. keeps_auto. Qed.

Lemma keeps_update_meeting_from_data meeting_id updates :
  keeps R (_update_meeting_from_data meeting_id updates).
Proof. unfold _update_meeting_from_data. keeps_auto. Qed.

Local Hint Resolve keeps_create_meeting_from_data
  keeps_update_meeting_from_data : keeps.

Lemma keeps_create_meeting_with_info info :
  keeps R (_create_meeting_with_info env user_id info).
Proof. unfold _create_meeting_with_info. keeps_auto. Qed.

Lemma keeps_create_validate info :
  keeps R (create_validate env user_id info).
Proof. unfold create_validate. keeps_auto. Qed.

Local Hint Resolve keeps_create_meeting_with_info keeps_create_validate : keeps.

Lemma keeps_handle_intent message intent :
  keeps R (_handle_intent env user_id message intent).
Proof.
  destruct intent; simpl.
  - unfold _handle_view_meetings_conversational. keeps_auto.
  - unfold _handle_create_meeting_conversational. keeps_auto.
  - unfold _handle_update_meeting_conversational. keeps_auto.
  - unfold _handle_delete_meeting_conversational. keeps_auto.
  - unfold _handle_delete_all_meetings_conversational. keeps_auto.
  - unfold _handle_general_conversation. keeps_auto.
Qed.

Lemma keeps_delete_each meetings : keeps R (delete_each meetings).
Proof.
  induction meetings as [|m meetings IH]; simpl; [keeps_step|].
  apply keeps_bind; [typeclasses eauto | | intros _; exact IH].
  unfold delete_from_db. keeps_auto.
Qed.

Local Hint Resolve keeps_delete_each : keeps.

Lemma keeps_clarification message pending :
  keeps R (_handle_create_meeting_clarification env user_id message pending).
Proof. unfold _handle_create_meeting_clarification. keeps_auto. Qed.

Local Hint Resolve keeps_clarification : keeps.

Lemma keeps_pending_action_body message pending :
  keeps R (pending_action_body env user_id message pending).
Proof.
  destruct pending; unfold pending_action_body.
  - apply keeps_clarification.
  - keeps_auto.
  - unfold _handle_update_meeting_selection. keeps_auto.
  - unfold _handle_update_meeting_details. keeps_auto.
  - unfold _handle_delete_meeting_selection. keeps_auto.
  - unfold delete_from_db. keeps_auto.
  - unfold _handle_confirm_delete_all. keeps_auto.
Qed.

Lemma keeps_handle_pending_action message :
  keeps R (_handle_pending_action env user_id message).
Proof.
  unfold _handle_pending_action.
  pose proof keeps_pending_action_body. keeps_auto.
Qed.

Lemma keeps_enhance user_message response :
  keeps R (_enhance_response_with_llm env user_id user_message response).
Proof. unfold _enhance_response_with_llm. keeps_auto. Qed.
End Handlers.

Lemma pending_process_message env user_id message :
  keeps (pending_rel user_id) (process_message env user_id message).
Proof.
  unfold process_message, process_message_body.
  pose proof (keeps_handle_pending_action (pending_rel user_id) env user_id).
  pose proof (keeps_handle_intent (pending_rel user_id) env user_id).
  pose proof (keeps_enhance (pending_rel user_id) env).
  keeps_auto.
Qed.

Lemma filter_key_length {V} (l : list (nat * V)) (k : nat) :
  NoDup (map fst l) ->
  (length (List.filter (fun kv => Nat.eqb (fst kv) k) l) <= 1)%nat
  /\ (forall v, In (k, v) l ->
        length (List.filter (fun kv => Nat.eqb (fst kv) k) l) = 1%nat).
Proof.
  induction l as [|[k' v'] l IH]; intros Hnd; simpl.
  - split; [lia | intros v []].
  - simpl in Hnd. apply NoDup_cons in Hnd. destruct Hnd as [Hk Hnd].
    destruct (IH Hnd) as [Hle Hone].
    destruct (Nat.eqb_spec k' k) as [->|Hne]; simpl.
    + assert (Hnil : List.filter (fun kv => Nat.eqb (fst kv) k) l = []).
      { destruct (List.filter _ l) as [|[k2 v2] rest] eqn:Hf; [reflexivity|].
        exfalso. apply Hk.
        assert (Hin : In (k2, v2) (List.filter (fun kv => Nat.eqb (fst kv) k) l))
          by (rewrite Hf; left; reflexivity).
        apply filter_In in Hin. destruct Hin as [Hin Heq]. simpl in Heq.
        apply Nat.eqb_eq in Heq. subst k2.
        apply list_elem_of_In. apply (in_map fst) in Hin. exact Hin. }
      rewrite Hnil. simpl. split; [lia | reflexivity].
    + split; [exact Hle|]. intros v [Heq|Hin]; [congruence | eauto].
Qed.

Lemma entries_of_le_1 user_id (table : gmap nat PendingAction) :
  (entries_of user_id table <= 1)%nat.
Proof.
  unfold entries_of. apply filter_key_length.
  apply NoDup_fst_map_to_list.
Qed.

Lemma entries_of_present user_id (table : gmap nat PendingAction) action :
  table !! user_id = Some action -> entries_of user_id table = 1%nat.
Proof.
  intros Hl. unfold entries_of.
  eapply (proj2 (filter_key_length _ user_id (NoDup_fst_map_to_list table))).
  apply list_elem_of_In, elem_of_map_to_list. exact Hl.
Qed.

(** C1. For every user and every message, processing the message leaves
    the pending-action table as it was, or writes the one entry of that
    user, or removes it; no other user's entry changes.  The table never
    holds more than one entry for a user, and setting a pending action
    replaces any prior one: afterwards the user has exactly one entry, the
    new one, and the entries of the other users are as before. *)
Theorem at_most_one_pending_action :
  forall (env : Env) (user_id : nat) (message : string) (s : Agent),
    let s' := snd (process_message env user_id message s) in
    pending_step user_id (pending_actions s) (pending_actions s')
    /\ (forall u, (entries_of u (pending_actions s') <= 1)%nat)
    /\ (forall action,
          let s'' := snd (set_pending user_id action s') in
          pending_actions s'' !! user_id = Some action
          /\ entries_of user_id (pending_actions s'') = 1%nat
          /\ (forall u, u <> user_id ->
                        pending_actions s'' !! u = pending_actions s' !! u)).
Proof.
  intros env user_id message s s'. split; [|split].
  - apply (pending_process_message env user_id message s).
  - intros u. apply entries_of_le_1.
  - intros action s''. subst s''. simpl.
    split; [apply lookup_insert_eq|].
    split; [eapply entries_of_present, lookup_insert_eq|].
    intros u Hu. apply lookup_insert_ne. congruence.
Qed.

Lemma try_except_returns {A} (body : M A) (a : A) (s : Agent) :
  exists r, fst (try_except body (fun _ => mret a) s) = Ok r.
Proof.
  unfold try_except. destruct (body s) as [[r|e] s']; simpl; eauto.
Qed.

(** No exception leaves a handler of an intent. *)
Lemma handle_intent_returns env user_id message intent s :
  exists r, fst (_handle_intent env user_id message intent s) = Ok r.
Proof.
  destruct intent; simpl; try apply try_except_returns.
  unfold _handle_general_conversation.
  repeat match goal with
         | |- context [if ?b then _ else _] => destruct b
         end; try (eexists; reflexivity).
  apply try_except_returns.
Qed.

Lemma history_pending_action_body env user_id message pending :
  keeps history_rel (pending_action_body env user_id message pending).
Proof.
  apply keeps_pending_action_body; auto with keeps; typeclasses eauto.
Qed.

Lemma bind_ok {A B} (m : M A) (f : A -> M B) s a s' :
  m s = (Ok a, s') -> (m ≫= f) s = f a s'.
Proof. intros H. unfold mbind, M_bind. rewrite H. reflexivity. Qed.

Lemma bind_raise {A B} (m : M A) (f : A -> M B) s e s' :
  m s = (Raise e, s') -> (m ≫= f) s = (Raise e, s').
Proof. intros H. unfold mbind, M_bind. rewrite H. reflexivity. Qed.

(** The dispatcher when the body of its [try] raises. *)
Lemma handle_pending_action_raise env user_id message s1 pending e s2 :
  pending_actions s1 !! user_id = Some pending ->
  pending_action_body env user_id message pending s1 = (Raise e, s2) ->
  _handle_pending_action env user_id message s1
  = match pending_actions s2 !! user_id with
    | Some _ =>
        (Ok start_over_error,
         mkAgent (conversation_history s2)
                 (delete user_id (pending_actions s2)) (db s2) (llm_calls s2))
    | None => (Raise (KeyError (Str.of_nat user_id)), s2)
    end.
Proof.
  intros Hp Hbody. unfold _handle_pending_action.
  erewrite bind_ok; [|unfold read; rewrite Hp; reflexivity].
  unfold try_except. rewrite Hbody.
  unfold del_pending, mbind, M_bind.
  destruct (pending_actions s2 !! user_id); reflexivity.
Qed.

(** C3. When an exception leaves the handler that [process_message]
    dispatches to, then after [process_message] has returned the user has
    no pending action, the result is one of the two generic error replies,
    both with success false, and the history of the user holds its former
    turns followed by the user's turn. *)
Theorem exception_in_handler_clears_pending :
  forall (env : Env) (user_id : nat) (message : string) (s : Agent),
    handler_raises env user_id message s ->
    let run := process_message env user_id message s in
    pending_actions (snd run) !! user_id = None
    /\ (fst run = Ok start_over_error \/ fst run = Ok generic_error)
    /\ exists later,
         conversation_history (snd run) !! user_id
         = Some (default [] (conversation_history s !! user_id)
                 ++ mkTurn User message (now env) :: later).
Proof.
  intros env user_id message s Hraise run. unfold handler_raises in Hraise.
  destruct (pending_actions s !! user_id) as [pending|] eqn:Hpending.
  - destruct Hraise as [e He].
    set (s1 := snd (append_turn user_id (mkTurn User message (now env)) s)) in *.
    assert (Hp1 : pending_actions s1 !! user_id = Some pending) by exact Hpending.
    assert (Hh1 : conversation_history s1 !! user_id
                  = Some (default [] (conversation_history s !! user_id)
                          ++ [mkTurn User message (now env)]))
      by (subst s1; simpl; apply lookup_insert_eq).
    pose proof (history_pending_action_body env user_id message pending s1) as Hhist.
    unfold history_rel in Hhist.
    destruct (pending_action_body env user_id message pending s1) as [o s2] eqn:Hbody.
    cbn [fst snd] in He, Hhist. subst o.
    pose proof (handle_pending_action_raise env user_id message s1 pending e s2
                  Hp1 Hbody) as Hdisp.
    subst run. unfold process_message, try_except, process_message_body.
    rewrite (bind_ok (append_turn user_id (mkTurn User message (now env))) _
               s tt s1 eq_refl).
    assert (Hb : bool_decide (is_Some (pending_actions s1 !! user_id)) = true)
      by (apply bool_decide_eq_true_2; eauto).
    rewrite (bind_ok (read _) _ s1 true s1)
      by (unfold read; rewrite Hb; reflexivity).
    clearbody s1.
    destruct (pending_actions s2 !! user_id) as [p2|] eqn:Hp2.
    + erewrite bind_ok; [|exact Hdisp].
      erewrite bind_ok; [|reflexivity].
      erewrite bind_ok; [|reflexivity].
      simpl. split; [apply lookup_delete_eq|]. split; [left; reflexivity|].
      exists [mkTurn Assistant (response_message start_over_error) (now env)].
      rewrite lookup_insert_eq, Hhist, Hh1. simpl.
      rewrite <- app_assoc. reflexivity.
    + erewrite bind_raise; [|exact Hdisp].
      simpl. split; [exact Hp2|]. split; [right; reflexivity|].
      exists []. rewrite Hhist. exact Hh1.
  - exfalso. destruct Hraise as [e He].
    destruct (handle_intent_returns env user_id message (_analyze_intent message)
                (snd (append_turn user_id (mkTurn User message (now env)) s)))
      as [r Hr].
    congruence.
Qed.

(** C3 on a user who is asked to confirm a proposal and answers something
    else: the clarification handler looks for the key partial_info, which
    the stored dict does not have. *)
Lemma exception_in_handler_clears_pending_witness :
  let env := silent_env (LLMFail "service unavailable") in
  let s := mkAgent ∅ {[ 1%nat := PConfirmCreate Info_empty ]} [] 0 in
  let run := process_message env 1 "maybe later" s in
  pending_actions (snd run) !! 1%nat = None
  /\ (fst run = Ok start_over_error \/ fst run = Ok generic_error)
  /\ exists later,
       conversation_history (snd run) !! 1%nat
       = Some (default [] (conversation_history s !! 1%nat)
               ++ mkTurn User "maybe later" (now env) :: later).
Proof.
  intros env s.
  apply (exception_in_handler_clears_pending env 1 "maybe later" s).
  vm_compute. eexists. reflexivity.
Defined.

(* ===================================================================== *)
(** * Scenario B *)
(* ===================================================================== *)



Lemma append_dash_nonempty (a b : string) :
  String.eqb (a +:+ "-" +:+ b) "" = false.
Proof. destruct a; reflexivity. Qed.

Lemma isoformat_nonempty t : String.eqb (Fmt.isoformat t) "" = false.
Proof.
  unfold Fmt.isoformat. destruct (Fmt.ymd (dt_date t)) as [[y m] dd].
  apply append_dash_nonempty.
Qed.






(** The rephrasing step returns, keeps the success flag, and changes the
    count of completion calls only. *)
Lemma enhance_run env user_id user_message response s :
  exists original result,
    _enhance_response_with_llm env user_id user_message response s
    = (Ok (original, result), called s)
    /\ success (default original result) = success response.
Proof.
  unfold _enhance_response_with_llm, try_except, llm_invoke, mbind, M_bind.
  destruct (llm env (llm_calls s)) as [content|msg]; cbn beta iota.
  - destruct ((10 <? Str.len (Str.strip content))
              && (Str.len (Str.strip content) <? 500));
      do 2 eexists; split; reflexivity.
  - destruct (is_rate_limit (LLMFailure msg));
      [destruct (Str.any_in ["api"; "limit"; "quota"; "temporarily"]
                            (Str.lower (message response)))|];
      do 2 eexists; split; reflexivity.
Qed.




(* ===================================================================== *)
(** * The meeting table: reading, updating, deleting *)
(* ===================================================================== *)

Lemma insert_desc_start_sorted (x : Meeting) l :
  StronglySorted not_earlier l ->
  StronglySorted not_earlier
    (insert_desc (fun x y => start_time y <? start_time x) x l).
Proof.
  induction 1 as [|y l Hs IH Hall]; simpl.
  - repeat constructor.
  - destruct (Z.ltb_spec (start_time x) (start_time y)) as [Hlt|Hge].
    + constructor; [exact IH|].
      eapply Permutation_Forall; [symmetry; apply insert_desc_Permutation|].
      constructor; [unfold not_earlier; lia | exact Hall].
    + constructor; [constructor; assumption|].
      constructor; [exact Hge|].
      eapply Forall_impl; [exact Hall|].
      unfold not_earlier. intros z Hz. simpl in Hz. lia.
Qed.

Lemma sort_desc_start_sorted (l : list Meeting) :
  StronglySorted not_earlier
    (sort_desc (fun x y => start_time y <? start_time x) l).
Proof.
  induction l as [|x l IH]; simpl; [constructor|].
  apply insert_desc_start_sorted, IH.
Qed.

(** X1. The meetings listed for a user are exactly the rows of the table
    of which the user is organizer or participant and which pass the status
    filter (an empty filter, or none, lets every status pass); they are
    listed by start time, the latest first. *)
Theorem get_user_meetings_sorted_exact :
  forall (db : DB) (user_id : nat) (status_filter : option string),
    let l := get_user_meetings db user_id status_filter in
    (forall m, In m l <->
               In m db /\ involves user_id m = true
               /\ status_matches status_filter m)
    /\ StronglySorted not_earlier l.
Proof.
  intros db user_id status_filter l. subst l.
  unfold get_user_meetings.
  set (all := match status_filter with
              | Some s => if String.eqb s "" then db
                          else List.filter (fun m => String.eqb (status m) s) db
              | None => db
              end).
  assert (Hall : forall m, In m all <-> In m db /\ status_matches status_filter m).
  { intros m. subst all. destruct status_filter as [s|]; simpl.
    - destruct (String.eqb_spec s "") as [->|Hne].
      + intuition.
      + rewrite filter_In, String.eqb_eq. intuition.
    - intuition. }
  assert (Hperm := sort_desc_Permutation (fun x y => start_time y <? start_time x)
                     (List.filter (involves user_id) all)).
  split.
  - intros m. transitivity (In m (List.filter (involves user_id) all)).
    + split; apply Permutation_in; [|symmetry]; exact Hperm.
    + rewrite filter_In, Hall. tauto.
  - apply sort_desc_start_sorted.
Qed.

Lemma get_meeting_Some (db : DB) i m :
  get_meeting db i = Some m -> In m db /\ id m = i.
Proof.
  unfold get_meeting. intros H. apply find_some in H.
  destruct H as [Hin Heq]. apply Nat.eqb_eq in Heq. auto.
Qed.

Lemma get_meeting_None (db : DB) i :
  get_meeting db i = None <-> ~ In i (map id db).
Proof.
  unfold get_meeting. split.
  - intros H Hin. apply in_map_iff in Hin. destruct Hin as (m & Hid & Hin).
    eapply find_none in H; [|exact Hin]. simpl in H.
    apply Nat.eqb_neq in H. congruence.
  - intros H. destruct (List.find _ db) as [m|] eqn:Hf; [|reflexivity].
    apply find_some in Hf. destruct Hf as [Hin Heq]. apply Nat.eqb_eq in Heq.
    exfalso. apply H. apply in_map_iff. eauto.
Qed.

Lemma get_meeting_map_replace (db : DB) i m' j :
  id m' = i ->
  get_meeting (map (fun m => if Nat.eqb (id m) i then m' else m) db) j
  = if Nat.eqb i j
    then match get_meeting db i with Some _ => Some m' | None => None end
    else get_meeting db j.
Proof.
  intros Hid. unfold get_meeting.
  induction db as [|x db IH]; simpl.
  - destruct (Nat.eqb i j); reflexivity.
  - destruct (Nat.eqb_spec (id x) i) as [Hx|Hx].
    + rewrite Hid. destruct (Nat.eqb_spec i j) as [Hij|Hij]; [reflexivity|].
      destruct (Nat.eqb_spec (id x) j); [congruence|exact IH].
    + destruct (Nat.eqb_spec i j) as [Hij|Hij].
      * subst j. destruct (Nat.eqb_spec (id x) i); [contradiction|]. exact IH.
      * destruct (Nat.eqb_spec (id x) j); [reflexivity|]. exact IH.
Qed.

(** X2. Updating a meeting that the table does not hold changes nothing
    and returns nothing.  Updating one that it holds returns the row with
    the given fields replaced; reading that id back gives the returned row,
    reading any other id gives what it gave before, and the ids of the
    table, the organizer and the type of the row are unchanged. *)
Theorem update_meeting_read_back :
  forall (db : DB) (meeting_id : nat) (meeting_data : MeetingUpdate),
    match get_meeting db meeting_id with
    | None =>
        ScheduleService.update_meeting db meeting_id meeting_data = (db, None)
    | Some m =>
        let m' := apply_update meeting_data m in
        let db' := fst (ScheduleService.update_meeting db meeting_id meeting_data) in
        snd (ScheduleService.update_meeting db meeting_id meeting_data) = Some m'
        /\ get_meeting db' meeting_id = Some m'
        /\ (forall j, j <> meeting_id -> get_meeting db' j = get_meeting db j)
        /\ map id db' = map id db
        /\ organizer_id m' = organizer_id m
        /\ meeting_type m' = meeting_type m
    end.
Proof.
  intros db meeting_id meeting_data. unfold ScheduleService.update_meeting.
  destruct (get_meeting db meeting_id) as [m|] eqn:Hget; [|reflexivity].
  apply get_meeting_Some in Hget as Hm. destruct Hm as [Hin Hid].
  cbn [fst snd]. split; [reflexivity|].
  assert (Hid' : id (apply_update meeting_data m) = meeting_id) by exact Hid.
  split; [|split; [|split; [|split; reflexivity]]].
  - rewrite (get_meeting_map_replace db meeting_id _ meeting_id Hid').
    rewrite Nat.eqb_refl, Hget. reflexivity.
  - intros j Hj. rewrite (get_meeting_map_replace db meeting_id _ j Hid').
    destruct (Nat.eqb_spec meeting_id j); [congruence|reflexivity].
  - rewrite map_map. apply map_ext. intros x.
    destruct (Nat.eqb_spec (id x) meeting_id); [simpl; congruence|reflexivity].
Qed.

Lemma get_meeting_filter_ne (db : DB) i j :
  get_meeting (List.filter (fun m => negb (Nat.eqb (id m) i)) db) j
  = if Nat.eqb i j then None else get_meeting db j.
Proof.
  unfold get_meeting. induction db as [|x db IH]; simpl.
  - destruct (Nat.eqb i j); reflexivity.
  - destruct (Nat.eqb_spec (id x) i) as [Hx|Hx]; simpl.
    + rewrite IH. destruct (Nat.eqb_spec i j) as [Hij|Hij]; [reflexivity|].
      destruct (Nat.eqb_spec (id x) j); [congruence|reflexivity].
    + destruct (Nat.eqb_spec (id x) j) as [Hxj|Hxj].
      * destruct (Nat.eqb_spec i j); [congruence|reflexivity].
      * exact IH.
Qed.

(** X3. Deleting a meeting returns nothing and leaves the table as it is
    exactly when the table does not hold the id, or a user is named who is
    not the organizer of the meeting.  Otherwise the row read under that id
    is returned, the id reads as absent afterwards, every other id reads
    as before, and deleting it once more returns nothing and changes
    nothing. *)
Theorem delete_meeting_permission_and_effect :
  forall (db : DB) (meeting_id : nat) (user_id : option nat),
    let run := ScheduleService.delete_meeting db meeting_id user_id in
    match get_meeting db meeting_id with
    | None => run = (db, None)
    | Some m =>
        if bool_decide (user_id = None \/ user_id = Some (organizer_id m))
        then snd run = Some m
             /\ get_meeting (fst run) meeting_id = None
             /\ (forall j, j <> meeting_id ->
                           get_meeting (fst run) j = get_meeting db j)
             /\ ScheduleService.delete_meeting (fst run) meeting_id user_id
                = (fst run, None)
        else run = (db, None)
    end.
Proof.
  intros db meeting_id user_id run. subst run.
  unfold ScheduleService.delete_meeting.
  destruct (get_meeting db meeting_id) as [m|] eqn:Hget; [|reflexivity].
  assert (Hgone : forall j,
             get_meeting (List.filter (fun m0 => negb (Nat.eqb (id m0) meeting_id)) db) j
             = if Nat.eqb meeting_id j then None else get_meeting db j)
    by (intros j; apply get_meeting_filter_ne).
  destruct user_id as [u|].
  - destruct (Nat.eqb_spec (organizer_id m) u) as [Hu|Hu]; simpl.
    + rewrite bool_decide_eq_true_2 by (right; congruence).
      split; [reflexivity|]. rewrite !Hgone, Nat.eqb_refl.
      split; [reflexivity|]. split; [|reflexivity].
      intros j Hj. rewrite Hgone.
      destruct (Nat.eqb_spec meeting_id j); [congruence|reflexivity].
    + rewrite bool_decide_eq_false_2; [reflexivity|].
      intros [H|H]; congruence.
  - rewrite bool_decide_eq_true_2 by (left; reflexivity). cbn [fst snd].
    split; [reflexivity|]. rewrite !Hgone, Nat.eqb_refl.
    split; [reflexivity|]. split; [|reflexivity].
    intros j Hj. rewrite Hgone.
    destruct (Nat.eqb_spec meeting_id j); [congruence|reflexivity].
Qed.

(* ===================================================================== *)
(** * The slot search and the conflict detector, further *)
(* ===================================================================== *)

Lemma dt_minute_replace d h : dt_minute (dt_replace_hour d h) = 0.
Proof.
  unfold dt_minute, dt_replace_hour, US_PER_DAY, US_PER_HOUR, US_PER_MINUTE.
  replace (dt_date d * 86400000000 + h * 3600000000)
    with (((dt_date d * 24 + h) * 60) * 60000000) by lia.
  rewrite Z.div_mul by lia. apply Z.mod_mul. lia.
Qed.

Lemma days_in_range_end s e :
  s <= e -> dt_date s + Z.of_nat (days_in_range s e) <= dt_date e + 1.
Proof.
  intros Hle. unfold days_in_range, dt_date, US_PER_DAY.
  destruct (Z.leb_spec s e); [|lia].
  rewrite Nat2Z.inj_succ, Z2Nat.id by (apply Z.div_pos; lia).
  pose proof (Z.div_mod s 86400000000 ltac:(lia)).
  pose proof (Z.div_mod e 86400000000 ltac:(lia)).
  pose proof (Z.div_mod (e - s) 86400000000 ltac:(lia)).
  pose proof (Z.mod_pos_bound s 86400000000 ltac:(lia)).
  pose proof (Z.mod_pos_bound e 86400000000 ltac:(lia)).
  pose proof (Z.mod_pos_bound (e - s) 86400000000 ltac:(lia)).
  lia.
Qed.

Lemma feasible_Forall db ps slot :
  feasible db ps slot = true <->
  Forall (fun p => check_meeting_conflicts db p (s_start_time slot)
                     (s_end_time slot) = []) ps.
Proof.
  unfold feasible. rewrite forallb_forall, List.Forall_forall.
  split; intros H p Hp; specialize (H p Hp).
  - destruct (check_meeting_conflicts _ _ _ _); [reflexivity|discriminate].
  - rewrite H. reflexivity.
Qed.

(** X4. The slot search returns at most ten slots.  In the interval of
    each of them no participant has a conflicting meeting; the slot starts
    on the hour, from 9 to 16 o'clock, on a day from the day of the start
    of the range to the day of its end, ends the duration later, and
    records its day and the number of participants. *)
Theorem get_meeting_suggestions_conflict_free :
  forall (db : DB) (participant_ids : list participant) (duration : Z)
         (start_date end_date : datetime),
    let suggestions :=
      get_meeting_suggestions db participant_ids duration start_date end_date in
    (length suggestions <= 10)%nat
    /\ Forall (fun slot =>
                 Forall (fun p =>
                           check_meeting_conflicts db p (s_start_time slot)
                             (s_end_time slot) = []) participant_ids
                 /\ s_end_time slot
                    = s_start_time slot + timedelta_minutes duration
                 /\ 9 <= dt_hour (s_start_time slot) <= 16
                 /\ dt_minute (s_start_time slot) = 0
                 /\ dt_date start_date <= dt_date (s_start_time slot)
                    <= dt_date end_date
                 /\ s_date slot = dt_date (s_start_time slot)
                 /\ s_participant_count slot = length participant_ids)
              suggestions.
Proof.
  intros db ps dur s e suggestions. subst suggestions. split.
  - rewrite get_meeting_suggestions_spec. rewrite length_take. lia.
  - apply List.Forall_forall. intros slot Hin.
    apply suggestion_is_candidate in Hin. destruct Hin as [Hc Hf].
    split; [apply feasible_Forall; exact Hf|].
    pose proof (candidate_slots_window ps dur s e slot Hc)
      as (Hh & Hd & He & Hn).
    unfold candidate_slots in Hc. apply in_flat_map in Hc.
    destruct Hc as (d & Hd' & Hslot). apply in_map_iff in Hslot.
    destruct Hslot as (h & <- & Hh').
    apply business_hours_range in Hh'.
    assert (Hle : s <= e).
    { unfold days_in_range in Hd'. destruct (Z.leb_spec s e); [assumption|].
      simpl in Hd'. contradiction. }
    pose proof (days_in_range_end s e Hle).
    cbn [s_start_time s_end_time s_date s_participant_count slot_of] in *.
    rewrite dt_minute_replace, dt_date_replace by lia.
    rewrite dt_date_replace in Hd by lia.
    repeat split; try lia.
Qed.

(** X5. A range whose end is before its start has no slot: the search
    returns the empty list and the optimal-time query returns nothing. *)
Theorem get_meeting_suggestions_inverted_range :
  forall (db : DB) (participant_ids : list participant) (duration : Z)
         (start_date end_date : datetime),
    end_date < start_date ->
    get_meeting_suggestions db participant_ids duration start_date end_date = []
    /\ find_optimal_meeting_time db participant_ids duration start_date end_date
       = None.
Proof.
  intros db ps dur s e Hlt.
  assert (H : get_meeting_suggestions db ps dur s e = []).
  { rewrite get_meeting_suggestions_spec. unfold candidate_slots, days_in_range.
    destruct (Z.leb_spec s e); [lia|]. reflexivity. }
  split; [exact H|]. unfold find_optimal_meeting_time. rewrite H. reflexivity.
Qed.

Lemma get_meeting_suggestions_inverted_range_witness :
  let monday := 739046 * US_PER_DAY in
  get_meeting_suggestions [] [PId 1] 60 (monday + timedelta_days 1) monday = []
  /\ find_optimal_meeting_time [] [PId 1] 60 (monday + timedelta_days 1) monday
     = None.
Proof.
  intros monday.
  apply (get_meeting_suggestions_inverted_range [] [PId 1] 60
           (monday + timedelta_days 1) monday).
  vm_compute. reflexivity.
Defined.




(** X7. When no participant of the new meeting has a conflict in its
    interval, the auto-reschedule operation changes no row and reports
    nothing. *)
Theorem auto_reschedule_without_conflicts :
  forall (db : DB) (new_meeting_data : NewMeeting),
    Forall (fun p =>
              check_meeting_conflicts db p (n_start_time new_meeting_data)
                (n_end_time new_meeting_data) = [])
           (n_participants new_meeting_data) ->
    auto_reschedule_conflicting_meetings db new_meeting_data = (db, []).
Proof.
  intros db [s e ps]. unfold auto_reschedule_conflicting_meetings. simpl.
  induction 1 as [|p ps Hp Hps IH]; [reflexivity|].
  simpl. unfold reschedule_participant at 2. simpl. rewrite Hp. exact IH.
Qed.

Lemma auto_reschedule_without_conflicts_witness :
  let ten := 739046 * US_PER_DAY + 10 * US_PER_HOUR in
  let db := [mkMeeting 1 (Some "Standup") None 60 ten
               (ten + timedelta_minutes 60) 1 [PId 2] "confirmed" "general"] in
  auto_reschedule_conflicting_meetings db
    (mkNewMeeting (ten + timedelta_minutes 60) (ten + timedelta_minutes 120)
       [PId 1; PId 2])
  = (db, []).
Proof.
  intros ten db.
  apply (auto_reschedule_without_conflicts db).
  repeat constructor.
Defined.

(* ===================================================================== *)
(** * From the handlers to process_message *)
(* ===================================================================== *)

(** [process_message] when the handler it dispatches to returns: the
    reply is rephrased or kept, and the turn of the assistant is
    recorded. *)
Lemma process_message_returns env user_id message s response s2 :
  dispatch env user_id message
    (with_turn user_id (mkTurn User message (now env)) s) = (Ok response, s2) ->
  exists response',
    process_message env user_id message s
    = (Ok response',
       with_turn user_id (mkTurn Assistant (response_message response') (now env))
         (if rephrased response then called s2 else s2))
    /\ success response' = success response
    /\ (rephrased response = false -> response' = response).
Proof.
  intros Hd. unfold process_message, try_except, process_message_body.
  set (s1 := with_turn user_id (mkTurn User message (now env)) s) in *.
  rewrite (bind_ok (append_turn user_id (mkTurn User message (now env))) _
             s tt s1 eq_refl).
  rewrite (bind_ok (read _) _ s1
             (bool_decide (is_Some (pending_actions s1 !! user_id))) s1 eq_refl).
  assert (Hd' : (if bool_decide (is_Some (pending_actions s1 !! user_id))
                 then _handle_pending_action env user_id message
                 else _handle_intent env user_id message (_analyze_intent message))
                  s1 = (Ok response, s2)).
  { unfold dispatch in Hd. destruct (bool_decide _); exact Hd. }
  clearbody s1.
  rewrite (bind_ok _ _ s1 response s2 Hd').
  unfold rephrased. destruct (success response && negb (needs_llm_enhancement response)).
  - destruct (enhance_run env user_id message response s2)
      as (original & result & Hrun & Hsucc).
    rewrite (bind_ok (_enhance_response_with_llm _ _ _ _ ≫= _) _ s2
               (default original result) (called s2))
      by (rewrite (bind_ok _ _ _ _ _ Hrun); reflexivity).
    exists (default original result).
    split; [reflexivity|]. split; [exact Hsucc | discriminate].
  - exists response. split; [reflexivity|]. split; reflexivity.
Qed.

(** [process_message] when the handler it dispatches to raises. *)
Lemma process_message_raises env user_id message s e s2 :
  dispatch env user_id message
    (with_turn user_id (mkTurn User message (now env)) s) = (Raise e, s2) ->
  process_message env user_id message s = (Ok generic_error, s2).
Proof.
  intros Hd. unfold process_message, try_except, process_message_body.
  set (s1 := with_turn user_id (mkTurn User message (now env)) s) in *.
  rewrite (bind_ok (append_turn user_id (mkTurn User message (now env))) _
             s tt s1 eq_refl).
  rewrite (bind_ok (read _) _ s1
             (bool_decide (is_Some (pending_actions s1 !! user_id))) s1 eq_refl).
  assert (Hd' : (if bool_decide (is_Some (pending_actions s1 !! user_id))
                 then _handle_pending_action env user_id message
                 else _handle_intent env user_id message (_analyze_intent message))
                  s1 = (Raise e, s2)).
  { unfold dispatch in Hd. destruct (bool_decide _); exact Hd. }
  clearbody s1.
  rewrite (bind_raise _ _ s1 e s2 Hd'). reflexivity.
Qed.

Lemma dispatch_pending env user_id message s pending :
  pending_actions s !! user_id = Some pending ->
  dispatch env user_id message s
  = try_except (pending_action_body env user_id message pending)
      (fun _ => del_pending user_id;; mret start_over_error) s.
Proof.
  intros Hp. unfold dispatch.
  rewrite bool_decide_eq_true_2 by (rewrite Hp; eauto).
  unfold _handle_pending_action.
  rewrite (bind_ok (read _) _ s (Some pending) s)
    by (unfold read; rewrite Hp; reflexivity).
  reflexivity.
Qed.

Lemma dispatch_intent env user_id message s :
  pending_actions s !! user_id = None ->
  dispatch env user_id message s
  = _handle_intent env user_id message (_analyze_intent message) s.
Proof.
  intros Hp. unfold dispatch.
  rewrite bool_decide_eq_false_2; [reflexivity|].
  rewrite Hp. intros [x Hx]. discriminate.
Qed.

Lemma history_dispatch env user_id message :
  keeps history_rel (dispatch env user_id message).
Proof.
  intros s. unfold dispatch. destruct (bool_decide _).
  - apply (keeps_handle_pending_action history_rel env user_id);
      auto with keeps.
  - apply (keeps_handle_intent history_rel env user_id); auto with keeps.
Qed.

(** X8. Processing a message never raises.  The history of the user is
    extended by the message and then by the reply that is returned; only
    when an exception reaches the outermost handler, the reply is the
    generic error and the message alone is recorded.  The histories of the
    other users are unchanged. *)
Theorem process_message_total_and_recorded :
  forall (env : Env) (user_id : nat) (message : string) (s : Agent),
    let run := process_message env user_id message s in
    let before := default [] (conversation_history s !! user_id) in
    exists response,
      fst run = Ok response
      /\ (conversation_history (snd run) !! user_id
          = Some (before ++ [mkTurn User message (now env);
                             mkTurn Assistant (response_message response)
                                    (now env)])
          \/ (response = generic_error
              /\ conversation_history (snd run) !! user_id
                 = Some (before ++ [mkTurn User message (now env)])))
      /\ (forall other, other <> user_id ->
            conversation_history (snd run) !! other
            = conversation_history s !! other).
Proof.
  intros env user_id message s run before. subst run.
  set (s1 := with_turn user_id (mkTurn User message (now env)) s).
  assert (H1 : conversation_history s1 !! user_id
               = Some (before ++ [mkTurn User message (now env)]))
    by apply lookup_insert_eq.
  assert (H1' : forall other, other <> user_id ->
                  conversation_history s1 !! other
                  = conversation_history s !! other).
  { intros other Hne. apply lookup_insert_ne. congruence. }
  pose proof (history_dispatch env user_id message s1) as Hh.
  unfold history_rel in Hh.
  destruct (dispatch env user_id message s1) as [[response|e] s2] eqn:Hd;
    cbn [snd] in Hh.
  - destruct (process_message_returns env user_id message s response s2 Hd)
      as (response' & Hrun & _ & _).
    rewrite Hrun. exists response'. cbn [fst snd].
    assert (Hc : conversation_history
                   (if rephrased response then called s2 else s2)
                 = conversation_history s1)
      by (destruct (rephrased response); exact Hh).
    split; [reflexivity|]. split.
    + left. unfold with_turn, append_turn. cbn [snd conversation_history].
      rewrite lookup_insert_eq, Hc, H1. simpl.
      rewrite <- app_assoc. reflexivity.
    + intros other Hne. unfold with_turn, append_turn.
      cbn [snd conversation_history].
      rewrite lookup_insert_ne by congruence. rewrite Hc. apply H1', Hne.
  - rewrite (process_message_raises env user_id message s e s2 Hd).
    exists generic_error. cbn [fst snd]. split; [reflexivity|]. split.
    + right. split; [reflexivity|]. rewrite Hh. exact H1.
    + intros other Hne. rewrite Hh. apply H1', Hne.
Qed.

(* ===================================================================== *)
(** * Turns that only read the meeting table *)
(* ===================================================================== *)

#[global] Instance table_rel_preorder : PreOrder table_rel.
Proof.
  split.
  - intros s. reflexivity.
  - intros s1 s2 s3 H12 H23. unfold table_rel in *. congruence.
Qed.

Lemma table_set_pending user_id action : keeps table_rel (set_pending user_id action).
Proof. intros s. reflexivity. Qed.

Lemma table_del_pending user_id : keeps table_rel (del_pending user_id).
Proof. intros s. unfold del_pending. destruct (pending_actions s !! user_id); reflexivity. Qed.

Lemma table_llm_invoke env : keeps table_rel (llm_invoke env).
Proof. intros s. unfold llm_invoke. destruct (llm env _); reflexivity. Qed.

Lemma table_append_turn user_id turn : keeps table_rel (append_turn user_id turn).
Proof. intros s. reflexivity. Qed.

#[global] Hint Resolve table_set_pending table_del_pending table_llm_invoke
  table_append_turn : keeps.

Lemma table_create_validate env user_id info :
  keeps table_rel (create_validate env user_id info).
Proof. unfold create_validate. keeps_auto. Qed.

#[global] Hint Resolve table_create_validate : keeps.

Lemma table_handle_intent env user_id message intent :
  intent <> update_meeting ->
  keeps table_rel (_handle_intent env user_id message intent).
Proof.
  intros Hne. destruct intent; simpl; try contradiction.
  - unfold _handle_view_meetings_conversational. keeps_auto.
  - unfold _handle_create_meeting_conversational. keeps_auto.
  - unfold _handle_delete_meeting_conversational. keeps_auto.
  - unfold _handle_delete_all_meetings_conversational. keeps_auto.
  - unfold _handle_general_conversation. keeps_auto.
Qed.

Lemma table_selection env user_id message pending :
  match pending with PDelete _ | PUpdate _ => True | _ => False end ->
  keeps table_rel (pending_action_body env user_id message pending).
Proof.
  destruct pending; simpl; try contradiction; intros _.
  - unfold _handle_update_meeting_selection. keeps_auto.
  - unfold _handle_delete_meeting_selection. keeps_auto.
Qed.

Lemma table_dispatch env user_id message s :
  read_only_turn user_id message s ->
  db (snd (dispatch env user_id message s)) = db s.
Proof.
  unfold read_only_turn. intros Hro.
  destruct (pending_actions s !! user_id) as [pending|] eqn:Hp.
  - rewrite (dispatch_pending env user_id message s pending Hp).
    assert (Hk : keeps table_rel
                   (try_except (pending_action_body env user_id message pending)
                      (fun _ => del_pending user_id;; mret start_over_error))).
    { apply keeps_try; [typeclasses eauto | | intros e; keeps_auto].
      apply table_selection. destruct pending; auto. }
    apply Hk.
  - rewrite (dispatch_intent env user_id message s Hp).
    apply (table_handle_intent env user_id message _ Hro).
Qed.

Lemma finish_db user_id turn (b : bool) s :
  db (with_turn user_id turn (if b then called s else s)) = db s.
Proof. destruct b; reflexivity. Qed.

Lemma finish_pending user_id turn (b : bool) s :
  pending_actions (with_turn user_id turn (if b then called s else s))
  = pending_actions s.
Proof. destruct b; reflexivity. Qed.

Lemma finish_llm_calls user_id turn (b : bool) s :
  llm_calls (with_turn user_id turn (if b then called s else s))
  = if b then S (llm_calls s) else llm_calls s.
Proof. destruct b; reflexivity. Qed.

(** What [process_message] leaves of the agent is what the handler it
    dispatches to leaves, up to the history and the count of completion
    calls. *)
Lemma process_message_state env user_id message s :
  let s1 := with_turn user_id (mkTurn User message (now env)) s in
  db (snd (process_message env user_id message s))
  = db (snd (dispatch env user_id message s1))
  /\ pending_actions (snd (process_message env user_id message s))
     = pending_actions (snd (dispatch env user_id message s1)).
Proof.
  intros s1.
  destruct (dispatch env user_id message s1) as [[response|e] s2] eqn:Hd.
  - destruct (process_message_returns env user_id message s response s2 Hd)
      as (response' & Hrun & _ & _).
    rewrite Hrun. cbn [snd]. rewrite finish_db, finish_pending. auto.
  - rewrite (process_message_raises env user_id message s e s2 Hd). auto.
Qed.

(** X9. A message never changes the meeting table when the user has no
    pending action and the message is not classified as an update, or when
    the user is choosing a meeting from a list: meetings are created and
    deleted only in answer to a question of the agent. *)
Theorem first_turn_leaves_table :
  forall (env : Env) (user_id : nat) (message : string) (s : Agent),
    read_only_turn user_id message s ->
    db (snd (process_message env user_id message s)) = db s.
Proof.
  intros env user_id message s Hro.
  destruct (process_message_state env user_id message s) as [Hdb _].
  rewrite Hdb.
  apply (table_dispatch env user_id message
           (with_turn user_id (mkTurn User message (now env)) s)).
  exact Hro.
Qed.

Lemma first_turn_leaves_table_witness :
  let standup := mkMeeting 1 (Some "Standup") None 60
                   (739046 * US_PER_DAY + 10 * US_PER_HOUR)
                   (739046 * US_PER_DAY + 11 * US_PER_HOUR) 1 [PId 1]
                   "confirmed" "general" in
  let s := mkAgent ∅ ∅ [standup] 0 in
  db (snd (process_message (silent_env (LLMFail "service unavailable")) 1
             "cancel the standup" s)) = [standup].
Proof.
  intros standup s.
  apply (first_turn_leaves_table (silent_env (LLMFail "service unavailable")) 1
           "cancel the standup" s).
  vm_compute. discriminate.
Defined.

Lemma filter_absent_id (db : DB) i :
  get_meeting db i = None ->
  List.filter (fun m => negb (Nat.eqb (id m) i)) db = db.
Proof.
  unfold get_meeting. induction db as [|x db IH]; simpl; [reflexivity|].
  destruct (Nat.eqb_spec (id x) i); [discriminate|].
  intros H. simpl. rewrite (IH H). reflexivity.
Qed.

(** Deleting without naming a user removes the rows of the id. *)
Lemma delete_meeting_any (db : DB) i :
  fst (ScheduleService.delete_meeting db i None)
  = List.filter (fun m => negb (Nat.eqb (id m) i)) db.
Proof.
  unfold ScheduleService.delete_meeting.
  destruct (get_meeting db i) eqn:Hget; [reflexivity|].
  symmetry. apply filter_absent_id, Hget.
Qed.

(* ===================================================================== *)
(** * Answering a request for confirmation *)
(* ===================================================================== *)

Lemma dispatch_pending_ok env user_id message s pending response s2 :
  pending_actions s !! user_id = Some pending ->
  pending_action_body env user_id message pending s = (Ok response, s2) ->
  dispatch env user_id message s = (Ok response, s2).
Proof.
  intros Hp Hb. rewrite (dispatch_pending env user_id message s pending Hp).
  unfold try_except. rewrite Hb. reflexivity.
Qed.

Lemma confirm_delete_body env user_id message target_meeting s :
  pending_actions s !! user_id = Some (PConfirmDelete target_meeting) ->
  exists response,
    success response = true
    /\ pending_action_body env user_id message (PConfirmDelete target_meeting) s
       = (Ok response,
          mkAgent (conversation_history s) (delete user_id (pending_actions s))
            (if confirms_deletion message
             then fst (ScheduleService.delete_meeting (db s) (id target_meeting)
                         None)
             else db s)
            (llm_calls s)).
Proof.
  intros Hp. unfold pending_action_body, confirms_deletion.
  destruct (Str.among _ _).
  - eexists. split; [|unfold delete_from_db, del_pending, set_db, read, mbind,
                       M_bind, mret, M_ret; cbn; rewrite Hp; reflexivity].
    reflexivity.
  - eexists. split; [|unfold del_pending, mbind, M_bind, mret, M_ret;
                       rewrite Hp; reflexivity].
    reflexivity.
Qed.

(** X10. When the user is asked to confirm the deletion of a meeting, any
    message ends the question: afterwards the user has no pending action
    and the reply has success true.  After yes, y, confirm or ok (in any
    case, with spaces around) the meeting is deleted without a check of
    the organizer, so that its id reads as absent and every other id reads
    as before; after any other answer the table is unchanged. *)
Theorem confirm_delete_answer :
  forall (env : Env) (user_id : nat) (message : string) (s : Agent)
         (target_meeting : Meeting),
    pending_actions s !! user_id = Some (PConfirmDelete target_meeting) ->
    let run := process_message env user_id message s in
    pending_actions (snd run) = delete user_id (pending_actions s)
    /\ (exists response, fst run = Ok response /\ success response = true)
    /\ if confirms_deletion message
       then db (snd run)
            = fst (ScheduleService.delete_meeting (db s) (id target_meeting) None)
            /\ get_meeting (db (snd run)) (id target_meeting) = None
            /\ (forall j, j <> id target_meeting ->
                          get_meeting (db (snd run)) j = get_meeting (db s) j)
       else db (snd run) = db s.
Proof.
  intros env user_id message s target_meeting Hp run. subst run.
  set (s1 := with_turn user_id (mkTurn User message (now env)) s).
  assert (Hp1 : pending_actions s1 !! user_id = Some (PConfirmDelete target_meeting))
    by exact Hp.
  destruct (confirm_delete_body env user_id message target_meeting s1 Hp1)
    as (response & Hs & Hb).
  pose proof (dispatch_pending_ok env user_id message s1 _ _ _ Hp1 Hb) as Hd.
  destruct (process_message_returns env user_id message s _ _ Hd)
    as (response' & Hrun & Hs' & _).
  rewrite Hrun. cbn [fst snd]. rewrite finish_pending, finish_db.
  cbn [pending_actions db]. split; [reflexivity|].
  split; [exists response'; split; [reflexivity | congruence]|].
  change (db s1) with (db s).
  destruct (confirms_deletion message); [|reflexivity].
  split; [reflexivity|].
  rewrite delete_meeting_any. split.
  - rewrite get_meeting_filter_ne, Nat.eqb_refl. reflexivity.
  - intros j Hj. rewrite get_meeting_filter_ne.
    destruct (Nat.eqb_spec (id target_meeting) j); [congruence|reflexivity].
Qed.

Lemma confirm_delete_answer_witness :
  let standup := mkMeeting 1 (Some "Standup") None 60
                   (739046 * US_PER_DAY + 10 * US_PER_HOUR)
                   (739046 * US_PER_DAY + 11 * US_PER_HOUR) 2 [PId 1]
                   "confirmed" "general" in
  let s := mkAgent ∅ {[ 1%nat := PConfirmDelete standup ]} [standup] 0 in
  let run := process_message (silent_env (LLMFail "service unavailable")) 1
               " Yes " s in
  pending_actions (snd run) !! 1%nat = None /\ db (snd run) = [].
Proof.
  intros standup s run.
  destruct (confirm_delete_answer (silent_env (LLMFail "service unavailable")) 1
              " Yes " s standup eq_refl) as (Hp & _ & Hdb).
  split.
  - subst run. rewrite Hp. apply lookup_delete_eq.
  - change (confirms_deletion " Yes ") with true in Hdb.
    destruct Hdb as [Hdb _]. exact Hdb.
Defined.

Lemma filter_filter_andb {A} (p q : A -> bool) (l : list A) :
  List.filter p (List.filter q l) = List.filter (fun x => q x && p x) l.
Proof.
  induction l as [|x l IH]; simpl; [reflexivity|].
  destruct (q x); simpl; [destruct (p x)|]; rewrite IH; reflexivity.
Qed.

(** Deleting the meetings of a list one by one removes the rows that have
    the id of one of them. *)
Lemma delete_each_run meetings :
  forall s,
    delete_each meetings s
    = (Ok tt,
       mkAgent (conversation_history s) (pending_actions s)
         (List.filter (fun x => forallb (fun m => negb (Nat.eqb (id x) (id m)))
                                        meetings) (db s))
         (llm_calls s)).
Proof.
  induction meetings as [|m meetings IH]; intros s.
  - destruct s as [h p d c]. simpl. unfold mret, M_ret. do 2 f_equal.
    symmetry. clear. induction d as [|x d IH]; simpl; [|rewrite IH]; reflexivity.
  - cbn [delete_each]. unfold delete_from_db at 1.
    unfold mbind, M_bind, read, set_db. cbn beta iota.
    rewrite IH. cbn [conversation_history pending_actions db llm_calls].
    rewrite delete_meeting_any, filter_filter_andb. reflexivity.
Qed.

Lemma get_user_meetings_ids (db : DB) user_id :
  NoDup (map id db) ->
  forall x, In x db ->
    forallb (fun m => negb (Nat.eqb (id x) (id m)))
            (get_user_meetings db user_id None)
    = negb (involves user_id x).
Proof.
  intros Hnd x Hx. destruct (involves user_id x) eqn:Hi; simpl.
  - apply not_true_is_false. rewrite forallb_forall. intros Hall.
    specialize (Hall x (proj2 (get_user_meetings_In db user_id x) (conj Hx Hi))).
    rewrite Nat.eqb_refl in Hall. discriminate.
  - apply forallb_forall. intros m Hm.
    apply get_user_meetings_In in Hm. destruct Hm as [Hm Him].
    destruct (Nat.eqb_spec (id x) (id m)) as [Heq|]; [|reflexivity].
    rewrite (NoDup_id_inj db x m Hnd Hx Hm Heq) in Hi. congruence.
Qed.

Lemma get_user_meetings_none_left (db : DB) user_id :
  get_user_meetings (List.filter (fun m => negb (involves user_id m)) db)
    user_id None = [].
Proof.
  unfold get_user_meetings. rewrite filter_filter_andb.
  replace (List.filter _ db) with (@nil Meeting); [reflexivity|].
  symmetry. induction db as [|x db IH]; simpl; [reflexivity|].
  destruct (involves user_id x); simpl; exact IH.
Qed.

Lemma confirm_delete_all_body env user_id message meeting_count s :
  pending_actions s !! user_id = Some (PConfirmDeleteAll meeting_count) ->
  exists response,
    success response = true
    /\ pending_action_body env user_id message
         (PConfirmDeleteAll meeting_count) s
       = (Ok response,
          mkAgent (conversation_history s) (delete user_id (pending_actions s))
            (if confirms_delete_all message
             then List.filter
                    (fun x => forallb (fun m => negb (Nat.eqb (id x) (id m)))
                                (get_user_meetings (db s) user_id None)) (db s)
             else db s)
            (llm_calls s)).
Proof.
  intros Hp. unfold pending_action_body, _handle_confirm_delete_all,
    confirms_delete_all.
  destruct (Str.among _ _).
  - eexists. split; [|unfold try_except, read, mbind, M_bind; cbn beta iota;
                       rewrite delete_each_run; unfold del_pending; cbn;
                       rewrite Hp; reflexivity].
    reflexivity.
  - eexists. split; [|unfold del_pending, mbind, M_bind, mret, M_ret;
                       rewrite Hp; reflexivity].
    reflexivity.
Qed.

(** X11. When the user is asked to confirm the deletion of all meetings,
    any message ends the question and the reply has success true.  After
    yes, y, confirm or ok, every meeting in which the user is organizer or
    participant is removed, those organized by other users included, and
    the rows in which the user has no part are kept; the user then has no
    meeting.  After any other answer the table is unchanged. *)
Theorem confirm_delete_all_answer :
  forall (env : Env) (user_id : nat) (message : string) (s : Agent)
         (meeting_count : nat),
    pending_actions s !! user_id = Some (PConfirmDeleteAll meeting_count) ->
    NoDup (map id (db s)) ->
    let run := process_message env user_id message s in
    pending_actions (snd run) = delete user_id (pending_actions s)
    /\ (exists response, fst run = Ok response /\ success response = true)
    /\ if confirms_delete_all message
       then db (snd run)
            = List.filter (fun m => negb (involves user_id m)) (db s)
            /\ get_user_meetings (db (snd run)) user_id None = []
       else db (snd run) = db s.
Proof.
  intros env user_id message s meeting_count Hp Hnd run. subst run.
  set (s1 := with_turn user_id (mkTurn User message (now env)) s).
  assert (Hp1 : pending_actions s1 !! user_id
                = Some (PConfirmDeleteAll meeting_count)) by exact Hp.
  destruct (confirm_delete_all_body env user_id message meeting_count s1 Hp1)
    as (response & Hs & Hb).
  pose proof (dispatch_pending_ok env user_id message s1 _ _ _ Hp1 Hb) as Hd.
  destruct (process_message_returns env user_id message s _ _ Hd)
    as (response' & Hrun & Hs' & _).
  rewrite Hrun. cbn [fst snd]. rewrite finish_pending, finish_db.
  cbn [pending_actions db]. split; [reflexivity|].
  split; [exists response'; split; [reflexivity | congruence]|].
  change (db s1) with (db s).
  destruct (confirms_delete_all message); [|reflexivity].
  assert (Heq : List.filter
                  (fun x => forallb (fun m => negb (Nat.eqb (id x) (id m)))
                              (get_user_meetings (db s) user_id None)) (db s)
                = List.filter (fun m => negb (involves user_id m)) (db s)).
  { apply filter_ext_in. intros x Hx.
    apply (get_user_meetings_ids (db s) user_id Hnd x Hx). }
  rewrite Heq. split; [reflexivity | apply get_user_meetings_none_left].
Qed.

Lemma confirm_delete_all_answer_witness :
  let ten := 739046 * US_PER_DAY + 10 * US_PER_HOUR in
  let standup := mkMeeting 1 (Some "Standup") None 60 ten
                   (ten + timedelta_minutes 60) 2 [PId 1] "confirmed"
                   "general" in
  let review := mkMeeting 2 (Some "Review") None 60 ten
                  (ten + timedelta_minutes 60) 2 [PId 3] "confirmed"
                  "general" in
  let s := mkAgent ∅ {[ 1%nat := PConfirmDeleteAll 1 ]} [standup; review] 0 in
  db (snd (process_message (silent_env (LLMFail "service unavailable")) 1
             "yes" s)) = [review].
Proof.
  intros ten standup review s.
  destruct (confirm_delete_all_answer
              (silent_env (LLMFail "service unavailable")) 1 "yes" s 1%nat
              eq_refl) as (_ & _ & Hdb).
  - apply (bool_decide_unpack _). vm_compute. exact I.
  - change (confirms_delete_all "yes") with true in Hdb.
    destruct Hdb as [Hdb _]. exact Hdb.
Defined.

(* ===================================================================== *)
(** * The bulk deletion of the confirm-action route *)
(* ===================================================================== *)

Lemma delete_counting_run current_user :
  forall (meetings : list Meeting) (db : DB) (n : nat),
    NoDup (map id db) -> NoDup (map id meetings) ->
    (forall m, In m meetings -> In m db) ->
    foldl (SchedulingRoutes.delete_counting current_user) (db, n) meetings
    = (List.filter
         (fun x => forallb (fun m => negb (Nat.eqb (id x) (id m)))
                     (List.filter (organized_by current_user) meetings)) db,
       (n + length (List.filter (organized_by current_user) meetings))%nat).
Proof.
  induction meetings as [|m meetings IH]; intros db n Hnd Hndm Hin.
  - simpl. rewrite Nat.add_0_r. f_equal. symmetry. clear.
    induction db as [|x db IH]; simpl; [|rewrite IH]; reflexivity.
  - simpl in Hndm. apply NoDup_cons in Hndm. destruct Hndm as [Hm Hndm].
    cbn [foldl]. unfold SchedulingRoutes.delete_counting at 2.
    unfold ScheduleService.delete_meeting.
    rewrite (get_meeting_unique db m Hnd (Hin m (or_introl eq_refl))).
    cbn [List.filter].
    destruct (organized_by current_user m) eqn:Hob;
      unfold organized_by in Hob; rewrite Hob; cbn [negb].
    + rewrite IH.
      * rewrite filter_filter_andb. cbn [forallb length]. f_equal. lia.
      * apply NoDup_map_filter, Hnd.
      * exact Hndm.
      * intros m' Hm'. apply filter_In. split; [apply Hin; right; exact Hm'|].
        apply negb_true_iff, Nat.eqb_neq. intros Heq. apply Hm.
        rewrite <- Heq. apply list_elem_of_In, in_map, Hm'.
    + rewrite IH; [reflexivity | exact Hnd | exact Hndm |].
      intros m' Hm'. apply Hin. right. exact Hm'.
Qed.

Lemma get_user_meetings_NoDup (db : DB) user_id :
  NoDup (map id db) -> NoDup (map id (get_user_meetings db user_id None)).
Proof.
  intros Hnd. unfold get_user_meetings.
  rewrite (Permutation_map id (sort_desc_Permutation _ _)).
  apply NoDup_map_filter, Hnd.
Qed.

Lemma filter_length_Permutation {A} (p : A -> bool) (l l' : list A) :
  Permutation l l' -> length (List.filter p l) = length (List.filter p l').
Proof.
  induction 1 as [|x l l' _ IH|x y l|l1 l2 l3 _ IH1 _ IH2]; simpl.
  - reflexivity.
  - destruct (p x); simpl; congruence.
  - destruct (p x), (p y); reflexivity.
  - congruence.
Qed.

(** X12. The bulk deletion of the confirm-action route removes exactly
    the meetings that the current user organizes: a meeting of another
    organizer in which the user takes part is kept.  The count in its
    message is the number of meetings that the user organized. *)
Theorem route_confirm_delete_all_own_meetings :
  forall (db : DB) (current_user : nat),
    NoDup (map id db) ->
    let run := SchedulingRoutes.confirm_delete_all db current_user in
    fst run = List.filter (fun m => negb (organized_by current_user m)) db
    /\ SchedulingRoutes.sr_message (snd run)
       = "Successfully cancelled "
         +:+ Str.of_nat (length (List.filter (organized_by current_user) db))
         +:+ " meeting(s)".
Proof.
  intros db u Hnd run. subst run. unfold SchedulingRoutes.confirm_delete_all.
  rewrite (delete_counting_run u (get_user_meetings db u None) db 0 Hnd
             (get_user_meetings_NoDup db u Hnd)
             (fun m Hm => proj1 (proj1 (get_user_meetings_In db u m) Hm))).
  cbn [fst snd SchedulingRoutes.sr_message]. split.
  - apply filter_ext_in. intros x Hx.
    destruct (organized_by u x) eqn:Ho; simpl.
    + apply not_true_is_false. rewrite forallb_forall. intros Hall.
      assert (Hxm : In x (List.filter (organized_by u)
                            (get_user_meetings db u None))).
      { apply filter_In. split; [|exact Ho].
        apply get_user_meetings_In. split; [exact Hx|].
        unfold involves. unfold organized_by in Ho. rewrite Ho. reflexivity. }
      specialize (Hall x Hxm). rewrite Nat.eqb_refl in Hall. discriminate.
    + apply forallb_forall. intros m Hm. apply filter_In in Hm.
      destruct Hm as [Hm Hom]. apply get_user_meetings_In in Hm.
      destruct Hm as [Hm _].
      destruct (Nat.eqb_spec (id x) (id m)) as [Heq|]; [|reflexivity].
      rewrite (NoDup_id_inj db x m Hnd Hx Hm Heq) in Ho. congruence.
  - do 2 f_equal. f_equal.
    unfold get_user_meetings.
    rewrite (filter_length_Permutation (organized_by u) _ _
               (sort_desc_Permutation _ _)).
    rewrite filter_filter_andb. cbn [Nat.add]. f_equal. apply filter_ext.
    intros x. unfold involves, organized_by.
    destruct (Nat.eqb (organizer_id x) u); [reflexivity|].
    apply andb_false_r.
Qed.

Lemma route_confirm_delete_all_own_meetings_witness :
  let ten := 739046 * US_PER_DAY + 10 * US_PER_HOUR in
  let standup := mkMeeting 1 (Some "Standup") None 60 ten
                   (ten + timedelta_minutes 60) 2 [PId 1] "confirmed"
                   "general" in
  let review := mkMeeting 2 (Some "Review") None 60 ten
                  (ten + timedelta_minutes 60) 1 [PId 3] "confirmed"
                  "general" in
  fst (SchedulingRoutes.confirm_delete_all [standup; review] 1) = [standup].
Proof.
  intros ten standup review.
  destruct (route_confirm_delete_all_own_meetings [standup; review] 1)
    as [Hdb _].
  - apply (bool_decide_unpack _). vm_compute. exact I.
  - exact Hdb.
Defined.

(* ===================================================================== *)
(** * Choosing a meeting *)
(* ===================================================================== *)

Lemma meeting_at_time_In patterns message_lower meetings m :
  meeting_at_time patterns message_lower meetings = Some m -> In m meetings.
Proof.
  induction patterns as [|r patterns IH]; simpl; [discriminate|].
  destruct (Re.search r message_lower) as [mt|]; [|exact IH].
  destruct (clock_of_match mt) as [hour minute].
  destruct (List.find _ meetings) as [m'|] eqn:Hf; [|exact IH].
  intros [= <-]. apply find_some in Hf. apply Hf.
Qed.

Lemma meeting_by_title_in_In message_lower meetings :
  match meeting_by_title_in message_lower meetings with
  | Ok (Some m) => In m meetings
  | Ok None => True
  | Raise _ => exists m, In m meetings /\ title m = None
  end.
Proof.
  induction meetings as [|x meetings IH]; simpl; [exact I|].
  destruct (title x) as [t|] eqn:Ht; [|exists x; auto].
  destruct (Str.contains _ _); [left; reflexivity|].
  destruct (meeting_by_title_in message_lower meetings) as [[m|]|e];
    [right; exact IH | exact I |].
  destruct IH as (m & Hm & Hn). exists m. auto.
Qed.

Lemma lookup_In {A} (l : list A) (i : nat) (x : A) : l !! i = Some x -> In x l.
Proof. intros H. apply list_elem_of_In. eapply list_elem_of_lookup_2, H. Qed.

Lemma head_In {A} (l : list A) (x : A) : head l = Some x -> In x l.
Proof. destruct l; simpl; [discriminate|]. intros [= <-]. left. reflexivity. Qed.

Lemma last_In {A} (l : list A) (x : A) : last l = Some x -> In x l.
Proof.
  intros H. apply last_Some in H. destruct H as [l' ->].
  apply in_or_app. right. left. reflexivity.
Qed.

Lemma identify_meeting_In message meetings :
  match _identify_meeting_from_message message meetings with
  | Ok (Some m) => In m meetings
  | Ok None => True
  | Raise _ => exists m, In m meetings /\ title m = None
  end.
Proof.
  unfold _identify_meeting_from_message.
  destruct (meeting_at_time _ _ meetings) as [m|] eqn:Ht.
  - eapply meeting_at_time_In, Ht.
  - pose proof (meeting_by_title_in_In (Str.lower message) meetings) as Hb.
    destruct (meeting_by_title_in _ meetings) as [[m|]|e]; [exact Hb| |exact Hb].
    destruct (_ || _).
    + destruct (head meetings) eqn:Hh; [eapply head_In, Hh | exact I].
    + destruct (_ || _).
      * destruct (meetings !! 1%nat) eqn:Hl; [eapply lookup_In, Hl | exact I].
      * destruct (Str.contains "last" _); [|exact I].
        destruct (last meetings) eqn:Hl; [eapply last_In, Hl | exact I].
Qed.

(** X13. The meeting that a message is taken to name is one of the
    meetings it is looked for in: by the time of day, by the title, or as
    the first, the second or the last of the list.  The search can only
    raise on a list that holds a meeting without a title, and finds nothing
    in the empty list. *)
Theorem identify_meeting_from_message_member :
  forall (message : string) (meetings : list Meeting),
    match _identify_meeting_from_message message meetings with
    | Ok (Some m) => In m meetings
    | Ok None => True
    | Raise _ => exists m, In m meetings /\ title m = None
    end
    /\ _identify_meeting_from_message message [] = Ok None.
Proof.
  intros message meetings. split; [apply identify_meeting_In|].
  unfold _identify_meeting_from_message.
  assert (H : meeting_at_time [Re.re_time_hm_period; Re.re_time_h_period]
                (Str.lower message) [] = None).
  { simpl. destruct (Re.search Re.re_time_hm_period _) as [mt|];
      [destruct (clock_of_match mt)|];
      (destruct (Re.search Re.re_time_h_period _) as [mt'|];
       [destruct (clock_of_match mt')|]); reflexivity. }
  rewrite H. simpl.
  repeat match goal with |- context [if ?b then _ else _] => destruct b end;
    reflexivity.
Qed.

Lemma select_meeting_spec message meetings :
  match select_meeting message meetings with
  | inr m =>
      In m meetings
      /\ (Str.isdigit (Str.strip message) = true ->
          number_in_range message meetings = true
          /\ meetings !! Z.to_nat (Str.int (Str.strip message) - 1) = Some m)
  | inl response =>
      success response = true /\ needs_llm_enhancement response = false
      /\ (Str.isdigit (Str.strip message) = true ->
          number_in_range message meetings = false)
  end.
Proof.
  unfold select_meeting, number_in_range.
  destruct (Str.isdigit (Str.strip message)).
  - set (n := Str.int (Str.strip message)).
    destruct (Z.leb_spec 0 (n - 1)), (Z.ltb_spec (n - 1) (Z.of_nat (length meetings)));
      cbn [andb].
    + destruct (meetings !! Z.to_nat (n - 1)) as [m|] eqn:Hl.
      * split; [eapply lookup_In, Hl|]. intros _. split; [|reflexivity].
        apply andb_true_iff. split; [apply Z.leb_le | apply Z.leb_le]; lia.
      * apply lookup_ge_None in Hl. lia.
    + repeat split. intros _. apply andb_false_iff. right. apply Z.leb_gt. lia.
    + repeat split. intros _. apply andb_false_iff. left. apply Z.leb_gt. lia.
    + repeat split. intros _. apply andb_false_iff. left. apply Z.leb_gt. lia.
  - pose proof (identify_meeting_In message meetings) as Hi.
    destruct (_identify_meeting_from_message message meetings) as [[m|]|e].
    + split; [exact Hi | discriminate].
    + repeat split. discriminate.
    + repeat split. discriminate.
Qed.

Lemma selection_body env user_id message for_deletion meetings s :
  match select_meeting message meetings with
  | inl response =>
      pending_action_body env user_id message (choosing for_deletion meetings) s
      = (Ok response, s)
  | inr m =>
      exists response,
        success response = true
        /\ pending_action_body env user_id message
             (choosing for_deletion meetings) s
           = (Ok response,
              mkAgent (conversation_history s)
                      (<[user_id := chosen for_deletion m]> (pending_actions s))
                      (db s) (llm_calls s))
  end.
Proof.
  destruct for_deletion; simpl;
    unfold _handle_delete_meeting_selection, _handle_update_meeting_selection;
    destruct (select_meeting message meetings);
    try reflexivity; (eexists; split; [|reflexivity]; reflexivity).
Qed.

(** X14. When the user is shown a list of meetings to choose from, for a
    deletion or for an update, a message never changes the meeting table
    and the reply has success true.  A choice that is understood selects a
    meeting of the list shown, which becomes the subject of the next
    question; otherwise the list stays pending.  A message that is a number
    selects the meeting at that position, counted from one, and a number
    outside the list leaves the pending action as it is. *)
Theorem selection_answer :
  forall (env : Env) (user_id : nat) (message : string) (s : Agent)
         (for_deletion : bool) (meetings : list Meeting),
    pending_actions s !! user_id = Some (choosing for_deletion meetings) ->
    let run := process_message env user_id message s in
    db (snd run) = db s
    /\ (exists response, fst run = Ok response /\ success response = true)
    /\ (pending_actions (snd run) = pending_actions s
        \/ exists m, In m meetings
                     /\ pending_actions (snd run)
                        = <[user_id := chosen for_deletion m]> (pending_actions s))
    /\ (Str.isdigit (Str.strip message) = true ->
        if number_in_range message meetings
        then exists m,
               meetings !! Z.to_nat (Str.int (Str.strip message) - 1) = Some m
               /\ pending_actions (snd run)
                  = <[user_id := chosen for_deletion m]> (pending_actions s)
        else pending_actions (snd run) = pending_actions s).
Proof.
  intros env user_id message s for_deletion meetings Hp run. subst run.
  set (s1 := with_turn user_id (mkTurn User message (now env)) s).
  assert (Hp1 : pending_actions s1 !! user_id
                = Some (choosing for_deletion meetings)) by exact Hp.
  pose proof (selection_body env user_id message for_deletion meetings s1) as Hb.
  pose proof (select_meeting_spec message meetings) as Hsel.
  destruct (select_meeting message meetings) as [response|m].
  - destruct Hsel as (Hs & _ & Hnum).
    pose proof (dispatch_pending_ok env user_id message s1 _ _ _ Hp1 Hb) as Hd.
    destruct (process_message_returns env user_id message s _ _ Hd)
      as (response' & Hrun & Hs' & _).
    rewrite Hrun. cbn [fst snd]. rewrite finish_pending, finish_db.
    split; [reflexivity|].
    split; [exists response'; split; [reflexivity | congruence]|].
    split; [left; reflexivity|].
    intros Hdig. rewrite (Hnum Hdig). reflexivity.
  - destruct Hsel as (Hin & Hnum). destruct Hb as (response & Hs & Hb).
    pose proof (dispatch_pending_ok env user_id message s1 _ _ _ Hp1 Hb) as Hd.
    destruct (process_message_returns env user_id message s _ _ Hd)
      as (response' & Hrun & Hs' & _).
    rewrite Hrun. cbn [fst snd]. rewrite finish_pending, finish_db.
    cbn [pending_actions db].
    split; [reflexivity|].
    split; [exists response'; split; [reflexivity | congruence]|].
    split; [right; exists m; split; [exact Hin | reflexivity]|].
    intros Hdig. destruct (Hnum Hdig) as [Hr Hl]. rewrite Hr.
    exists m. split; [exact Hl | reflexivity].
Qed.

Lemma selection_answer_witness :
  let ten := 739046 * US_PER_DAY + 10 * US_PER_HOUR in
  let standup := mkMeeting 1 (Some "Standup") None 60 ten
                   (ten + timedelta_minutes 60) 1 [PId 1] "confirmed"
                   "general" in
  let s := mkAgent ∅ {[ 1%nat := PDelete [standup] ]} [standup] 0 in
  pending_actions
    (snd (process_message (silent_env (LLMFail "service unavailable")) 1
            "2" s))
  = pending_actions s.
Proof.
  intros ten standup s.
  destruct (selection_answer (silent_env (LLMFail "service unavailable")) 1
              "2" s true [standup] eq_refl) as (_ & _ & _ & Hnum).
  specialize (Hnum eq_refl).
  change (number_in_range "2" [standup]) with false in Hnum. exact Hnum.
Defined.

(* ===================================================================== *)
(** * Writing to the meeting table *)
(* ===================================================================== *)

Lemma fresh_id_above (db : DB) : forall m, In m db -> (id m < fresh_id db)%nat.
Proof.
  unfold fresh_id. induction db as [|x db IH]; intros m Hin; [contradiction|].
  simpl. destruct Hin as [->|Hin]; [lia|]. specialize (IH m Hin). lia.
Qed.



(** Updating a meeting from the data of a conversation never raises.
    When it returns a meeting, that meeting is what the table then holds
    under the id, it ends its duration after its start whatever the row
    held before, and every other id reads as before.  When it returns
    nothing the agent is unchanged. *)
Lemma update_meeting_from_data_run (meeting_id : nat) (updates : Updates)
    (s : Agent) :
    match _update_meeting_from_data meeting_id updates s with
    | (Ok (Some m), s') =>
        get_meeting (db s') meeting_id = Some m
        /\ only_table_differs s s'
        /\ end_time m = start_time m + timedelta_minutes (duration_minutes m)
        /\ (exists existing,
              get_meeting (db s) meeting_id = Some existing
              /\ start_time m
                 = match up_start_time updates with
                   | Val (Iso t) => t
                   | _ => start_time existing
                   end
              /\ duration_minutes m
                 = match up_duration_minutes updates with
                   | Val d => d
                   | _ => duration_minutes existing
                   end)
        /\ (forall j, j <> meeting_id ->
                      get_meeting (db s') j = get_meeting (db s) j)
    | (Ok None, s') => s' = s
    | (Raise _, _) => False
    end.
Proof.
  unfold _update_meeting_from_data.
  unfold mbind, M_bind, read. cbn beta iota.
  destruct (get_meeting (db s) meeting_id) as [existing|] eqn:Hget;
    [|reflexivity].
  apply get_meeting_Some in Hget as Hex. destruct Hex as [_ Hid0].
  assert (Hid : forall u, id (apply_update u existing) = meeting_id)
    by (intros u; exact Hid0).
  destruct (up_start_time updates) as [| |[t|junk]];
    destruct (up_duration_minutes updates) as [| |d];
    cbn [fget_default fpresent]; try reflexivity;
    unfold ScheduleService.update_meeting; rewrite Hget;
    unfold set_db, mret, M_ret; cbn [db];
    (split; [rewrite (get_meeting_map_replace (db s) meeting_id _ meeting_id
                        (Hid _)), Nat.eqb_refl, Hget; reflexivity|]);
    (split; [repeat split|]);
    (split; [reflexivity|]);
    (split; [exists existing; repeat split|]);
    intros j Hj;
    rewrite (get_meeting_map_replace (db s) meeting_id _ j (Hid _));
    destruct (Nat.eqb_spec meeting_id j); congruence.
Qed.

(** The creation of a meeting from collected details returns: with
    success and the meeting appended, or without success and without any
    change. *)
Lemma create_meeting_with_info_run env user_id info s :
  exists response s',
    _create_meeting_with_info env user_id info s = (Ok response, s')
    /\ conversation_history s' = conversation_history s
    /\ pending_actions s' = pending_actions s
    /\ if success response
       then exists m, scheduled_from user_id info (db s) (db s') m
       else s' = s.
Proof.
  unfold _create_meeting_with_info, try_except.
  destruct (i_start_time info) as [| |[t|junk]] eqn:Hst; cbn [fget_default].
  - do 2 eexists. split; [reflexivity|]. cbn. auto.
  - do 2 eexists. split; [reflexivity|]. cbn. auto.
  - cbn [c_start_time truthy_time timestr_text].
    rewrite isoformat_nonempty. cbn [negb].
    unfold _create_meeting_from_data.
    cbn [c_start_time c_duration_minutes c_participants].
    destruct (fget_default 60 (i_duration_minutes info)) as [dur|];
      [|do 2 eexists; split; [reflexivity|]; cbn; auto].
    destruct (fget_default [PId user_id] (i_participants info)) as [ps|];
      [|do 2 eexists; split; [reflexivity|]; cbn; auto].
    unfold mbind, M_bind, read, set_db, ScheduleService.create_meeting, mret,
      M_ret, llm_invoke.
    cbn [db conversation_history pending_actions llm_calls].
    destruct (llm env (llm_calls s)); do 2 eexists;
      (split; [reflexivity|]); cbn;
      (split; [reflexivity|]); (split; [reflexivity|]);
      eexists; unfold scheduled_from; repeat split; exact Hst.
  - cbn [c_start_time truthy_time timestr_text].
    destruct (String.eqb junk ""); cbn [negb];
      [do 2 eexists; split; [reflexivity|]; cbn; auto|].
    do 2 eexists. split; [reflexivity|]. cbn. auto.
Qed.

Lemma del_pending_present user_id s action :
  pending_actions s !! user_id = Some action ->
  del_pending user_id s
  = (Ok tt, mkAgent (conversation_history s) (delete user_id (pending_actions s))
              (db s) (llm_calls s)).
Proof. intros Hp. unfold del_pending. rewrite Hp. reflexivity. Qed.

(** X16. When the user is asked to confirm a proposal and answers yes,
    that's enough, confirm, ok or go ahead, the pending action is removed
    before the meeting is created: afterwards the user has no pending
    action whether or not the creation succeeds.  With success, the table
    is the former table followed by one meeting organized by the user,
    with the title of the proposal (Untitled Meeting when it has none),
    its start, and its end the duration later; without success the table
    is unchanged and the proposal is lost. *)
Theorem confirm_create_answer :
  forall (env : Env) (user_id : nat) (message : string) (s : Agent)
         (meeting_proposal : Info),
    pending_actions s !! user_id = Some (PConfirmCreate meeting_proposal) ->
    confirms_creation message = true ->
    let run := process_message env user_id message s in
    pending_actions (snd run) = delete user_id (pending_actions s)
    /\ exists response,
         fst run = Ok response
         /\ if success response
            then exists m,
                   scheduled_from user_id meeting_proposal (db s)
                     (db (snd run)) m
            else db (snd run) = db s.
Proof.
  intros env user_id message s meeting_proposal Hp Hyes run. subst run.
  set (s1 := with_turn user_id (mkTurn User message (now env)) s).
  assert (Hp1 : pending_actions s1 !! user_id
                = Some (PConfirmCreate meeting_proposal)) by exact Hp.
  set (s1' := mkAgent (conversation_history s1)
                      (delete user_id (pending_actions s1)) (db s1)
                      (llm_calls s1)).
  destruct (create_meeting_with_info_run env user_id meeting_proposal s1')
    as (response & s2 & Hrun & _ & Hpend & Hres).
  assert (Hb : pending_action_body env user_id message
                 (PConfirmCreate meeting_proposal) s1 = (Ok response, s2)).
  { unfold pending_action_body. unfold confirms_creation in Hyes.
    rewrite Hyes.
    rewrite (bind_ok _ _ _ _ _ (del_pending_present user_id s1 _ Hp1)).
    exact Hrun. }
  pose proof (dispatch_pending_ok env user_id message s1 _ _ _ Hp1 Hb) as Hd.
  destruct (process_message_returns env user_id message s _ _ Hd)
    as (response' & Hrun' & Hs' & _).
  rewrite Hrun'. cbn [fst snd]. rewrite finish_pending, finish_db.
  split; [exact Hpend|].
  exists response'. split; [reflexivity|]. rewrite Hs'.
  destruct (success response); [exact Hres | rewrite Hres; reflexivity].
Qed.

Lemma confirm_create_answer_witness :
  let env := silent_env (LLMFail "service unavailable") in
  let nine := 739046 * US_PER_DAY + 9 * US_PER_HOUR in
  let proposal := mkInfo (Val "Planning") (Val (Iso nine)) (Val 30)
                    (Val [PName "a@b.com"]) Absent Absent Absent in
  let s := mkAgent ∅ {[ 1%nat := PConfirmCreate proposal ]} [] 0 in
  pending_actions (snd (process_message env 1 "Go ahead" s)) !! 1%nat = None.
Proof.
  intros env nine proposal s.
  destruct (confirm_create_answer env 1 "Go ahead" s proposal eq_refl)
    as [Hp _].
  - vm_compute. reflexivity.
  - rewrite Hp. apply lookup_delete_eq.
Defined.

Lemma clarification_body_missing env user_id message partial_info
    missing_fields suggested new_info s :
  _extract_meeting_info env message = Ok new_info ->
  missing_fields_of (Info_update partial_info new_info) <> [] ->
  exists response,
    success response = true
    /\ pending_action_body env user_id message
         (PCreate partial_info missing_fields suggested) s
       = (Ok response,
          mkAgent (conversation_history s)
            (<[user_id := PCreate (Info_update partial_info new_info)
                            (missing_fields_of
                               (Info_update partial_info new_info))
                            suggested]> (pending_actions s))
            (db s) (S (llm_calls s))).
Proof.
  intros Hext Hmiss. unfold pending_action_body,
    _handle_create_meeting_clarification.
  rewrite Hext. unfold lift, mbind, M_bind, set_pending, try_except, llm_invoke.
  cbn beta iota.
  destruct (missing_fields_of (Info_update partial_info new_info))
    as [|x still]; [contradiction|].
  cbn [conversation_history pending_actions db llm_calls].
  destruct (llm env (llm_calls s)); eexists;
    (split; [|cbn; rewrite insert_insert_eq; reflexivity]); reflexivity.
Qed.

Lemma clarification_body_complete env user_id message partial_info
    missing_fields suggested new_info s :
  _extract_meeting_info env message = Ok new_info ->
  missing_fields_of (Info_update partial_info new_info) = [] ->
  pending_action_body env user_id message
    (PCreate partial_info missing_fields suggested) s
  = _create_meeting_with_info env user_id (Info_update partial_info new_info)
      (mkAgent (conversation_history s) (delete user_id (pending_actions s))
               (db s) (llm_calls s)).
Proof.
  intros Hext Hmiss. unfold pending_action_body,
    _handle_create_meeting_clarification.
  rewrite Hext. unfold lift, mbind, M_bind, set_pending, del_pending.
  cbn beta iota zeta. rewrite Hmiss.
  cbn [conversation_history pending_actions db llm_calls].
  rewrite lookup_insert_eq, delete_insert_eq. reflexivity.
Qed.

(** X17. When the user is asked for the missing details of a meeting and
    the message is read without error, what is read is merged into the
    details collected so far, a key that the message gives replacing the
    former value.  While a required field is missing, the user's pending
    action holds the merged details and the list of what they lack, the
    table is unchanged and the reply has success true.  Once nothing is
    missing, the pending action is removed and the meeting is created from
    the merged details, without a question for confirmation: with success
    one meeting is appended to the table, without success the table is
    unchanged. *)
Theorem clarification_answer :
  forall (env : Env) (user_id : nat) (message : string) (s : Agent)
         (partial_info : Info) (missing_fields : list string)
         (suggested : field timestr) (new_info : Info),
    pending_actions s !! user_id
    = Some (PCreate partial_info missing_fields suggested) ->
    _extract_meeting_info env message = Ok new_info ->
    let merged := Info_update partial_info new_info in
    let run := process_message env user_id message s in
    exists response,
      fst run = Ok response
      /\ match missing_fields_of merged with
         | [] =>
             pending_actions (snd run) = delete user_id (pending_actions s)
             /\ if success response
                then exists m,
                       scheduled_from user_id merged (db s) (db (snd run)) m
                else db (snd run) = db s
         | still_missing =>
             pending_actions (snd run)
             = <[user_id := PCreate merged still_missing suggested]>
                 (pending_actions s)
             /\ db (snd run) = db s
             /\ success response = true
         end.
Proof.
  intros env user_id message s partial_info missing_fields suggested new_info
         Hp Hext merged run. subst run.
  set (s1 := with_turn user_id (mkTurn User message (now env)) s).
  assert (Hp1 : pending_actions s1 !! user_id
                = Some (PCreate partial_info missing_fields suggested))
    by exact Hp.
  destruct (missing_fields_of merged) as [|x still] eqn:Hmiss.
  - pose proof (clarification_body_complete env user_id message partial_info
                  missing_fields suggested new_info s1 Hext Hmiss) as Hb.
    destruct (create_meeting_with_info_run env user_id merged
                (mkAgent (conversation_history s1)
                         (delete user_id (pending_actions s1)) (db s1)
                         (llm_calls s1)))
      as (response & s2 & Hrun & _ & Hpend & Hres).
    fold merged in Hb. rewrite Hrun in Hb.
    pose proof (dispatch_pending_ok env user_id message s1 _ _ _ Hp1 Hb) as Hd.
    destruct (process_message_returns env user_id message s _ _ Hd)
      as (response' & Hrun' & Hs' & _).
    rewrite Hrun'. cbn [fst snd]. rewrite finish_pending, finish_db.
    exists response'. split; [reflexivity|]. split; [exact Hpend|].
    rewrite Hs'.
    destruct (success response); [exact Hres | rewrite Hres; reflexivity].
  - destruct (clarification_body_missing env user_id message partial_info
                missing_fields suggested new_info s1 Hext)
      as (response & Hs & Hb).
    { fold merged. rewrite Hmiss. discriminate. }
    fold merged in Hb. rewrite Hmiss in Hb.
    pose proof (dispatch_pending_ok env user_id message s1 _ _ _ Hp1 Hb) as Hd.
    destruct (process_message_returns env user_id message s _ _ Hd)
      as (response' & Hrun' & Hs' & _).
    rewrite Hrun'. cbn [fst snd]. rewrite finish_pending, finish_db.
    exists response'. split; [reflexivity|].
    split; [reflexivity|]. split; [reflexivity | congruence].
Qed.

Lemma clarification_answer_witness :
  let env := silent_env (LLMFail "service unavailable") in
  let s := mkAgent ∅ {[ 1%nat := PCreate Info_empty ["meeting title"] Absent ]}
             [] 0 in
  exists info still,
    pending_actions (snd (process_message env 1 "at 3pm for 45 minutes" s))
    !! 1%nat
    = Some (PCreate info still Absent)
    /\ i_duration_minutes info = Val 45.
Proof.
  intros env s.
  destruct (clarification_answer env 1 "at 3pm for 45 minutes" s Info_empty
              ["meeting title"] Absent
              (mkInfo Absent
                 (Val (Iso (dt_combine 739046 15 0))) (Val 45) Absent Absent
                 Absent Absent) eq_refl)
    as (response & _ & Hrest).
  - vm_compute. reflexivity.
  - cbv zeta in Hrest.
    change (missing_fields_of
              (Info_update Info_empty
                 (mkInfo Absent (Val (Iso (dt_combine 739046 15 0))) (Val 45)
                    Absent Absent Absent Absent)))
      with ["meeting title"; "participants"] in Hrest.
    destruct Hrest as (Hpend & _ & _).
    do 2 eexists. rewrite Hpend. split; [apply lookup_insert_eq | reflexivity].
Defined.

Lemma update_details_body env user_id message target_meeting updates s :
  pending_actions s !! user_id = Some (PUpdateDetails target_meeting) ->
  _extract_update_info env message = Ok updates ->
  exists response s',
    pending_action_body env user_id message (PUpdateDetails target_meeting) s
    = (Ok response, s')
    /\ if Updates_truthy updates
       then pending_actions s' = delete user_id (pending_actions s)
            /\ if success response
               then exists m',
                      updated_from (id target_meeting) updates (db s) (db s') m'
               else db s' = db s
       else s' = s /\ success response = true.
Proof.
  intros Hp Hext. unfold pending_action_body, _handle_update_meeting_details.
  rewrite Hext. unfold lift at 1. unfold mbind at 1, M_bind at 1. cbn beta iota.
  destruct (Updates_truthy updates); cbn [negb].
  - unfold try_except.
    pose proof (update_meeting_from_data_run (id target_meeting) updates s)
      as Hup.
    unfold mbind at 1, M_bind at 1.
    destruct (_update_meeting_from_data (id target_meeting) updates s)
      as [[[m'|]|e] s2]; [| |contradiction].
    + destruct Hup as (Hget & (Hh & Hpe & Hc) & Hend & Hex & Hoth).
      assert (Hp2 : pending_actions s2 !! user_id
                    = Some (PUpdateDetails target_meeting))
        by (rewrite Hpe; exact Hp).
      rewrite (bind_ok _ _ _ _ _ (del_pending_present user_id s2 _ Hp2)).
      do 2 eexists. split; [reflexivity|]. cbn.
      split; [rewrite Hpe; reflexivity|].
      exists m'. unfold updated_from. auto.
    + subst s2.
      rewrite (bind_ok _ _ _ _ _ (del_pending_present user_id s _ Hp)).
      do 2 eexists. split; [reflexivity|]. cbn. auto.
  - do 2 eexists. split; [reflexivity|]. cbn. auto.
Qed.

(** X18. When the user is asked what to change about a meeting and the
    message is read without error: if it names no change, the pending
    action and the table stay as they are and the reply has success true;
    otherwise the pending action is removed whether or not the update
    succeeds.  With success the table holds, under the id of the meeting,
    a row that ends its duration after its start, with the start and the
    duration of the message where it gives them, and every other id reads
    as before; without success the table is unchanged. *)
Theorem update_details_answer :
  forall (env : Env) (user_id : nat) (message : string) (s : Agent)
         (target_meeting : Meeting) (updates : Updates),
    pending_actions s !! user_id = Some (PUpdateDetails target_meeting) ->
    _extract_update_info env message = Ok updates ->
    let run := process_message env user_id message s in
    exists response,
      fst run = Ok response
      /\ if Updates_truthy updates
         then pending_actions (snd run) = delete user_id (pending_actions s)
              /\ if success response
                 then exists m',
                        updated_from (id target_meeting) updates (db s)
                          (db (snd run)) m'
                 else db (snd run) = db s
         else pending_actions (snd run) = pending_actions s
              /\ db (snd run) = db s
              /\ success response = true.
Proof.
  intros env user_id message s target_meeting updates Hp Hext run. subst run.
  set (s1 := with_turn user_id (mkTurn User message (now env)) s).
  assert (Hp1 : pending_actions s1 !! user_id
                = Some (PUpdateDetails target_meeting)) by exact Hp.
  destruct (update_details_body env user_id message target_meeting updates s1
              Hp1 Hext) as (response & s2 & Hb & Hres).
  pose proof (dispatch_pending_ok env user_id message s1 _ _ _ Hp1 Hb) as Hd.
  destruct (process_message_returns env user_id message s _ _ Hd)
    as (response' & Hrun' & Hs' & _).
  rewrite Hrun'. cbn [fst snd]. rewrite finish_pending, finish_db.
  exists response'. split; [reflexivity|]. rewrite Hs'.
  destruct (Updates_truthy updates).
  - exact Hres.
  - destruct Hres as [-> Hs]. auto.
Qed.

Lemma update_details_answer_witness :
  let env := silent_env (LLMFail "service unavailable") in
  let ten := 739046 * US_PER_DAY + 10 * US_PER_HOUR in
  let standup := mkMeeting 1 (Some "Standup") None 60 ten
                   (ten + timedelta_minutes 60) 1 [PId 1] "confirmed"
                   "general" in
  let s := mkAgent ∅ {[ 1%nat := PUpdateDetails standup ]} [standup] 0 in
  pending_actions (snd (process_message env 1 "make it 30 minutes" s))
  = delete 1%nat (pending_actions s).
Proof.
  intros env ten standup s.
  destruct (update_details_answer env 1 "make it 30 minutes" s standup
              (mkUpdates Absent Absent Absent Absent (Val 30) false) eq_refl)
    as (response & _ & Hrest).
  - vm_compute. reflexivity.
  - destruct Hrest as [Hpend _]. exact Hpend.
Defined.

(* ===================================================================== *)
(** * Requests that are answered from the table or from a canned text *)
(* ===================================================================== *)

Lemma enhance_cases env user_id user_message response s :
  exists response',
    (_enhance_response_with_llm env user_id user_message response ≫=
       (fun '(response, enhanced_response) =>
          mret (default response enhanced_response))) s
    = (Ok response', called s)
    /\ rephrasing_of env (llm_calls s) response response'.
Proof.
  unfold _enhance_response_with_llm, try_except, llm_invoke, mbind, M_bind,
    rephrasing_of.
  destruct (llm env (llm_calls s)) as [content|failure] eqn:Hllm; cbn beta iota.
  - destruct ((10 <? Str.len (Str.strip content))
              && (Str.len (Str.strip content) <? 500)).
    + eexists. split; [reflexivity|]. right. left. eauto.
    + eexists. split; [reflexivity|]. left. reflexivity.
  - destruct (is_rate_limit (LLMFailure failure)) eqn:Hrl;
      [destruct (Str.any_in ["api"; "limit"; "quota"; "temporarily"]
                            (Str.lower (message response)))|].
    + eexists. split; [reflexivity|]. left. reflexivity.
    + eexists. split; [reflexivity|]. right. right. eauto.
    + eexists. split; [reflexivity|]. left. reflexivity.
Qed.

(** [process_message] when the handler returns, with what the rephrasing
    step makes of the reply. *)
Lemma process_message_rephrases env user_id message s response s2 :
  dispatch env user_id message
    (with_turn user_id (mkTurn User message (now env)) s) = (Ok response, s2) ->
  exists response',
    process_message env user_id message s
    = (Ok response',
       with_turn user_id (mkTurn Assistant (response_message response') (now env))
         (if rephrased response then called s2 else s2))
    /\ if rephrased response
       then rephrasing_of env (llm_calls s2) response response'
       else response' = response.
Proof.
  intros Hd. unfold process_message, try_except, process_message_body.
  set (s1 := with_turn user_id (mkTurn User message (now env)) s) in *.
  rewrite (bind_ok (append_turn user_id (mkTurn User message (now env))) _
             s tt s1 eq_refl).
  rewrite (bind_ok (read _) _ s1
             (bool_decide (is_Some (pending_actions s1 !! user_id))) s1 eq_refl).
  assert (Hd' : (if bool_decide (is_Some (pending_actions s1 !! user_id))
                 then _handle_pending_action env user_id message
                 else _handle_intent env user_id message (_analyze_intent message))
                  s1 = (Ok response, s2)).
  { unfold dispatch in Hd. destruct (bool_decide _); exact Hd. }
  clearbody s1.
  rewrite (bind_ok _ _ s1 response s2 Hd').
  unfold rephrased. destruct (success response && negb (needs_llm_enhancement response)).
  - destruct (enhance_cases env user_id message response s2)
      as (response' & Hrun & Hre).
    rewrite (bind_ok _ _ s2 response' (called s2) Hrun).
    exists response'. split; [reflexivity | exact Hre].
  - exists response. split; reflexivity.
Qed.

Lemma view_handler_run user_id s :
  exists response,
    _handle_view_meetings_conversational user_id s = (Ok response, s)
    /\ rephrased response = true
    /\ (get_user_meetings (db s) user_id None = [] ->
        response = no_meetings_offer).
Proof.
  unfold _handle_view_meetings_conversational, try_except, mbind, M_bind, read.
  cbn beta iota.
  destruct (get_user_meetings (db s) user_id None) as [|m [|m' l]];
    eexists; (split; [reflexivity|]); (split; [reflexivity|]);
    try discriminate; reflexivity.
Qed.

(** X19. A request to see the meetings, from a user with no pending
    action, changes neither the meeting table nor the pending actions and
    makes exactly one completion call, the one of the rephrasing step; the
    reply has success true.  For a user without meetings the reply is the
    offer to schedule one, or what the rephrasing step makes of it. *)
Theorem view_request_reads_only :
  forall (env : Env) (user_id : nat) (message : string) (s : Agent),
    pending_actions s !! user_id = None ->
    _analyze_intent message = view_meetings ->
    let run := process_message env user_id message s in
    db (snd run) = db s
    /\ pending_actions (snd run) = pending_actions s
    /\ llm_calls (snd run) = S (llm_calls s)
    /\ exists response,
         fst run = Ok response
         /\ success response = true
         /\ (get_user_meetings (db s) user_id None = [] ->
             rephrasing_of env (llm_calls s) no_meetings_offer response).
Proof.
  intros env user_id message s Hp Hintent run. subst run.
  set (s1 := with_turn user_id (mkTurn User message (now env)) s).
  destruct (view_handler_run user_id s1) as (response & Hh & Hre & Hnone).
  assert (Hd : dispatch env user_id message s1 = (Ok response, s1)).
  { rewrite (dispatch_intent env user_id message s1 Hp), Hintent. exact Hh. }
  destruct (process_message_rephrases env user_id message s _ _ Hd)
    as (response' & Hrun & Hcases).
  rewrite Hrun. cbn [fst snd].
  rewrite finish_pending, finish_db, finish_llm_calls, Hre.
  rewrite Hre in Hcases. change (llm_calls s1) with (llm_calls s) in *.
  repeat split. exists response'. split; [reflexivity|].
  assert (Hsucc : success response = true).
  { unfold rephrased in Hre. apply andb_true_iff in Hre. apply Hre. }
  split.
  - destruct Hcases as [->|[(c & _ & ->)|(f & _ & _ & ->)]]; exact Hsucc.
  - intros Hempty. rewrite <- (Hnone Hempty). exact Hcases.
Qed.

Lemma view_request_reads_only_witness :
  let env := silent_env (LLMFail "service unavailable") in
  fst (process_message env 1 "show my meetings" fresh_agent)
  = Ok no_meetings_offer.
Proof.
  intros env.
  destruct (view_request_reads_only env 1 "show my meetings" fresh_agent
              eq_refl) as (_ & _ & _ & response & Hrun & _ & Hoffer).
  - vm_compute. reflexivity.
  - rewrite Hrun. f_equal.
    destruct (Hoffer eq_refl) as [H|[(c & Hc & _)|(f & Hf & Hrl & _)]].
    + exact H.
    + discriminate Hc.
    + injection Hf as <-. discriminate Hrl.
Defined.

(** X20. A message that is taken for general conversation and asks for
    help, or else greets, is answered with a canned text without any
    completion call: the reply is marked so that the rephrasing step skips
    it.  The table and the pending actions are unchanged. *)
Theorem help_and_greeting_without_completion :
  forall (env : Env) (user_id : nat) (message : string) (s : Agent),
    pending_actions s !! user_id = None ->
    _analyze_intent message = conversation ->
    asks_for_help message || greets message = true ->
    let run := process_message env user_id message s in
    fst run = Ok (if asks_for_help message
                  then mkResponse true help_text true else greeting)
    /\ llm_calls (snd run) = llm_calls s
    /\ db (snd run) = db s
    /\ pending_actions (snd run) = pending_actions s.
Proof.
  intros env user_id message s Hp Hintent Hkey run. subst run.
  set (s1 := with_turn user_id (mkTurn User message (now env)) s).
  set (response := if asks_for_help message
                   then mkResponse true help_text true else greeting).
  assert (Hd : dispatch env user_id message s1 = (Ok response, s1)).
  { rewrite (dispatch_intent env user_id message s1 Hp), Hintent.
    cbn [_handle_intent]. unfold _handle_general_conversation.
    subst response. unfold asks_for_help, greets in *.
    destruct (Str.any_in ["help"; "what can you do"; "how"; "?"] _);
      [reflexivity|].
    cbn [orb] in Hkey. rewrite Hkey. reflexivity. }
  destruct (process_message_rephrases env user_id message s _ _ Hd)
    as (response' & Hrun & Hcases).
  assert (Hre : rephrased response = false)
    by (subst response; destruct (asks_for_help message); reflexivity).
  rewrite Hre in Hcases. subst response'.
  rewrite Hrun. cbn [fst snd].
  rewrite finish_pending, finish_db, finish_llm_calls, Hre.
  repeat split.
Qed.

Lemma help_and_greeting_without_completion_witness :
  llm_calls (snd (process_message (silent_env (LLMReply "Sure."))
                    1 "what can you do?" fresh_agent)) = 0%nat.
Proof.
  destruct (help_and_greeting_without_completion (silent_env (LLMReply "Sure."))
              1 "what can you do?" fresh_agent eq_refl)
    as (_ & Hcalls & _).
  - vm_compute. reflexivity.
  - vm_compute. reflexivity.
  - exact Hcalls.
Defined.

(* ===================================================================== *)
(** * The number of completion calls *)
(* ===================================================================== *)

#[global] Instance same_calls_preorder : PreOrder same_calls.
Proof.
  split.
  - intros s. reflexivity.
  - intros s1 s2 s3 H12 H23. unfold same_calls in *. congruence.
Qed.

Lemma same_calls_set_pending user_id action :
  keeps same_calls (set_pending user_id action).
Proof. intros s. reflexivity. Qed.

Lemma same_calls_del_pending user_id : keeps same_calls (del_pending user_id).
Proof. intros s. unfold del_pending. destruct (pending_actions s !! user_id); reflexivity. Qed.

Lemma same_calls_set_db db' : keeps same_calls (set_db db').
Proof. intros s. reflexivity. Qed.

Lemma same_calls_append_turn user_id turn :
  keeps same_calls (append_turn user_id turn).
Proof. intros s. reflexivity. Qed.

#[global] Hint Resolve same_calls_set_pending same_calls_del_pending
  same_calls_set_db same_calls_append_turn : keeps.

Lemma same_calls_create_from_data env args user_id :
  keeps same_calls (_create_meeting_from_data env args user_id).
Proof. unfold _create_meeting_from_data. keeps_auto. Qed.

Lemma same_calls_update_from_data meeting_id updates :
  keeps same_calls (_update_meeting_from_data meeting_id updates).
Proof. unfold _update_meeting_from_data. keeps_auto. Qed.

Lemma same_calls_delete_each meetings : keeps same_calls (delete_each meetings).
Proof.
  induction meetings as [|m meetings IH]; simpl; [keeps_step|].
  apply keeps_bind; [typeclasses eauto | | intros _; exact IH].
  unfold delete_from_db. keeps_auto.
Qed.

#[global] Hint Resolve same_calls_create_from_data same_calls_update_from_data
  same_calls_delete_each : keeps.

Section Calls.
Context {A : Type}.

Lemma calls_zero (m : M A) n : keeps same_calls m -> calls_at_most n m.
Proof. intros H s. specialize (H s). unfold same_calls in H. lia. Qed.

Lemma calls_weaken (m : M A) n n' :
  calls_at_most n m -> (n <= n')%nat -> calls_at_most n' m.
Proof. intros H Hle s. specialize (H s). lia. Qed.

Lemma calls_bind_llm env {B} (f : string -> M B) n :
  (forall a, calls_at_most n (f a)) ->
  calls_at_most (S n) (llm_invoke env ≫= f).
Proof.
  intros Hf s. unfold mbind, M_bind, llm_invoke.
  destruct (llm env (llm_calls s)) as [content|failure]; cbn [snd].
  - specialize (Hf content (called s)). unfold called in Hf. cbn in Hf. lia.
  - cbn. lia.
Qed.

Lemma calls_bind_zero {B} (m : M A) (f : A -> M B) n :
  keeps same_calls m -> (forall a, calls_at_most n (f a)) ->
  calls_at_most n (m ≫= f).
Proof.
  intros Hm Hf s. unfold mbind, M_bind. specialize (Hm s).
  unfold same_calls in Hm.
  destruct (m s) as [[a|e] s']; cbn [snd] in *.
  - specialize (Hf a s'). lia.
  - lia.
Qed.

Lemma calls_try (body : M A) (handler : exn -> M A) n :
  calls_at_most n body -> (forall e, keeps same_calls (handler e)) ->
  calls_at_most n (try_except body handler).
Proof.
  intros Hb Hh s. unfold try_except. specialize (Hb s).
  destruct (body s) as [[a|e] s']; cbn [snd] in *; [exact Hb|].
  specialize (Hh e s'). unfold same_calls in Hh. lia.
Qed.
End Calls.

Create HintDb calls.

(** Goes through a handler, counting its completion calls. *)
Ltac calls_step :=
  first
    [ solve [auto with calls]
    | apply calls_bind_llm; intros ?
    | apply calls_bind_zero; [solve [keeps_auto] | intros ?]
    | apply calls_try; [| intros ?; solve [keeps_auto]]
    | match goal with
      | |- calls_at_most _ (match ?x with _ => _ end) => destruct x
      | |- calls_at_most _ (if ?b then _ else _) => destruct b
      | |- calls_at_most _ (let '(_, _) := ?x in _) => destruct x
      end
    | apply calls_zero; solve [keeps_auto] ].
Ltac calls_auto := repeat calls_step.

Lemma calls_create_with_info env user_id info :
  calls_at_most 1 (_create_meeting_with_info env user_id info).
Proof. unfold _create_meeting_with_info. calls_auto. Qed.

Lemma calls_create_validate env user_id info :
  calls_at_most 1 (create_validate env user_id info).
Proof. unfold create_validate. calls_auto. Qed.

#[global] Hint Resolve calls_create_with_info calls_create_validate : calls.

Lemma calls_handle_intent env user_id message intent :
  calls_at_most 2 (_handle_intent env user_id message intent).
Proof.
  destruct intent; simpl.
  - unfold _handle_view_meetings_conversational. calls_auto.
  - unfold _handle_create_meeting_conversational. calls_auto.
  - unfold _handle_update_meeting_conversational. calls_auto.
  - unfold _handle_delete_meeting_conversational. calls_auto.
  - unfold _handle_delete_all_meetings_conversational. calls_auto.
  - unfold _handle_general_conversation. calls_auto.
Qed.

Lemma calls_clarification env user_id message pending :
  calls_at_most 1
    (_handle_create_meeting_clarification env user_id message pending).
Proof. unfold _handle_create_meeting_clarification. calls_auto. Qed.

#[global] Hint Resolve calls_clarification : calls.

Lemma calls_pending_action_body env user_id message pending :
  calls_at_most 1 (pending_action_body env user_id message pending).
Proof.
  destruct pending; unfold pending_action_body.
  - calls_auto.
  - calls_auto.
  - unfold _handle_update_meeting_selection. calls_auto.
  - unfold _handle_update_meeting_details. calls_auto.
  - unfold _handle_delete_meeting_selection. calls_auto.
  - unfold delete_from_db. calls_auto.
  - unfold _handle_confirm_delete_all. calls_auto.
Qed.

Lemma calls_handle_pending_action env user_id message :
  calls_at_most 1 (_handle_pending_action env user_id message).
Proof.
  unfold _handle_pending_action.
  pose proof calls_pending_action_body. calls_auto.
Qed.

Lemma calls_dispatch env user_id message :
  calls_at_most 2 (dispatch env user_id message).
Proof.
  intros s. unfold dispatch. destruct (bool_decide _).
  - apply (calls_weaken _ 1 2 (calls_handle_pending_action env user_id message)).
    lia.
  - apply calls_handle_intent.
Qed.

(** X21. Processing one message makes at most three completion calls,
    whatever their outcomes: no call is repeated after a failure.  Three
    calls are made, for example, for a request to schedule that lacks
    details, when the service answers every call with plain text. *)
Theorem process_message_completion_calls :
  (forall (env : Env) (user_id : nat) (message : string) (s : Agent),
      (llm_calls s <= llm_calls (snd (process_message env user_id message s))
       <= llm_calls s + 3)%nat)
  /\ llm_calls (snd (process_message (silent_env (LLMReply "Sure."))
                       1 "schedule a call" fresh_agent)) = 3%nat.
Proof.
  split; [|vm_compute; reflexivity].
  intros env user_id message s.
  set (s1 := with_turn user_id (mkTurn User message (now env)) s).
  pose proof (calls_dispatch env user_id message s1) as Hd.
  change (llm_calls s1) with (llm_calls s) in Hd.
  destruct (dispatch env user_id message s1) as [[response|e] s2] eqn:Hrun;
    cbn [snd] in Hd.
  - destruct (process_message_returns env user_id message s response s2 Hrun)
      as (response' & Hrun' & _ & _).
    rewrite Hrun'. cbn [snd]. rewrite finish_llm_calls.
    destruct (rephrased response); lia.
  - rewrite (process_message_raises env user_id message s e s2 Hrun).
    cbn [snd]. lia.
Qed.

(* ===================================================================== *)
(** * Replies while the completion service is down *)
(* ===================================================================== *)

Lemma append_nonempty_l (a b : string) : a <> "" -> a +:+ b <> "".
Proof. destruct a; [contradiction|]. discriminate. Qed.

Section Down.
Context (env : Env) (Hdown : service_down env).

Lemma ro_ret {A} (P : A -> Prop) (a : A) : P a -> returns_only P (mret a).
Proof. intros H s a' s' [= <- _]. exact H. Qed.

Lemma ro_raise {A} (P : A -> Prop) e : returns_only P (@raise A e).
Proof. intros s a s' [=]. Qed.

Lemma ro_bind {A B} (P : B -> Prop) (m : M A) (f : A -> M B) :
  (forall a, returns_only P (f a)) -> returns_only P (m ≫= f).
Proof.
  intros Hf s b s'. unfold mbind, M_bind.
  destruct (m s) as [[a|e] s1]; [apply Hf | intros [=]].
Qed.

Lemma ro_bind_llm {B} (P : B -> Prop) (f : string -> M B) :
  returns_only P (llm_invoke env ≫= f).
Proof.
  intros s b s'. unfold mbind, M_bind, llm_invoke.
  destruct (Hdown (llm_calls s)) as [failure ->]. intros [=].
Qed.

Lemma ro_try {A} (P : A -> Prop) (body : M A) (handler : exn -> M A) :
  returns_only P body -> (forall e, returns_only P (handler e)) ->
  returns_only P (try_except body handler).
Proof.
  intros Hb Hh s a s'. unfold try_except.
  destruct (body s) as [[a'|e] s1] eqn:Hrun.
  - intros [= <- _]. eapply Hb, Hrun.
  - apply Hh.
Qed.
End Down.

(** Shows that a text that starts with a literal is not empty. *)
Ltac nonempty :=
  unfold answered; cbn [message reply];
  repeat match goal with
         | |- context [match ?x with _ => _ end] => destruct x
         end;
  first [ assumption
        | repeat (apply append_nonempty_l); discriminate ].

(** Goes through a handler whose completion calls all fail. *)
Ltac ro_step Hdown :=
  first
    [ solve [auto 1]
    | apply (ro_bind_llm _ Hdown)
    | apply ro_try; [| intros ?]
    | apply ro_bind; intros ?
    | apply ro_raise
    | match goal with
      | |- returns_only _ (match ?x with _ => _ end) => destruct x
      | |- returns_only _ (if ?b then _ else _) => destruct b
      | |- returns_only _ (let '(_, _) := ?x in _) => destruct x
      end
    | apply ro_ret; solve [nonempty] ].
Ltac ro_auto Hdown := repeat (ro_step Hdown).

Lemma select_meeting_answered (text : string) meetings :
  match select_meeting text meetings with
  | inl response => answered response
  | inr _ => True
  end.
Proof.
  unfold select_meeting.
  destruct (Str.isdigit (Str.strip text)).
  - destruct (_ && _); [|nonempty].
    destruct (meetings !! _); [exact I | nonempty].
  - destruct (_identify_meeting_from_message text meetings) as [[m|]|e];
      [exact I | nonempty | nonempty].
Qed.

Section DownHandlers.
Context (env : Env) (Hdown : service_down env) (user_id : nat).

Lemma ro_create_with_info info :
  returns_only answered (_create_meeting_with_info env user_id info).
Proof. unfold _create_meeting_with_info. ro_auto Hdown. Qed.

Lemma ro_create_validate info :
  returns_only answered (create_validate env user_id info).
Proof. unfold create_validate. ro_auto Hdown. Qed.

Lemma ro_handle_intent message intent :
  returns_only answered (_handle_intent env user_id message intent).
Proof.
  destruct intent; simpl.
  - unfold _handle_view_meetings_conversational. ro_auto Hdown.
  - unfold _handle_create_meeting_conversational. ro_auto Hdown.
  - unfold _handle_update_meeting_conversational. ro_auto Hdown.
  - unfold _handle_delete_meeting_conversational. ro_auto Hdown.
  - unfold _handle_delete_all_meetings_conversational. ro_auto Hdown.
  - unfold _handle_general_conversation, help_text. ro_auto Hdown.
Qed.

Lemma ro_clarification message pending :
  returns_only answered
    (_handle_create_meeting_clarification env user_id message pending).
Proof.
  pose proof ro_create_with_info as Hc.
  unfold _handle_create_meeting_clarification, followup_text.
  ro_auto Hdown.
Qed.

Lemma ro_pending_action_body message pending :
  returns_only answered (pending_action_body env user_id message pending).
Proof.
  pose proof ro_create_with_info as Hc.
  pose proof ro_clarification as Hcl.
  pose proof (select_meeting_answered message) as Hsel.
  destruct pending; unfold pending_action_body.
  - apply Hcl.
  - ro_auto Hdown.
  - unfold _handle_update_meeting_selection. specialize (Hsel available_meetings).
    destruct (select_meeting message available_meetings); ro_auto Hdown.
  - unfold _handle_update_meeting_details. ro_auto Hdown.
  - unfold _handle_delete_meeting_selection. specialize (Hsel available_meetings).
    destruct (select_meeting message available_meetings); ro_auto Hdown.
  - ro_auto Hdown.
  - unfold _handle_confirm_delete_all. ro_auto Hdown.
Qed.

Lemma ro_dispatch message :
  returns_only answered (dispatch env user_id message).
Proof.
  intros s response s'. unfold dispatch. destruct (bool_decide _).
  - revert s response s'.
    change (returns_only answered (_handle_pending_action env user_id message)).
    pose proof ro_pending_action_body as Hb.
    unfold _handle_pending_action. ro_auto Hdown.
  - apply ro_handle_intent.
Qed.
End DownHandlers.

(** X22. While every call of the completion service fails, every message
    still gets a reply with a text: the handlers fall back on their own
    wording, and the rephrasing step keeps it, at most adding the note on
    high usage. *)
Theorem service_down_still_answers :
  forall (env : Env) (user_id : nat) (message : string) (s : Agent),
    service_down env ->
    exists response,
      fst (process_message env user_id message s) = Ok response
      /\ answered response.
Proof.
  intros env user_id message s Hdown.
  set (s1 := with_turn user_id (mkTurn User message (now env)) s).
  destruct (dispatch env user_id message s1) as [[response|e] s2] eqn:Hrun.
  - pose proof (ro_dispatch env Hdown user_id message s1 response s2 Hrun)
      as Hans.
    destruct (process_message_rephrases env user_id message s response s2 Hrun)
      as (response' & Hrun' & Hcases).
    exists response'. rewrite Hrun'. split; [reflexivity|].
    destruct (rephrased response); [|subst response'; exact Hans].
    destruct Hcases as [->|[(c & Hc & _)|(f & _ & _ & ->)]].
    + exact Hans.
    + destruct (Hdown (llm_calls s2)) as [failure Hf]. congruence.
    + unfold answered. simpl. apply append_nonempty_l, Hans.
  - exists generic_error.
    rewrite (process_message_raises env user_id message s e s2 Hrun).
    split; [reflexivity | unfold answered; simpl; discriminate].
Qed.

Lemma service_down_still_answers_witness :
  exists response,
    fst (process_message (silent_env (LLMFail "429 quota exceeded")) 1
           "tell me a joke" fresh_agent) = Ok response
    /\ answered response.
Proof.
  apply (service_down_still_answers (silent_env (LLMFail "429 quota exceeded"))
           1 "tell me a joke" fresh_agent).
  intros n. eexists. reflexivity.
Defined.

(* ===================================================================== *)
(** * What every turn keeps of the meeting table *)
(* ===================================================================== *)

#[global] Instance table_ok_rel_preorder : PreOrder table_ok_rel.
Proof.
  split.
  - intros s H. exact H.
  - intros s1 s2 s3 H12 H23 H. apply H23, H12, H.
Qed.

Lemma table_ok_set_pending user_id action :
  keeps table_ok_rel (set_pending user_id action).
Proof. intros s H. exact H. Qed.

Lemma table_ok_del_pending user_id : keeps table_ok_rel (del_pending user_id).
Proof.
  intros s H. unfold del_pending.
  destruct (pending_actions s !! user_id); exact H.
Qed.

Lemma table_ok_llm_invoke env : keeps table_ok_rel (llm_invoke env).
Proof. intros s H. unfold llm_invoke. destruct (llm env _); exact H. Qed.

Lemma table_ok_append_turn user_id turn :
  keeps table_ok_rel (append_turn user_id turn).
Proof. intros s H. exact H. Qed.

Lemma table_ok_create env args user_id :
  keeps table_ok_rel (_create_meeting_from_data env args user_id).
Proof.
  intros s [Hnd Hwt]. unfold _create_meeting_from_data.
  destruct (c_start_time args) as [[t|junk]|]; try (split; assumption).
  destruct (c_duration_minutes args) as [dur|]; [|split; assumption].
  destruct (c_participants args) as [ps|]; [|split; assumption].
  unfold mbind, M_bind, read, set_db, ScheduleService.create_meeting, mret, M_ret.
  cbn [snd db]. split.
  - rewrite map_app. apply NoDup_app. split; [exact Hnd|].
    split; [|apply NoDup_singleton].
    intros i Hi Hi'. apply list_elem_of_In in Hi.
    apply list_elem_of_singleton in Hi'. subst i.
    apply in_map_iff in Hi. destruct Hi as (m & Hid & Hin).
    apply fresh_id_above in Hin. cbn in Hid. lia.
  - apply Forall_app. split; [exact Hwt|].
    apply Forall_singleton. reflexivity.
Qed.

Lemma table_ok_update meeting_id updates :
  keeps table_ok_rel (_update_meeting_from_data meeting_id updates).
Proof.
  intros s [Hnd Hwt].
  pose proof (update_meeting_from_data_run meeting_id updates s) as Hrun.
  destruct (_update_meeting_from_data meeting_id updates s)
    as [[[m'|]|e] s'] eqn:Hu; cbn [snd]; [| subst s'; split; assumption
                                         | contradiction].
  destruct Hrun as (_ & _ & Hend & _ & _).
  unfold _update_meeting_from_data, mbind, M_bind, read in Hu.
  cbn beta iota in Hu.
  destruct (get_meeting (db s) meeting_id) as [existing|]; [|discriminate].
  destruct (match up_start_time updates with
            | Absent => _ | Null => _ | Val (Iso t) => _ | Val (Junk _) => _
            end) as [[start_update new_start]|]; [|discriminate].
  destruct (fget_default _ _) as [duration|]; [|discriminate].
  unfold ScheduleService.update_meeting in Hu.
  destruct (get_meeting (db s) meeting_id) as [existing'|] eqn:Hget;
    [|discriminate].
  cbn in Hu. injection Hu as Hm <-. cbn [db]. split.
  - rewrite map_map.
    replace (map _ (db s)) with (map id (db s)); [exact Hnd|].
    apply map_ext. intros x.
    destruct (Nat.eqb_spec (id x) meeting_id) as [Hx|]; [|reflexivity].
    apply get_meeting_Some in Hget. simpl. destruct Hget. congruence.
  - apply List.Forall_forall. intros x Hx. apply in_map_iff in Hx.
    destruct Hx as (y & Hy & Hin).
    destruct (Nat.eqb (id y) meeting_id).
    + subst x. rewrite Hm. exact Hend.
    + subst x. rewrite List.Forall_forall in Hwt. apply Hwt, Hin.
Qed.

Lemma table_ok_filter (db : DB) (p : Meeting -> bool) :
  table_ok db -> table_ok (List.filter p db).
Proof.
  intros [Hnd Hwt]. split; [apply NoDup_map_filter, Hnd|].
  rewrite List.Forall_forall in *. intros x Hx. apply filter_In in Hx.
  apply Hwt, Hx.
Qed.

Lemma table_ok_delete meeting_id :
  keeps table_ok_rel (delete_from_db meeting_id).
Proof.
  intros s H. unfold delete_from_db, mbind, M_bind, read, set_db.
  cbn [snd db]. rewrite delete_meeting_any.
  apply table_ok_filter, H.
Qed.

#[global] Hint Resolve table_ok_set_pending table_ok_del_pending
  table_ok_llm_invoke table_ok_append_turn table_ok_create table_ok_update
  table_ok_delete : keeps.

Lemma table_ok_create_with_info env user_id info :
  keeps table_ok_rel (_create_meeting_with_info env user_id info).
Proof. unfold _create_meeting_with_info. keeps_auto. Qed.

Lemma table_ok_create_validate env user_id info :
  keeps table_ok_rel (create_validate env user_id info).
Proof. unfold create_validate. keeps_auto. Qed.

#[global] Hint Resolve table_ok_create_with_info table_ok_create_validate
  : keeps.

Lemma table_ok_handle_intent env user_id message intent :
  keeps table_ok_rel (_handle_intent env user_id message intent).
Proof.
  destruct intent; simpl.
  - unfold _handle_view_meetings_conversational. keeps_auto.
  - unfold _handle_create_meeting_conversational. keeps_auto.
  - unfold _handle_update_meeting_conversational. keeps_auto.
  - unfold _handle_delete_meeting_conversational. keeps_auto.
  - unfold _handle_delete_all_meetings_conversational. keeps_auto.
  - unfold _handle_general_conversation. keeps_auto.
Qed.

Lemma table_ok_delete_each meetings : keeps table_ok_rel (delete_each meetings).
Proof.
  induction meetings as [|m meetings IH]; simpl; [keeps_step|].
  apply keeps_bind; [typeclasses eauto | auto with keeps | intros _; exact IH].
Qed.

Lemma table_ok_clarification env user_id message pending :
  keeps table_ok_rel
    (_handle_create_meeting_clarification env user_id message pending).
Proof. unfold _handle_create_meeting_clarification. keeps_auto. Qed.

#[global] Hint Resolve table_ok_delete_each table_ok_clarification : keeps.

Lemma table_ok_pending_action_body env user_id message pending :
  keeps table_ok_rel (pending_action_body env user_id message pending).
Proof.
  destruct pending; unfold pending_action_body.
  - apply table_ok_clarification.
  - keeps_auto.
  - unfold _handle_update_meeting_selection. keeps_auto.
  - unfold _handle_update_meeting_details. keeps_auto.
  - unfold _handle_delete_meeting_selection. keeps_auto.
  - keeps_auto.
  - unfold _handle_confirm_delete_all. keeps_auto.
Qed.

Lemma table_ok_dispatch env user_id message :
  keeps table_ok_rel (dispatch env user_id message).
Proof.
  intros s. unfold dispatch. destruct (bool_decide _).
  - revert s. change (keeps table_ok_rel (_handle_pending_action env user_id message)).
    unfold _handle_pending_action.
    pose proof table_ok_pending_action_body. keeps_auto.
  - apply table_ok_handle_intent.
Qed.

(** X23. Every turn keeps the meeting table in order: when the rows have
    distinct ids and each row ends its duration after its start, the same
    holds after the message has been processed, whatever the message, the
    pending action and the outcomes of the completion calls. *)
Theorem process_message_keeps_table_in_order :
  forall (env : Env) (user_id : nat) (message : string) (s : Agent),
    table_ok (db s) ->
    table_ok (db (snd (process_message env user_id message s))).
Proof.
  intros env user_id message s Hok.
  destruct (process_message_state env user_id message s) as [Hdb _].
  rewrite Hdb.
  apply (table_ok_dispatch env user_id message
           (with_turn user_id (mkTurn User message (now env)) s)).
  exact Hok.
Qed.

Lemma process_message_keeps_table_in_order_witness :
  let ten := 739046 * US_PER_DAY + 10 * US_PER_HOUR in
  let standup := mkMeeting 1 (Some "Standup") None 60 ten
                   (ten + timedelta_minutes 60) 1 [PId 1] "confirmed"
                   "general" in
  let s := mkAgent ∅ {[ 1%nat := PUpdateDetails standup ]} [standup] 0 in
  table_ok (db (snd (process_message (silent_env (LLMFail "service unavailable"))
                       1 "make it 30 minutes" s))).
Proof.
  intros ten standup s.
  apply (process_message_keeps_table_in_order
           (silent_env (LLMFail "service unavailable")) 1 "make it 30 minutes" s).
  split.
  - apply (bool_decide_unpack _). vm_compute. exact I.
  - repeat constructor.
Defined.

(* ===================================================================== *)
(** * Requests to cancel, to update and to schedule *)
(* ===================================================================== *)

Lemma meeting_to_delete_In d meetings m :
  meeting_to_delete d meetings = Ok (Some m) -> In m meetings.
Proof.
  induction meetings as [|x meetings IH]; simpl; [discriminate|].
  destruct (truthy_str _); [|intros H; right; apply IH, H].
  destruct (title x) as [t|]; [|discriminate].
  destruct (_ && _); [intros [= <-]; left; reflexivity|].
  intros H. right. apply IH, H.
Qed.

Ltac offered_case Hin :=
  do 2 eexists; (split; [reflexivity|]); (split; [reflexivity|]);
  first [ left; reflexivity
        | right; left; split; [discriminate | reflexivity]
        | right; right; eexists; split; [eapply Hin; eassumption | reflexivity] ].

Lemma delete_handler_run env user_id message s :
  exists response s',
    _handle_delete_meeting_conversational env user_id message s
    = (Ok response, s')
    /\ db s' = db s
    /\ offered_for_deletion user_id s s'.
Proof.
  unfold offered_for_deletion, _handle_delete_meeting_conversational,
    try_except, mbind, M_bind, llm_invoke, read, lift, mret, M_ret, set_pending.
  destruct (llm env (llm_calls s)) as [content|failure];
    [|offered_case meeting_to_delete_In].
  cbn [db pending_actions conversation_history llm_calls].
  remember (get_user_meetings (db s) user_id None) as meetings eqn:Hms.
  clear Hms.
  destruct (_extract_json_from_llm_output env (Str.strip content))
    as [[| |d]|]; cbn [jtruthy default as_dict negb Datatypes.id].
  - destruct meetings as [|x l]; offered_case meeting_to_delete_In.
  - offered_case meeting_to_delete_In.
  - destruct (field_is (a_action d) "delete_meeting").
    + destruct (meeting_to_delete d meetings) as [[m|]|e] eqn:Hmd.
      * destruct meetings as [|x l] eqn:Hl;
          [offered_case meeting_to_delete_In|].
        rewrite <- Hl in *. clear Hl.
        do 2 eexists; (split; [reflexivity|]); (split; [reflexivity|]).
        right. right. exists m. split; [eapply meeting_to_delete_In, Hmd|].
        reflexivity.
      * destruct meetings as [|x l]; [offered_case meeting_to_delete_In|].
        destruct (field_is (a_action d) "clarify_delete");
          offered_case meeting_to_delete_In.
      * offered_case meeting_to_delete_In.
    + destruct meetings as [|x l]; [offered_case meeting_to_delete_In|].
      destruct (field_is (a_action d) "clarify_delete");
        offered_case meeting_to_delete_In.
  - destruct meetings as [|x l]; offered_case meeting_to_delete_In.
Qed.

Lemma meeting_with_title_In target meetings m :
  meeting_with_title target meetings = Ok (Some m) -> In m meetings.
Proof.
  induction meetings as [|x meetings IH]; simpl; [discriminate|].
  destruct (title x) as [t|]; [|discriminate].
  destruct (String.eqb _ _); [intros [= <-]; left; reflexivity|].
  intros H. right. apply IH, H.
Qed.

Lemma identify_meeting_Some message meetings m :
  _identify_meeting_from_message message meetings = Ok (Some m) ->
  In m meetings.
Proof.
  intros H. pose proof (identify_meeting_In message meetings) as Hi.
  rewrite H in Hi. exact Hi.
Qed.

(** The last step of the update handler, on a list of meetings that is
    not empty. *)
Lemma update_handler_tail user_id (meetings : list Meeting)
    (target_meeting : option Meeting) (updates : option Updates) s0 s :
  meetings = get_user_meetings (db s) user_id None ->
  meetings <> [] ->
  db s0 = db s -> pending_actions s0 = pending_actions s ->
  (forall m, target_meeting = Some m -> In m meetings) ->
  exists response s',
    match
      match target_meeting with
      | None =>
          set_pending user_id (PUpdate meetings);;
          mret (reply true
                  ("I'd be happy to help you update a meeting! Which meeting would you like to change?"
                   +:+ Fmt.nl +:+ Fmt.nl +:+ numbered_meetings meetings))
      | Some target_meeting =>
          if negb (updates_truthy updates)
          then
            set_pending user_id (PUpdateDetails target_meeting);;
            mret (reply true
                    ("Great! I found your meeting '"
                     +:+ show_opt (title target_meeting)
                     +:+ "'. What would you like to change about it? (time, duration, title, etc.)"))
          else
            updated_meeting ←
              _update_meeting_from_data (id target_meeting)
                (default Updates_empty updates);
            match updated_meeting with
            | Some updated_meeting =>
                mret (reply true
                        ("Perfect! I've updated '"
                         +:+ show_opt (title updated_meeting)
                         +:+ "'. Is there anything else you'd like me to help you with?"))
            | None =>
                mret (reply false "I couldn't update the meeting. Please try again.")
            end
      end s0
    with
    | (Ok a, s') => (Ok a, s')
    | (Raise _, s') =>
        (Ok (reply false "I'm having trouble with that. Could you try again?"), s')
    end = (Ok response, s')
    /\ offered_for_update user_id s s'.
Proof.
  intros Hms Hne Hdb Hpe Hin. unfold offered_for_update. rewrite <- Hms.
  destruct target_meeting as [tm|].
  - specialize (Hin tm eq_refl).
    destruct (negb (updates_truthy updates)).
    + do 2 eexists. split; [reflexivity|]. left. split; [exact Hdb|].
      right. right. exists tm. split; [exact Hin|]. cbn. rewrite Hpe. reflexivity.
    + unfold mbind, M_bind.
      pose proof (update_meeting_from_data_run (id tm)
                    (default Updates_empty updates) s0) as Hrun.
      destruct (_update_meeting_from_data (id tm) (default Updates_empty updates) s0)
        as [[[m'|]|e] s2]; [| |contradiction].
      * destruct Hrun as (Hget & (_ & Hp2 & _) & Hend & Hex & Hoth).
        do 2 eexists. split; [reflexivity|]. right.
        split; [congruence|]. exists tm, (default Updates_empty updates), m'.
        split; [exact Hin|]. unfold updated_from. rewrite <- Hdb. auto.
      * subst s2. do 2 eexists. split; [reflexivity|]. left.
        split; [exact Hdb | left; exact Hpe].
  - do 2 eexists. split; [reflexivity|]. left. split; [exact Hdb|].
    right. left. split; [exact Hne|]. cbn. rewrite Hpe. reflexivity.
Qed.

Ltac update_same :=
  do 2 eexists; (split; [reflexivity|]);
  left; split; [reflexivity | left; reflexivity].

Lemma update_handler_run env user_id message s :
  exists response s',
    _handle_update_meeting_conversational env user_id message s
    = (Ok response, s')
    /\ offered_for_update user_id s s'.
Proof.
  unfold _handle_update_meeting_conversational, try_except.
  unfold mbind at 1, M_bind at 1, llm_invoke.
  destruct (llm env (llm_calls s)) as [content|failure];
    [|unfold offered_for_update; update_same].
  unfold mbind at 1, M_bind at 1, read at 1.
  cbn [db pending_actions conversation_history llm_calls].
  set (st := mkAgent _ _ _ _).
  assert (Hdb : db st = db s) by reflexivity.
  assert (Hpe : pending_actions st = pending_actions s) by reflexivity.
  clearbody st.
  remember (get_user_meetings (db s) user_id None) as meetings eqn:Hms.
  (* The first pair: what the completion names. *)
  assert (Hfirst :
            exists o,
              (if jtruthy (_extract_json_from_llm_output env (Str.strip content))
               then
                 d ← lift (as_dict (default JFalsy
                             (_extract_json_from_llm_output env
                                (Str.strip content))));
                 if field_is (a_action d) "update_meeting"
                 then
                   target ←
                     (if truthy_str (fget (a_target_title d))
                      then lift (meeting_with_title
                                   (default "" (fget (a_target_title d)))
                                   meetings)
                      else mret None);
                   mret (target, fget (a_updates d))
                 else mret (None, None)
               else mret (None, None)) st = (o, st)
              /\ forall target updates m,
                   o = Ok (target, updates) -> target = Some m ->
                   In m meetings).
  { destruct (_extract_json_from_llm_output env (Str.strip content))
      as [[| |d]|]; cbn [jtruthy default as_dict Datatypes.id];
      try (eexists; split; [reflexivity|]; intros ? ? ? [= <- _] [=]).
    unfold lift, mbind, M_bind. cbn beta iota.
    destruct (field_is (a_action d) "update_meeting");
      [|eexists; split; [reflexivity|]; intros ? ? ? [= <- _] [=]].
    destruct (truthy_str (fget (a_target_title d)));
      [|eexists; split; [reflexivity|]; intros ? ? ? [= <- _] [=]].
    destruct (meeting_with_title _ meetings) as [[m|]|e] eqn:Hmt;
      eexists; (split; [reflexivity|]); intros ? ? m0; try discriminate.
    - intros [= <- _] [= <-]. eapply meeting_with_title_In, Hmt.
    - intros [= <- _] [=]. }
  destruct Hfirst as (o & Hfirst & Hin1).
  unfold mbind at 1, M_bind at 1. rewrite Hfirst.
  destruct o as [[target updates]|e];
    [|unfold offered_for_update; rewrite <- Hms; do 2 eexists;
      (split; [reflexivity|]); left; split; [exact Hdb | left; exact Hpe]].
  specialize (Hin1 target updates).
  (* The second pair: what the rules read from the message. *)
  assert (Hsecond :
            exists o,
              (match target with
               | Some _ =>
                   if updates_truthy updates then mret (target, updates)
                   else
                     target ← lift (_identify_meeting_from_message message meetings);
                     u ← lift (_extract_update_info env message);
                     mret (target, Some u)
               | None =>
                   target ← lift (_identify_meeting_from_message message meetings);
                   u ← lift (_extract_update_info env message);
                   mret (target, Some u)
               end) st = (o, st)
              /\ forall target' updates' m,
                   o = Ok (target', updates') -> target' = Some m ->
                   In m meetings).
  { assert (Hrules :
              exists o,
                (target ← lift (_identify_meeting_from_message message meetings);
                 u ← lift (_extract_update_info env message);
                 mret (target, Some u)) st = (o, st)
                /\ forall target' updates' m,
                     o = Ok (target', updates') -> target' = Some m ->
                     In m meetings).
    { unfold lift, mbind, M_bind.
      destruct (_identify_meeting_from_message message meetings)
        as [[m|]|e] eqn:Hid;
        [| |eexists; split; [reflexivity|]; intros ? ? ? [=]].
      - destruct (_extract_update_info env message) as [u|e];
          eexists; (split; [reflexivity|]); intros ? ? m0; try discriminate.
        intros [= <- _] [= <-]. eapply identify_meeting_Some, Hid.
      - destruct (_extract_update_info env message) as [u|e];
          eexists; (split; [reflexivity|]); intros ? ? m0; try discriminate.
        intros [= <- _] [=]. }
    destruct target as [tm|]; [|exact Hrules].
    destruct (updates_truthy updates); [|exact Hrules].
    eexists. split; [reflexivity|]. intros ? ? m [= <- _] Ht.
    eapply Hin1; [reflexivity | exact Ht]. }
  destruct Hsecond as (o2 & Hsecond & Hin2).
  unfold mbind at 1, M_bind at 1. rewrite Hsecond.
  destruct o2 as [[target' updates']|e];
    [|unfold offered_for_update; rewrite <- Hms; do 2 eexists;
      (split; [reflexivity|]); left; split; [exact Hdb | left; exact Hpe]].
  destruct meetings as [|x l] eqn:Hl.
  - unfold offered_for_update. rewrite <- Hms. do 2 eexists.
    split; [reflexivity|]. left. split; [exact Hdb | left; exact Hpe].
  - rewrite <- Hl in *.
    apply (update_handler_tail user_id meetings target' updates' st s Hms);
      [rewrite Hl; discriminate | exact Hdb | exact Hpe|].
    intros m Hm. eapply Hin2; [reflexivity | exact Hm].
Qed.

(** X24. A request to cancel a meeting, from a user with no pending
    action, never changes the table.  Afterwards the pending actions are
    as before, or the user is shown the list of the meetings in which the
    user has a part, or the user is asked to confirm the deletion of one
    meeting of that list: no other meeting is ever offered. *)
Theorem delete_request_offers_own_meetings :
  forall (env : Env) (user_id : nat) (message : string) (s : Agent),
    pending_actions s !! user_id = None ->
    _analyze_intent message = delete_meeting ->
    let run := process_message env user_id message s in
    db (snd run) = db s
    /\ offered_for_deletion user_id s (snd run)
    /\ exists response, fst run = Ok response.
Proof.
  intros env user_id message s Hp Hintent run. subst run.
  set (s1 := with_turn user_id (mkTurn User message (now env)) s).
  destruct (delete_handler_run env user_id message s1)
    as (response & s2 & Hh & Hdb & Hoff).
  assert (Hd : dispatch env user_id message s1 = (Ok response, s2)).
  { rewrite (dispatch_intent env user_id message s1 Hp), Hintent. exact Hh. }
  destruct (process_message_returns env user_id message s _ _ Hd)
    as (response' & Hrun & _ & _).
  rewrite Hrun. cbn [fst snd].
  unfold offered_for_deletion in *.
  rewrite finish_pending, finish_db.
  split; [exact Hdb|]. split; [exact Hoff | eauto].
Qed.

Lemma delete_request_offers_own_meetings_witness :
  let ten := 739046 * US_PER_DAY + 10 * US_PER_HOUR in
  let standup := mkMeeting 1 (Some "Standup") None 60 ten
                   (ten + timedelta_minutes 60) 1 [PId 1] "confirmed"
                   "general" in
  let review := mkMeeting 2 (Some "Review") None 60 ten
                  (ten + timedelta_minutes 60) 2 [PId 3] "confirmed"
                  "general" in
  let s := mkAgent ∅ ∅ [standup; review] 0 in
  offered_for_deletion 1 s
    (snd (process_message (silent_env (LLMReply "Which one?")) 1
            "cancel the standup" s)).
Proof.
  intros ten standup review s.
  destruct (delete_request_offers_own_meetings
              (silent_env (LLMReply "Which one?")) 1 "cancel the standup" s
              eq_refl) as (_ & Hoff & _).
  - vm_compute. reflexivity.
  - exact Hoff.
Defined.

(** X25. A request to update a meeting, from a user with no pending
    action, can change the table in the same turn, without a question for
    confirmation, but only in a row of a meeting in which the user has a
    part: that row then ends its duration after its start and every other
    id reads as before.  Otherwise the table is unchanged, and the pending
    actions are as before, or the user is shown the list of those meetings,
    or the user is asked what to change about one of them. *)
Theorem update_request_touches_own_meetings :
  forall (env : Env) (user_id : nat) (message : string) (s : Agent),
    pending_actions s !! user_id = None ->
    _analyze_intent message = update_meeting ->
    let run := process_message env user_id message s in
    offered_for_update user_id s (snd run)
    /\ exists response, fst run = Ok response.
Proof.
  intros env user_id message s Hp Hintent run. subst run.
  set (s1 := with_turn user_id (mkTurn User message (now env)) s).
  destruct (update_handler_run env user_id message s1)
    as (response & s2 & Hh & Hoff).
  assert (Hd : dispatch env user_id message s1 = (Ok response, s2)).
  { rewrite (dispatch_intent env user_id message s1 Hp), Hintent. exact Hh. }
  destruct (process_message_returns env user_id message s _ _ Hd)
    as (response' & Hrun & _ & _).
  rewrite Hrun. cbn [fst snd].
  unfold offered_for_update in *.
  rewrite finish_pending, finish_db.
  split; [exact Hoff | eauto].
Qed.

Lemma update_request_touches_own_meetings_witness :
  let ten := 739046 * US_PER_DAY + 10 * US_PER_HOUR in
  let standup := mkMeeting 1 (Some "Standup") None 60 ten
                   (ten + timedelta_minutes 60) 1 [PId 1] "confirmed"
                   "general" in
  let s := mkAgent ∅ ∅ [standup] 0 in
  offered_for_update 1 s
    (snd (process_message (silent_env (LLMReply "Done.")) 1
            "move the standup to 3pm" s)).
Proof.
  intros ten standup s.
  destruct (update_request_touches_own_meetings
              (silent_env (LLMReply "Done.")) 1 "move the standup to 3pm" s
              eq_refl) as (Hoff & _).
  - vm_compute. reflexivity.
  - exact Hoff.
Defined.

Lemma create_validate_run env user_id info s0 s :
  pending_actions s0 = pending_actions s ->
  exists response s',
    create_validate env user_id info s0 = (Ok response, s')
    /\ proposed_for_creation user_id s s'.
Proof.
  intros Hpe. unfold create_validate, proposed_for_creation.
  destruct (missing_fields_of info) as [|x still] eqn:Hm.
  - do 2 eexists. split; [reflexivity|]. right. exists info.
    right. left. split; [exact Hm|]. cbn. rewrite Hpe. reflexivity.
  - unfold try_except, mbind, M_bind, llm_invoke.
    destruct (llm env (llm_calls s0)); do 2 eexists;
      (split; [reflexivity|]); right; exists info; left;
      (split; [rewrite Hm; discriminate|]); cbn; rewrite Hpe, Hm; reflexivity.
Qed.

Lemma create_handler_run env user_id message s :
  exists response s',
    _handle_create_meeting_conversational env user_id message s
    = (Ok response, s')
    /\ proposed_for_creation user_id s s'.
Proof.
  unfold _handle_create_meeting_conversational, try_except.
  unfold mbind at 1, M_bind at 1, llm_invoke.
  destruct (llm env (llm_calls s)) as [content|failure];
    [|do 2 eexists; split; [reflexivity | left; reflexivity]].
  set (st := mkAgent _ _ _ _).
  assert (Hpe : pending_actions st = pending_actions s) by reflexivity.
  clearbody st.
  assert (Hrules :
            exists response s',
              match (meeting_info ← lift (_extract_meeting_info env message);
                     create_validate env user_id meeting_info) st with
              | (Ok a, s') => (Ok a, s')
              | (Raise _, s') =>
                  (Ok (reply false "I'm having trouble understanding the meeting details. Could you try again?"), s')
              end = (Ok response, s')
              /\ proposed_for_creation user_id s s').
  { unfold lift, mbind, M_bind.
    destruct (_extract_meeting_info env message) as [info|e];
      [|do 2 eexists; split; [reflexivity | left; exact Hpe]].
    destruct (create_validate_run env user_id info st s Hpe)
      as (response & s' & -> & Hprop). eauto. }
  destruct (_extract_json_from_llm_output env (Str.strip content))
    as [[| |d]|]; cbn [jtruthy default as_dict negb Datatypes.id].
  - exact Hrules.
  - do 2 eexists. split; [reflexivity | left; exact Hpe].
  - rewrite (bind_ok (lift (Ok d)) _ st d st eq_refl).
    destruct (field_is (a_action d) "create_meeting"
              || field_is (a_action d) "suggest_alternative");
      cbn [negb]; [|exact Hrules].
    destruct (field_is (a_action d) "suggest_alternative").
    + do 2 eexists. split; [reflexivity|]. right. eexists. right. right.
      eexists. cbn. rewrite Hpe. reflexivity.
    + destruct (create_validate_run env user_id (info_of_action d) st s Hpe)
        as (response & s' & -> & Hprop). eauto.
  - exact Hrules.
Qed.

(** X26. A request to schedule a meeting, from a user with no pending
    action, never creates the meeting in the same turn.  What it leaves
    pending is nothing new, or the details read so far with the list of
    the required fields that they lack, or, when they lack none of title,
    time, participants and duration, a proposal to be confirmed, or, when
    the completion suggests another time, the details with that time. *)
Theorem create_request_proposes :
  forall (env : Env) (user_id : nat) (message : string) (s : Agent),
    pending_actions s !! user_id = None ->
    _analyze_intent message = create_meeting ->
    let run := process_message env user_id message s in
    db (snd run) = db s
    /\ proposed_for_creation user_id s (snd run)
    /\ exists response, fst run = Ok response.
Proof.
  intros env user_id message s Hp Hintent run. subst run.
  set (s1 := with_turn user_id (mkTurn User message (now env)) s).
  destruct (create_handler_run env user_id message s1)
    as (response & s2 & Hh & Hprop).
  assert (Hd : dispatch env user_id message s1 = (Ok response, s2)).
  { rewrite (dispatch_intent env user_id message s1 Hp), Hintent. exact Hh. }
  pose proof (table_dispatch env user_id message s1) as Hdb.
  rewrite Hd in Hdb. cbn [snd] in Hdb.
  destruct (process_message_returns env user_id message s _ _ Hd)
    as (response' & Hrun & _ & _).
  rewrite Hrun. cbn [fst snd].
  unfold proposed_for_creation in *.
  rewrite finish_pending, finish_db.
  split; [|split; [exact Hprop | eauto]].
  apply Hdb. unfold read_only_turn.
  change (pending_actions s1) with (pending_actions s). rewrite Hp, Hintent.
  discriminate.
Qed.

Lemma create_request_proposes_witness :
  proposed_for_creation 1 fresh_agent
    (snd (process_message (silent_env (LLMReply "Sure.")) 1
            "schedule a call" fresh_agent)).
Proof.
  destruct (create_request_proposes (silent_env (LLMReply "Sure.")) 1
              "schedule a call" fresh_agent eq_refl) as (_ & Hprop & _).
  - vm_compute. reflexivity.
  - exact Hprop.
Defined.

(* ===================================================================== *)
(** * What the rules read from a message *)
(* ===================================================================== *)

Lemma rmatch_mono (r : Re.regex) :
  forall {R R'} (k : Re.K R) (k' : Re.K R'),
    succeeds_where k k' ->
    succeeds_where (fun prev s caps => Re.rmatch r prev s caps k)
                   (fun prev s caps => Re.rmatch r prev s caps k').
Proof.
  induction r as [l|p|r1 IH1 r2 IH2|r1 IH1 r2 IH2|lo hi r IH|r IH|];
    intros R R' k k' Hk prev s caps x; cbn [Re.rmatch].
  - destruct (Str.strip_prefix (Str.chars l) s); [apply Hk | discriminate].
  - destruct s as [|c s]; [discriminate|]. destruct (p c); [apply Hk | discriminate].
  - apply (IH1 _ _ _ _ (IH2 _ _ k k' Hk)).
  - destruct (Re.rmatch r1 prev s caps k) as [x1|] eqn:H1.
    + intros _. destruct (IH1 _ _ k k' Hk prev s caps x1 H1) as [y Hy].
      rewrite Hy. eauto.
    + intros H2. destruct (IH2 _ _ k k' Hk prev s caps x H2) as [y Hy].
      destruct (Re.rmatch r1 prev s caps k'); eauto.
  - generalize (match hi with Some h => h | None => length s end) as n.
    generalize 0%nat as count. intros count n. revert count prev s caps x.
    induction n as [|n IHn]; intros count prev s caps x.
    + destruct (lo <=? count)%nat; [apply Hk | discriminate].
    + match goal with
      | |- match Re.rmatch r prev s caps ?kk with _ => _ end = Some x ->
           exists y, match Re.rmatch r prev s caps ?kk' with _ => _ end = Some y =>
          pose proof (IH _ _ kk kk'
                        (fun p0 s0 c0 x0 => IHn (S count) p0 s0 c0 x0)
                        prev s caps) as Hr;
          destruct (Re.rmatch r prev s caps kk) as [x1|];
          [destruct (Hr x1 eq_refl) as [y ->]; eauto|];
          clear Hr; destruct (lo <=? count)%nat; [|discriminate];
          intros Hx; destruct (Hk prev s caps x Hx) as [y Hy];
          destruct (Re.rmatch r prev s caps kk'); eauto
      end.
  - apply (IH _ _ _ _). intros p0 s0 c0 x0. apply Hk.
  - destruct (xorb _ _); [apply Hk | discriminate].
Qed.

Lemma rmatch_groupless (r : Re.regex) :
  groupless r = true ->
  forall {R} (k : Re.K R) prev s caps x,
    Re.rmatch r prev s caps k = Some x ->
    exists prev' s', k prev' s' caps = Some x.
Proof.
  induction r as [l|p|r1 IH1 r2 IH2|r1 IH1 r2 IH2|lo hi r IH|r IH|];
    cbn [groupless]; intros Hg R k prev s caps x; cbn [Re.rmatch];
    try discriminate.
  - destruct (Str.strip_prefix (Str.chars l) s); [eauto | discriminate].
  - destruct s as [|c s]; [discriminate|]. destruct (p c); [eauto | discriminate].
  - apply andb_true_iff in Hg. destruct Hg as [Hg1 Hg2]. intros H.
    destruct (IH1 Hg1 _ _ _ _ _ _ H) as (p1 & s1 & H1). eapply IH2; eauto.
  - apply andb_true_iff in Hg. destruct Hg as [Hg1 Hg2].
    destruct (Re.rmatch r1 prev s caps k) as [x1|] eqn:H1.
    + intros [= <-]. eapply IH1; eauto.
    + intros H2. eapply IH2; eauto.
  - generalize (match hi with Some h => h | None => length s end) as n.
    generalize 0%nat as count. intros count n. revert count prev s caps x.
    induction n as [|n IHn]; intros count prev s caps x.
    + destruct (lo <=? count)%nat; [eauto | discriminate].
    + match goal with
      | |- match Re.rmatch r prev s caps ?kk with _ => _ end = Some x -> _ =>
          pose proof (IH Hg _ kk prev s caps) as Hr;
          destruct (Re.rmatch r prev s caps kk) as [x1|]
      end.
      * intros [= <-]. destruct (Hr x1 eq_refl) as (p1 & s1 & H1).
        eapply IHn, H1.
      * destruct (lo <=? count)%nat; [eauto | discriminate].
  - destruct (xorb _ _); [eauto | discriminate].
Qed.

Lemma rmatch_group_count (r : Re.regex) :
  groups_in_line r = true ->
  forall {R} (k : Re.K R) prev s caps x,
    Re.rmatch r prev s caps k = Some x ->
    exists prev' s' caps',
      k prev' s' caps' = Some x
      /\ length caps' = (length caps + group_count r)%nat.
Proof.
  induction r as [l|p|r1 IH1 r2 IH2|r1 IH1 r2 IH2|lo hi r IH|r IH|];
    cbn [groups_in_line group_count]; intros Hg R k prev s caps x H.
  - apply (rmatch_groupless (Re.Lit l) eq_refl) in H.
    destruct H as (p1 & s1 & H). exists p1, s1, caps. split; [exact H | lia].
  - apply (rmatch_groupless (Re.Cls p) eq_refl) in H.
    destruct H as (p1 & s1 & H). exists p1, s1, caps. split; [exact H | lia].
  - apply andb_true_iff in Hg. destruct Hg as [Hg1 Hg2]. cbn [Re.rmatch] in H.
    destruct (IH1 Hg1 _ _ _ _ _ _ H) as (p1 & s1 & c1 & H1 & L1).
    destruct (IH2 Hg2 _ _ _ _ _ _ H1) as (p2 & s2 & c2 & H2 & L2).
    exists p2, s2, c2. split; [exact H2 | lia].
  - apply (rmatch_groupless (Re.Alt r1 r2) Hg) in H.
    destruct H as (p1 & s1 & H). exists p1, s1, caps. split; [exact H | lia].
  - apply (rmatch_groupless (Re.Rep lo hi r) Hg) in H.
    destruct H as (p1 & s1 & H). exists p1, s1, caps. split; [exact H | lia].
  - cbn [Re.rmatch] in H. apply (rmatch_groupless r Hg) in H.
    destruct H as (p1 & s1 & H). do 3 eexists. split; [exact H|].
    rewrite length_app. simpl. lia.
  - apply (rmatch_groupless Re.WordB eq_refl) in H.
    destruct H as (p1 & s1 & H). exists p1, s1, caps. split; [exact H | lia].
Qed.

Lemma search_from_group_count (r : Re.regex) :
  groups_in_line r = true ->
  forall s prev m,
    Re.search_from r prev s = Some m ->
    length (Re.groups m) = group_count r.
Proof.
  intros Hg. induction s as [|c s IH]; intros prev m; cbn [Re.search_from];
    destruct (Re.match_at r prev _) as [m'|] eqn:Hm;
    try discriminate; try (intros H; eapply IH, H).
  all: intros [= <-]; unfold Re.match_at in Hm;
    destruct (rmatch_group_count r Hg _ _ _ _ _ Hm)
      as (p1 & s1 & c1 & [= <-] & L); simpl; exact L.
Qed.

(** Where the pattern of hours and minutes matches, the pattern of hours
    matches. *)
Lemma compound_needs_hours prev s m :
  Re.match_at Re.re_dur_compound prev s = Some m ->
  exists m', Re.match_at Re.re_dur_hours prev s = Some m'.
Proof.
  unfold Re.match_at, Re.re_dur_compound, Re.re_dur_hours. cbn [Re.rmatch].
  apply (rmatch_mono (Re.Rep 1 None Re.digit)).
  intros p0 s0 c0 x0. apply (rmatch_mono Re.spaces).
  intros p1 s1 c1 x1. apply (rmatch_mono Re.hour_units).
  intros p2 s2 c2 x2 _. eauto.
Qed.

Lemma search_compound_needs_hours :
  forall s prev,
    Re.search_from Re.re_dur_hours prev s = None ->
    Re.search_from Re.re_dur_compound prev s = None.
Proof.
  induction s as [|c s IH]; intros prev; cbn [Re.search_from];
    destruct (Re.match_at Re.re_dur_hours prev _) as [m'|] eqn:Hh;
    try discriminate;
    destruct (Re.match_at Re.re_dur_compound prev _) as [m|] eqn:Hc;
    try (destruct (compound_needs_hours _ _ _ Hc) as [m2 Hm2]; congruence).
  - reflexivity.
  - apply IH.
Qed.

Lemma dt_minute_combine day h : dt_minute (dt_combine day h 0) = 0.
Proof.
  unfold dt_minute, dt_combine, US_PER_DAY, US_PER_HOUR, US_PER_MINUTE.
  replace (day * 86400000000 + h * 3600000000 + 0 * 60000000)
    with (((day * 24 + h) * 60) * 60000000) by lia.
  rewrite Z.div_mul by lia. apply Z.mod_mul. lia.
Qed.

Lemma clock_of_two_groups m :
  length (Re.groups m) = 2%nat -> snd (clock_of_match m) = 0.
Proof. intros H. unfold clock_of_match. rewrite H. reflexivity. Qed.

Lemma today_at_minute today hour minute t :
  today_at today hour minute = Ok (Iso t) -> minute = 0 -> dt_minute t = 0.
Proof.
  unfold today_at. intros H ->.
  destruct (negb _); [discriminate|]. cbn in H.
  injection H as <-. apply dt_minute_combine.
Qed.

(** X27. Unless the message holds a time of the form h:mm followed by am
    or pm, the start time read from it is on the hour: the minutes of a
    time written as 14:30 are dropped, since a match of the pattern for 24
    hours has two groups and is read as an hour with a period. *)
Theorem extract_meeting_info_drops_minutes :
  forall (env : Env) (message : string) (info : Info) (t : datetime),
    _extract_meeting_info env message = Ok info ->
    Re.search Re.re_time_hm_period (Str.lower message) = None ->
    i_start_time info = Val (Iso t) ->
    dt_minute t = 0.
Proof.
  intros env message info t Hext Hnone Hstart.
  unfold _extract_meeting_info in Hext. cbn [first_match] in Hext.
  rewrite Hnone in Hext.
  assert (Hclock : forall m,
             match Re.search Re.re_time_h_period (Str.lower message) with
             | Some m => Some m
             | None =>
                 match Re.search Re.re_time_hm (Str.lower message) with
                 | Some m => Some m
                 | None => None
                 end
             end = Some m -> snd (clock_of_match m) = 0).
  { intros m Hm. apply clock_of_two_groups.
    destruct (Re.search Re.re_time_h_period (Str.lower message)) as [m1|] eqn:H1.
    - injection Hm as <-.
      apply (search_from_group_count Re.re_time_h_period eq_refl _ _ _ H1).
    - destruct (Re.search Re.re_time_hm (Str.lower message)) as [m2|] eqn:H2;
        [|discriminate].
      injection Hm as <-.
      apply (search_from_group_count Re.re_time_hm eq_refl _ _ _ H2). }
  destruct (match Re.search Re.re_time_h_period (Str.lower message) with
            | Some m => Some m
            | None => _
            end) as [m|]; [|].
  - specialize (Hclock m eq_refl).
    destruct (clock_of_match m) as [hour minute]. cbn [snd] in Hclock.
    destruct (today_at (dt_date (now env)) hour minute) as [ts|e] eqn:Hta;
      [|discriminate].
    injection Hext as <-. cbn [i_start_time] in Hstart.
    injection Hstart as ->.
    eapply today_at_minute; eassumption.
  - injection Hext as <-. discriminate Hstart.
Qed.

Lemma extract_meeting_info_drops_minutes_witness :
  let env := silent_env (LLMFail "service unavailable") in
  exists info t,
    _extract_meeting_info env "move the review to 14:30" = Ok info
    /\ i_start_time info = Val (Iso t)
    /\ dt_hour t = 14 /\ dt_minute t = 0.
Proof.
  intros env.
  exists (mkInfo Absent (Val (Iso (dt_combine 739046 14 0))) Absent Absent
                 Absent Absent Absent), (dt_combine 739046 14 0).
  split; [vm_compute; reflexivity|]. split; [reflexivity|].
  split; [vm_compute; reflexivity|].
  apply (extract_meeting_info_drops_minutes env "move the review to 14:30"
           (mkInfo Absent (Val (Iso (dt_combine 739046 14 0))) Absent Absent
                   Absent Absent Absent)).
  - vm_compute. reflexivity.
  - vm_compute. reflexivity.
  - reflexivity.
Defined.

(** X28. The third duration pattern, hours followed by minutes, is never
    reached: wherever it matches, the first pattern, hours alone, matches
    too and is tried before.  The duration read from a message is the
    number before the first unit of hours, times sixty, or else the number
    before the first unit of minutes; the minutes of a duration written as
    1 hour 30 minutes are dropped. *)
Theorem extract_meeting_info_duration :
  forall (env : Env) (message : string) (info : Info),
    _extract_meeting_info env message = Ok info ->
    (Re.search Re.re_dur_hours (Str.lower message) = None ->
     Re.search Re.re_dur_compound (Str.lower message) = None)
    /\ i_duration_minutes info
       = match first_match [Re.re_dur_hours; Re.re_dur_minutes]
                 (Str.lower message) with
         | Some m =>
             if Str.among (Re.group m 2) ["hour"; "hours"; "hr"; "hrs"]
             then Val (Str.int (Re.group m 1) * 60)
             else Val (Str.int (Re.group m 1))
         | None => Absent
         end.
Proof.
  intros env message info Hext.
  assert (Hdead : Re.search Re.re_dur_hours (Str.lower message) = None ->
                  Re.search Re.re_dur_compound (Str.lower message) = None)
    by apply search_compound_needs_hours.
  split; [exact Hdead|].
  unfold _extract_meeting_info in Hext.
  destruct (match first_match [Re.re_time_hm_period; Re.re_time_h_period;
                               Re.re_time_hm] (Str.lower message) with
            | Some m => _
            | None => Ok Absent
            end) as [start|e]; [|discriminate].
  injection Hext as <-. cbn [i_duration_minutes first_match].
  destruct (Re.search Re.re_dur_hours (Str.lower message)) as [m|] eqn:Hh.
  - unfold duration_of_match.
    rewrite (search_from_group_count Re.re_dur_hours eq_refl _ _ _ Hh).
    reflexivity.
  - rewrite (Hdead eq_refl).
    destruct (Re.search Re.re_dur_minutes (Str.lower message)) as [m|] eqn:Hm;
      [|reflexivity].
    unfold duration_of_match.
    rewrite (search_from_group_count Re.re_dur_minutes eq_refl _ _ _ Hm).
    reflexivity.
Qed.

Lemma extract_meeting_info_duration_witness :
  let env := silent_env (LLMFail "service unavailable") in
  exists info,
    _extract_meeting_info env "sync for 1 hour 30 minutes" = Ok info
    /\ i_duration_minutes info = Val 60.
Proof.
  intros env.
  assert (Hext : _extract_meeting_info env "sync for 1 hour 30 minutes"
                 = Ok (mkInfo Absent Absent (Val 60) Absent Absent Absent
                              Absent))
    by (vm_compute; reflexivity).
  eexists. split; [exact Hext|].
  destruct (extract_meeting_info_duration env "sync for 1 hour 30 minutes" _
              Hext) as [_ Hd].
  rewrite Hd. vm_compute. reflexivity.
Defined.

(* ===================================================================== *)
(** * The analytics of a user *)
(* ===================================================================== *)

Import ScheduleAnalytics.

Section Stats.
Context {K : Type} `{Countable K}.











End Stats.

